(** * aegea.ecs: the Fargate run workflow and the task listing

    A shallow embedding of [src/aegea/ecs.py].  The AWS service calls the
    module makes are external collaborators: they are an interface
    ([Cloud]) over an arbitrary world state, every call is recorded in a
    trace, and a call may raise.  [run] and [tasks] are translated line
    by line over that interface. *)

From Stdlib Require Import String Ascii List ZArith Lia.
From stdpp Require Import base option gmap strings.
Import ListNotations.

Local Open Scope string_scope.
Local Open Scope list_scope.

(** ** Python string helpers *)

Module Py.

(** [s.split(sep)] for a one-character separator: never an empty list. *)
Fixpoint split (sep : ascii) (s : string) : list string :=
  match s with
  | EmptyString => [EmptyString]
  | String c s' =>
      if Ascii.eqb c sep then EmptyString :: split sep s'
      else match split sep s' with
           | [] => [String c EmptyString]
           | h :: t => String c h :: t
           end
  end.

(** [s.split(sep, maxsplit)]: at most [maxsplit] cuts, the rest of the
    string is the last field. *)
Fixpoint splitn (sep : ascii) (s : string) (maxsplit : nat) {struct s}
  : list string :=
  match maxsplit with
  | O => [s]
  | S m =>
      match s with
      | EmptyString => [EmptyString]
      | String c s' =>
          if Ascii.eqb c sep then EmptyString :: splitn sep s' m
          else match splitn sep s' maxsplit with
               | [] => [String c EmptyString]
               | h :: t => String c h :: t
               end
      end
  end.

(** [sep.join(l)] *)
Fixpoint join (sep : string) (l : list string) : string :=
  match l with
  | [] => EmptyString
  | [x] => x
  | x :: rest => x +:+ sep +:+ join sep rest
  end.

(** [s.replace(old, new)] for one-character [old] and [new]. *)
Fixpoint replace (old new : ascii) (s : string) : string :=
  match s with
  | EmptyString => EmptyString
  | String c s' =>
      String (if Ascii.eqb c old then new else c) (replace old new s')
  end.

(** Truth value of a string: the empty string is false. *)
Definition truthy (s : string) : bool :=
  match s with EmptyString => false | _ => true end.

(** [sep not in s] *)
Fixpoint free_of (sep : ascii) (s : string) : bool :=
  match s with
  | EmptyString => true
  | String c s' => negb (Ascii.eqb c sep) && free_of sep s'
  end.

End Py.

(** ** Exceptions and results *)

Inductive exn : Type :=
| IndexError
| KeyError (key : string)
| TypeError (msg : string)
| AttributeError (attr : string)
| ClientError (msg : string).

(** What an external call answers: it raises or it returns. *)
Definition result (A : Type) : Type := exn + A.

(** [l[i]] on a Python list. *)
Definition index {A : Type} (l : list A) (i : nat) : result A :=
  match nth_error l i with
  | Some x => inr x
  | None => inl IndexError
  end.

(** ** ARNs *)

(** Modelled from the spec: the [ARN] class of [aegea.util.aws] is not
    part of the sources at hand.  The spec gives the format
    [arn:partition:service:region:account:resource]; the resource portion
    is everything after the fifth colon. *)
Definition ARN_resource (arn : string) : result string :=
  match Py.splitn ":" arn 5 with
  | [_; _; _; _; _; resource] => inr resource
  | _ => inl (AttributeError "resource")
  end.

(** ecs.py line 104: [ARN(task_arn).resource.split("/")[1]] *)
Definition task_uuid_of (task_arn : string) : result string :=
  match ARN_resource task_arn with
  | inl e => inl e
  | inr resource => index (Py.split "/" resource) 1
  end.

(** The ARN of an ECS task in the long format:
    [arn:partition:ecs:region:account:task/cluster-name/instance-id]. *)
Definition task_arn_of (partition region account cluster instance_id : string)
  : string :=
  "arn:" +:+ partition +:+ ":ecs:" +:+ region +:+ ":" +:+ account +:+
  ":task/" +:+ cluster +:+ "/" +:+ instance_id.


(** ** Data exchanged with the services *)

Module Task.
(** One entry of [res["tasks"]]. *)
Record t := { taskArn : string; lastStatus : string }.
End Task.

Module Failure.
(** One entry of [res["failures"]]. *)
Record t := { arn : string; reason : string }.
End Failure.

Module Response.
(** The answer of [run_task] and of [describe_tasks]. *)
Record t := { tasks : list Task.t; failures : list Failure.t }.
End Response.

Module Subnet.
Record t := { id : string }.
End Subnet.

Module Vpc.
(** The network [ensure_vpc] answers, with the subnets that
    [vpc.subnets.all()] enumerates. *)
Record t := { id : string; subnets : list Subnet.t }.
End Vpc.

Module Role.
Record t := { name : string; arn : string }.
End Role.

Module SecurityGroup.
Record t := { id : string }.
End SecurityGroup.

Module LogEvent.
Record t := { message : string }.
End LogEvent.

Module LogConfiguration.
Record t := { logDriver : string; options : gmap string string }.
End LogConfiguration.

Module ContainerDefinition.
Record t := {
  name : string;
  image : option string;
  memory : option Z;
  command : list string;
  logConfiguration : LogConfiguration.t
}.
End ContainerDefinition.

Module TaskDefinition.
(** The keyword arguments of [register_task_definition]. *)
Record t := {
  family : string;
  containerDefinitions : list ContainerDefinition.t;
  requiresCompatibilities : list string;
  executionRoleArn : string;
  taskRoleArn : string;
  networkMode : string;
  cpu : option string;
  memory : option string
}.
End TaskDefinition.

Module NetworkConfiguration.
(** The value under ['awsvpcConfiguration']. *)
Record t := {
  subnets : list string;
  securityGroups : list string;
  assignPublicIp : string
}.
End NetworkConfiguration.

Module RunTaskRequest.
(** The keyword arguments of [run_task]. *)
Record t := {
  cluster : string;
  taskDefinition : string;
  launchType : string;
  networkConfiguration : NetworkConfiguration.t
}.
End RunTaskRequest.

Module RunArgs.
(** The namespace [run] receives. *)
Record t := {
  command : list string;
  execution_role : string;
  task_role : string;
  security_group : string;
  cluster : string;
  task_name : string;
  memory : option Z;
  fargate_cpu : option string;
  fargate_memory : option string;
  image : option string
}.
End RunArgs.

Module TasksArgs.
(** The namespace [tasks] receives. *)
Record t := {
  tasks : list string;
  cluster : option string;
  desired_status : option string;
  launch_type : option string
}.
End TasksArgs.

(** ** Traces *)

(** Everything the module does to the outside: service calls with their
    arguments, lines printed, sleeps. *)
Inductive event : Type :=
| EnsureVpc
| CreateCluster (clusterName : string)
| EnsureLogGroup (name : string)
| EnsureIamRole (name : string) (trust policies : option (list string))
| RegisterTaskDefinition (defn : TaskDefinition.t)
| EnsureSecurityGroup (name : string) (vpc : Vpc.t)
| RunTask (req : RunTaskRequest.t)
| DescribeTasks (cluster : option string) (tasks : list string)
| ListTasks (kwargs : gmap string string)
| CloudwatchLogReader (stream : string) (log_group_name : string)
| Print (line : string)
| Sleep (seconds : nat)
| PageOutput (rows : list Task.t).

(** ** The external interface *)

(** The collaborators [ecs.py] imports, over a world state [W].  Each call
    answers a result and the next world. *)
Class Cloud (W : Type) : Type := {
  region_name : W -> string;
  ensure_vpc : W -> result Vpc.t * W;
  create_cluster : string -> W -> result unit * W;
  ensure_log_group : string -> W -> result unit * W;
  ensure_iam_role :
    string -> option (list string) -> option (list string) ->
    W -> result Role.t * W;
  register_task_definition : TaskDefinition.t -> W -> result unit * W;
  ensure_security_group : string -> Vpc.t -> W -> result SecurityGroup.t * W;
  run_task : RunTaskRequest.t -> W -> result Response.t * W;
  describe_tasks : option string -> list string -> W -> result Response.t * W;
  (** [list(paginate(list_tasks, **kwargs))] *)
  list_tasks : gmap string string -> W -> result (list string) * W;
  (** [list(CloudwatchLogReader(stream, log_group_name=group))] *)
  log_events : string -> string -> W -> result (list LogEvent.t) * W
}.

(** ** The monad of the workflow: world, exceptions, trace *)

Inductive outcome (A : Type) : Type :=
| Returned (a : A)
| Raised (e : exn)
| OutOfFuel.
Arguments Returned {A} a.
Arguments Raised {A} e.
Arguments OutOfFuel {A}.

Definition M (W A : Type) : Type := W -> outcome A * W * list event.

Definition ret {W A : Type} (a : A) : M W A :=
  fun w => (Returned a, w, []).

Definition bind {W A B : Type} (m : M W A) (k : A -> M W B) : M W B :=
  fun w =>
    match m w with
    | (Returned a, w1, t1) =>
        match k a w1 with (o, w2, t2) => (o, w2, t1 ++ t2) end
    | (Raised e, w1, t1) => (Raised e, w1, t1)
    | (OutOfFuel, w1, t1) => (OutOfFuel, w1, t1)
    end.

Notation "x <- m ;; k" := (bind m (fun x => k))
  (at level 100, m at next level, right associativity).

(** A service call: recorded, then answered by the world. *)
Definition call {W A : Type} (ev : event) (op : W -> result A * W) : M W A :=
  fun w =>
    match op w with
    | (inr a, w1) => (Returned a, w1, [ev])
    | (inl e, w1) => (Raised e, w1, [ev])
    end.

(** A local effect: [print], [time.sleep], [page_output]. *)
Definition emit {W : Type} (ev : event) : M W unit :=
  fun w => (Returned tt, w, [ev]).

(** A pure step that may raise. *)
Definition lift {W A : Type} (r : result A) : M W A :=
  fun w =>
    match r with
    | inr a => (Returned a, w, [])
    | inl e => (Raised e, w, [])
    end.

Definition read {W A : Type} (f : W -> A) : M W A :=
  fun w => (Returned (f w), w, []).

Definition out_of_fuel {W A : Type} : M W A :=
  fun w => (OutOfFuel, w, []).

(** [d[key]] on a dict with string keys. *)
Definition getitem (d : gmap string string) (key : string) : result string :=
  match d !! key with
  | Some v => inr v
  | None => inl (KeyError key)
  end.

(** [f(key=value, **d)]: a keyword given twice is a [TypeError]. *)
Definition kwargs (key value : string) (d : gmap string string)
  : result (gmap string string) :=
  match d !! key with
  | Some _ => inl (TypeError key)
  | None => inr (<[key := value]> d)
  end.

(** [if v: d[key] = v] for an optional command-line value. *)
Definition set_if (key : string) (v : option string) (d : gmap string string)
  : gmap string string :=
  match v with
  | Some s => if Py.truthy s then <[key := s]> d else d
  | None => d
  end.

(** Truth value of an optional command-line value. *)
Definition given (v : option string) : bool :=
  match v with
  | Some s => Py.truthy s
  | None => false
  end.

(** Truth value of a list. *)
Definition nonempty {A : Type} (l : list A) : bool :=
  match l with [] => false | _ => true end.

(** ** The workflow *)

Section Workflow.

Context {W : Type} `{Cloud W}.

(** ecs.py lines 66-73 *)
Definition log_config_of (region task_name : string) : LogConfiguration.t :=
  {| LogConfiguration.logDriver := "awslogs";
     LogConfiguration.options :=
       {[ "awslogs-region" := region;
          "awslogs-group" := task_name;
          "awslogs-stream-prefix" := task_name ]} |}.

(** ecs.py lines 75-79 *)
Definition container_defn_of (args : RunArgs.t)
    (log_config : LogConfiguration.t) : ContainerDefinition.t :=
  {| ContainerDefinition.name := RunArgs.task_name args;
     ContainerDefinition.image := RunArgs.image args;
     ContainerDefinition.memory := RunArgs.memory args;
     ContainerDefinition.command := RunArgs.command args;
     ContainerDefinition.logConfiguration := log_config |}.

(** The keyword arguments of ecs.py lines 82-89 *)
Definition task_definition_of (args : RunArgs.t)
    (container_defn : ContainerDefinition.t) (exec_role task_role : Role.t)
  : TaskDefinition.t :=
  {| TaskDefinition.family := RunArgs.task_name args;
     TaskDefinition.containerDefinitions := [container_defn];
     TaskDefinition.requiresCompatibilities := ["FARGATE"];
     TaskDefinition.executionRoleArn := Role.arn exec_role;
     TaskDefinition.taskRoleArn := Role.arn task_role;
     TaskDefinition.networkMode := "awsvpc";
     TaskDefinition.cpu := RunArgs.fargate_cpu args;
     TaskDefinition.memory := RunArgs.fargate_memory args |}.

(** ecs.py lines 90-98 *)
Definition network_config_of (vpc : Vpc.t) (sg : SecurityGroup.t)
  : NetworkConfiguration.t :=
  {| NetworkConfiguration.subnets := map Subnet.id (Vpc.subnets vpc);
     NetworkConfiguration.securityGroups := [SecurityGroup.id sg];
     NetworkConfiguration.assignPublicIp := "ENABLED" |}.

(** The keyword arguments of ecs.py lines 99-102 *)
Definition run_task_request_of (args : RunArgs.t)
    (network_config : NetworkConfiguration.t) : RunTaskRequest.t :=
  {| RunTaskRequest.cluster := RunArgs.cluster args;
     RunTaskRequest.taskDefinition := RunArgs.task_name args;
     RunTaskRequest.launchType := "FARGATE";
     RunTaskRequest.networkConfiguration := network_config |}.

(** [res["tasks"][0]["lastStatus"]] *)
Definition last_status (res : Response.t) : result string :=
  match index (Response.tasks res) 0 with
  | inr task => inr (Task.lastStatus task)
  | inl e => inl e
  end.

(** The line [print(task_arn, status)] writes. *)
Definition progress_line (task_arn status : string) : string :=
  task_arn +:+ " " +:+ status.

(** ecs.py lines 106-109.  [fuel] bounds the number of times the body of
    the [while] runs; the condition is tested before fuel is looked at.
    The status printed is the one the condition has just read. *)
Fixpoint watch_loop (fuel : nat) (cluster task_arn : string)
    (res : Response.t) : M W unit :=
  status <- lift (last_status res) ;;
  if negb (String.eqb status "STOPPED") then
    match fuel with
    | O => out_of_fuel
    | S fuel' =>
        _ <- emit (Print (progress_line task_arn status)) ;;
        _ <- emit (Sleep 1) ;;
        res' <- call (DescribeTasks (Some cluster) [task_arn])
                     (describe_tasks (Some cluster) [task_arn]) ;;
        watch_loop fuel' cluster task_arn res'
    end
  else ret tt.

(** ecs.py lines 111-113, the body of the [for]. *)
Fixpoint print_messages (events : list LogEvent.t) : M W unit :=
  match events with
  | [] => ret tt
  | ev :: rest =>
      _ <- emit (Print (LogEvent.message ev)) ;;
      print_messages rest
  end.

(** ecs.py lines 63-113 *)
Definition run (fuel : nat) (args : RunArgs.t) : M W unit :=
  vpc <- call EnsureVpc ensure_vpc ;;
  _ <- call (CreateCluster (RunArgs.cluster args))
            (create_cluster (RunArgs.cluster args)) ;;
  region <- read region_name ;;
  let log_config := log_config_of region (RunArgs.task_name args) in
  group <- lift (getitem (LogConfiguration.options log_config)
                         "awslogs-group") ;;
  _ <- call (EnsureLogGroup group) (ensure_log_group group) ;;
  let container_defn := container_defn_of args log_config in
  exec_role <-
    call (EnsureIamRole (RunArgs.execution_role args) (Some ["ecs-tasks"])
            (Some ["service-role/AWSBatchServiceRole"]))
         (ensure_iam_role (RunArgs.execution_role args) (Some ["ecs-tasks"])
            (Some ["service-role/AWSBatchServiceRole"])) ;;
  task_role <-
    call (EnsureIamRole (RunArgs.task_role args) None None)
         (ensure_iam_role (RunArgs.task_role args) None None) ;;
  let defn := task_definition_of args container_defn exec_role task_role in
  _ <- call (RegisterTaskDefinition defn) (register_task_definition defn) ;;
  sg <- call (EnsureSecurityGroup (RunArgs.security_group args) vpc)
             (ensure_security_group (RunArgs.security_group args) vpc) ;;
  let network_config := network_config_of vpc sg in
  let req := run_task_request_of args network_config in
  res <- call (RunTask req) (run_task req) ;;
  task <- lift (index (Response.tasks res) 0) ;;
  let task_arn := Task.taskArn task in
  task_uuid <- lift (task_uuid_of task_arn) ;;
  _ <- watch_loop fuel (RunArgs.cluster args) task_arn res ;;
  let stream :=
    Py.join "/" [RunArgs.task_name args; RunArgs.task_name args; task_uuid] in
  events <- call (CloudwatchLogReader stream (RunArgs.task_name args))
                 (log_events stream (RunArgs.task_name args)) ;;
  print_messages events.

(** ecs.py lines 41-55.  [page_output(tabulate(task_desc, args))] is the
    one output of the listing; it is recorded with the descriptions it
    shows. *)
Definition tasks (args : TasksArgs.t) : M W unit :=
  let list_tasks_args : gmap string string := ∅ in
  let list_tasks_args :=
    set_if "cluster" (TasksArgs.cluster args) list_tasks_args in
  let list_tasks_args :=
    set_if "launchType" (TasksArgs.launch_type args) list_tasks_args in
  let list_tasks_args :=
    set_if "desiredStatus" (TasksArgs.desired_status args) list_tasks_args in
  args_tasks <-
    (if negb (nonempty (TasksArgs.tasks args)) then
       found <- call (ListTasks list_tasks_args)
                     (list_tasks list_tasks_args) ;;
       if negb (given (TasksArgs.desired_status args)) then
         stopped_args <- lift (kwargs "desiredStatus" "STOPPED"
                                      list_tasks_args) ;;
         stopped <- call (ListTasks stopped_args)
                         (list_tasks stopped_args) ;;
         ret (found ++ stopped)
       else ret found
     else ret (TasksArgs.tasks args)) ;;
  task_desc <-
    (if nonempty args_tasks then
       res <- call (DescribeTasks (TasksArgs.cluster args) args_tasks)
                   (describe_tasks (TasksArgs.cluster args) args_tasks) ;;
       ret (Response.tasks res)
     else ret []) ;;
  emit (PageOutput task_desc).

(** ecs.py lines 42-48: the keyword arguments of the listing. *)
Definition list_tasks_args_of (args : TasksArgs.t) : gmap string string :=
  set_if "desiredStatus" (TasksArgs.desired_status args)
    (set_if "launchType" (TasksArgs.launch_type args)
       (set_if "cluster" (TasksArgs.cluster args) ∅)).

(** ecs.py lines 54-55: describe the tasks found, show the descriptions. *)
Definition describe_and_show (args : TasksArgs.t) (args_tasks : list string)
  : M W unit :=
  task_desc <-
    (if nonempty args_tasks then
       res <- call (DescribeTasks (TasksArgs.cluster args) args_tasks)
                   (describe_tasks (TasksArgs.cluster args) args_tasks) ;;
       ret (Response.tasks res)
     else ret []) ;;
  emit (PageOutput task_desc).

(** What is shown when the description succeeds (or is not needed). *)
Definition shown (args : TasksArgs.t) (l : list string) (res : Response.t)
  : list event :=
  if nonempty l then
    [DescribeTasks (TasksArgs.cluster args) l; PageOutput (Response.tasks res)]
  else [PageOutput []].

(** *** The phases of [run]

    [run] is one function; for the statements below its body is cut at
    the [run_task] call (line 99) and after the task ARN is read (line
    103).  [run_phases] proves the cut. *)

(** ecs.py lines 64-98: everything before the task is submitted. *)
Definition provision (args : RunArgs.t) : M W NetworkConfiguration.t :=
  vpc <- call EnsureVpc ensure_vpc ;;
  _ <- call (CreateCluster (RunArgs.cluster args))
            (create_cluster (RunArgs.cluster args)) ;;
  region <- read region_name ;;
  let log_config := log_config_of region (RunArgs.task_name args) in
  group <- lift (getitem (LogConfiguration.options log_config)
                         "awslogs-group") ;;
  _ <- call (EnsureLogGroup group) (ensure_log_group group) ;;
  let container_defn := container_defn_of args log_config in
  exec_role <-
    call (EnsureIamRole (RunArgs.execution_role args) (Some ["ecs-tasks"])
            (Some ["service-role/AWSBatchServiceRole"]))
         (ensure_iam_role (RunArgs.execution_role args) (Some ["ecs-tasks"])
            (Some ["service-role/AWSBatchServiceRole"])) ;;
  task_role <-
    call (EnsureIamRole (RunArgs.task_role args) None None)
         (ensure_iam_role (RunArgs.task_role args) None None) ;;
  let defn := task_definition_of args container_defn exec_role task_role in
  _ <- call (RegisterTaskDefinition defn) (register_task_definition defn) ;;
  sg <- call (EnsureSecurityGroup (RunArgs.security_group args) vpc)
             (ensure_security_group (RunArgs.security_group args) vpc) ;;
  ret (network_config_of vpc sg).

(** ecs.py lines 104-113: the task is submitted; watch it, read its
    logs. *)
Definition watch_and_read (fuel : nat) (args : RunArgs.t)
    (task_arn : string) (res : Response.t) : M W unit :=
  task_uuid <- lift (task_uuid_of task_arn) ;;
  _ <- watch_loop fuel (RunArgs.cluster args) task_arn res ;;
  let stream :=
    Py.join "/" [RunArgs.task_name args; RunArgs.task_name args; task_uuid] in
  events <- call (CloudwatchLogReader stream (RunArgs.task_name args))
                 (log_events stream (RunArgs.task_name args)) ;;
  print_messages events.

(** ecs.py lines 99-113: submit, watch, read the logs. *)
Definition launch_and_watch (fuel : nat) (args : RunArgs.t)
    (network_config : NetworkConfiguration.t) : M W unit :=
  let req := run_task_request_of args network_config in
  res <- call (RunTask req) (run_task req) ;;
  task <- lift (index (Response.tasks res) 0) ;;
  watch_and_read fuel args (Task.taskArn task) res.

(** *** What the watch loop observes *)

(** One [describe_tasks] call of the loop. *)
Definition poll (cluster task_arn : string) : W -> result Response.t * W :=
  describe_tasks (Some cluster) [task_arn].

(** The world after [k] polls. *)
Fixpoint world_after (cluster task_arn : string) (w : W) (k : nat) : W :=
  match k with
  | O => w
  | S k' => snd (poll cluster task_arn (world_after cluster task_arn w k'))
  end.

(** The [k]-th response the loop looks at: the answer of [run_task] for
    [k = 0], then the answers of the successive polls. *)
Definition response_at (cluster task_arn : string) (res0 : Response.t)
    (w : W) (k : nat) : result Response.t :=
  match k with
  | O => inr res0
  | S k' => fst (poll cluster task_arn (world_after cluster task_arn w k'))
  end.

(** The [k]-th status reported for the task. *)
Definition status_at (cluster task_arn : string) (res0 : Response.t)
    (w : W) (k : nat) : result string :=
  match response_at cluster task_arn res0 w k with
  | inr res => last_status res
  | inl e => inl e
  end.

(** What one turn of the loop body does when it sees [status]. *)
Definition iteration (cluster task_arn status : string) : list event :=
  [Print (progress_line task_arn status); Sleep 1;
   DescribeTasks (Some cluster) [task_arn]].

(** The trace of the first [n] turns over the statuses [s]. *)
Definition iterations (cluster task_arn : string) (s : nat -> string)
    (n : nat) : list event :=
  flat_map (fun k => iteration cluster task_arn (s k)) (seq 0 n).

(** The trace of a provisioning that gets through. *)
Definition provision_trace (args : RunArgs.t) (region : string)
    (vpc : Vpc.t) (exec_role task_role : Role.t) : list event :=
  [EnsureVpc;
   CreateCluster (RunArgs.cluster args);
   EnsureLogGroup (RunArgs.task_name args);
   EnsureIamRole (RunArgs.execution_role args) (Some ["ecs-tasks"])
     (Some ["service-role/AWSBatchServiceRole"]);
   EnsureIamRole (RunArgs.task_role args) None None;
   RegisterTaskDefinition
     (task_definition_of args
        (container_defn_of args
           (log_config_of region (RunArgs.task_name args)))
        exec_role task_role);
   EnsureSecurityGroup (RunArgs.security_group args) vpc].

(** *** Submission *)

(** From the world [w], [run] gets through provisioning and submits the
    task: [t] is the trace so far, [res] what [run_task] answers,
    [task_arn] the ARN of its first task and [w'] the world then. *)
Definition submits (args : RunArgs.t) (w : W) (t : list event)
    (res : Response.t) (task_arn : string) (w' : W) : Prop :=
  exists network_config w1 tp task,
    provision args w = (Returned network_config, w1, tp) /\
    run_task (run_task_request_of args network_config) w1 = (inr res, w') /\
    t = tp ++ [RunTask (run_task_request_of args network_config)] /\
    index (Response.tasks res) 0 = inr task /\
    Task.taskArn task = task_arn.

End Workflow.

(** ** Counting in traces *)

Definition is_print (ev : event) : bool :=
  match ev with Print _ => true | _ => false end.

Definition is_describe (ev : event) : bool :=
  match ev with DescribeTasks _ _ => true | _ => false end.

Definition is_sleep (ev : event) : bool :=
  match ev with Sleep _ => true | _ => false end.

Definition is_register (ev : event) : bool :=
  match ev with RegisterTaskDefinition _ => true | _ => false end.

Definition is_run_task (ev : event) : bool :=
  match ev with RunTask _ => true | _ => false end.

Definition is_list_tasks (ev : event) : bool :=
  match ev with ListTasks _ => true | _ => false end.

Definition is_log_read (ev : event) : bool :=
  match ev with CloudwatchLogReader _ _ => true | _ => false end.

Definition count (p : event -> bool) (t : list event) : nat :=
  length (List.filter p t).

(** The kind of an event: which call it is, without its arguments. *)
Inductive kind : Type :=
| KEnsureVpc
| KCreateCluster
| KEnsureLogGroup
| KEnsureIamRole
| KRegisterTaskDefinition
| KEnsureSecurityGroup
| KRunTask
| KDescribeTasks
| KListTasks
| KCloudwatchLogReader
| KPrint
| KSleep
| KPageOutput.

Definition kind_of (ev : event) : kind :=
  match ev with
  | EnsureVpc => KEnsureVpc
  | CreateCluster _ => KCreateCluster
  | EnsureLogGroup _ => KEnsureLogGroup
  | EnsureIamRole _ _ _ => KEnsureIamRole
  | RegisterTaskDefinition _ => KRegisterTaskDefinition
  | EnsureSecurityGroup _ _ => KEnsureSecurityGroup
  | RunTask _ => KRunTask
  | DescribeTasks _ _ => KDescribeTasks
  | ListTasks _ => KListTasks
  | CloudwatchLogReader _ _ => KCloudwatchLogReader
  | Print _ => KPrint
  | Sleep _ => KSleep
  | PageOutput _ => KPageOutput
  end.

(** The external calls: everything but printing and sleeping. *)
Definition external (ev : event) : bool :=
  match ev with
  | Print _ | Sleep _ | PageOutput _ => false
  | _ => true
  end.

(** The external calls of a trace, in order, by kind. *)
Definition calls (t : list event) : list kind :=
  map kind_of (List.filter external t).

(** The provisioning steps in the order of ecs.py lines 64-95. *)
Definition provision_sequence : list kind :=
  [KEnsureVpc; KCreateCluster; KEnsureLogGroup; KEnsureIamRole;
   KEnsureIamRole; KRegisterTaskDefinition; KEnsureSecurityGroup].

(** The events of the watch loop. *)
Definition watch_kinds : list kind := [KPrint; KSleep; KDescribeTasks].

(** The calls of a whole run that polls [n] times. *)
Definition run_sequence (n : nat) : list kind :=
  provision_sequence ++ [KRunTask] ++ repeat KDescribeTasks n ++
  [KCloudwatchLogReader].

(** ** The command line of [run] *)

Module Argparse.

Inductive value : Type :=
| VNone
| VStr (s : string)
| VList (l : list string).

(** One [add_argument] call: the name as written, and [nargs], [default],
    [type] and [help] when they are given. *)
Record argument := {
  name : string;
  nargs : option string;
  default : option value;
  type : option string;
  help : option string
}.

(** An argument given by name only, to be completed field by field. *)
Definition plain (name : string) : argument :=
  {| name := name; nargs := None; default := None; type := None;
     help := None |}.

Definition with_nargs (n : string) (a : argument) : argument :=
  {| name := name a; nargs := Some n; default := default a; type := type a;
     help := help a |}.

Definition with_default (v : value) (a : argument) : argument :=
  {| name := name a; nargs := nargs a; default := Some v; type := type a;
     help := help a |}.

Definition with_type (ty : string) (a : argument) : argument :=
  {| name := name a; nargs := nargs a; default := default a; type := Some ty;
     help := help a |}.

Definition with_help (h : string) (a : argument) : argument :=
  {| name := name a; nargs := nargs a; default := default a; type := type a;
     help := Some h |}.

(** [s.lstrip("-")] *)
Fixpoint lstrip_dashes (s : string) : string :=
  match s with
  | String c s' => if Ascii.eqb c "-" then lstrip_dashes s' else s
  | EmptyString => EmptyString
  end.

Definition is_option (a : argument) : bool :=
  match name a with
  | String c _ => Ascii.eqb c "-"
  | EmptyString => false
  end.

(** The attribute of the namespace an argument is stored under. *)
Definition dest (a : argument) : string :=
  Py.replace "-" "_" (lstrip_dashes (name a)).

(** The value of an argument the command line does not mention: its
    [default] when one is given, else [None] for an option and the empty
    list for a positional with [nargs="*"]. *)
Definition default_value (a : argument) : value :=
  match default a with
  | Some v => v
  | None =>
      if is_option a then VNone
      else match nargs a with
           | Some "*" => VList []
           | _ => VNone
           end
  end.

(** The namespace of a command line that mentions no argument. *)
Definition defaults (parser : list argument) : gmap string value :=
  list_to_map (map (fun a => (dest a, default_value a)) parser).

(** [parse_args]: what the user gave, over the defaults. *)
Definition parse_args (parser : list argument) (user : gmap string value)
  : gmap string value :=
  user ∪ defaults parser.

End Argparse.

(** The module is [aegea/ecs.py]. *)
Definition __name__ : string := "aegea.ecs".

(** ecs.py lines 120-129 *)
Definition run_parser : list Argparse.argument :=
  [ Argparse.with_nargs "*" (Argparse.plain "command");
    Argparse.with_default (Argparse.VStr __name__)
      (Argparse.plain "--execution-role");
    Argparse.with_default (Argparse.VStr __name__)
      (Argparse.plain "--task-role");
    Argparse.with_default (Argparse.VStr __name__)
      (Argparse.plain "--security-group");
    Argparse.with_default (Argparse.VStr (Py.replace "." "_" __name__))
      (Argparse.plain "--cluster");
    Argparse.with_default (Argparse.VStr (Py.replace "." "_" __name__))
      (Argparse.plain "--task-name");
    Argparse.with_help "Container memory in MB"
      (Argparse.with_type "int" (Argparse.plain "--memory"));
    Argparse.with_help "Execution vCPU count"
      (Argparse.plain "--fargate-cpu");
    Argparse.plain "--fargate-memory";
    Argparse.plain "--image" ].

(** The options of the subcommand, by the attribute they are stored under. *)
Definition run_options : list string :=
  ["execution_role"; "task_role"; "security_group"; "cluster"; "task_name";
   "memory"; "fargate_cpu"; "fargate_memory"; "image"].

(** A value is derived from the module name when it is the name itself or
    the name with its dots replaced. *)
Definition derived_from_name (v : Argparse.value) : Prop :=
  v = Argparse.VStr __name__ \/
  v = Argparse.VStr (Py.replace "." "_" __name__).

(** ** A cloud with create-or-get provisioning *)

Module Aws.

(** What persists between invocations. *)
Record resources := {
  clusters : gset string;
  log_groups : gset string;
  roles : gset string;
  security_groups : gset string;
  (** the latest revision registered under each family *)
  revisions : gmap string nat
}.

(** How the task and the listings behave: arbitrary. *)
Record behaviour := {
  region : string;
  network : Vpc.t;
  launch : RunTaskRequest.t -> result Response.t;
  (** the answer of the [k]-th [describe_tasks] call *)
  described : nat -> result Response.t;
  listed : gmap string string -> result (list string);
  logged : string -> string -> result (list LogEvent.t)
}.

Record world := {
  res : resources;
  polls : nat;
  env : behaviour
}.

Definition with_res (f : resources -> resources) (w : world) : world :=
  {| res := f (res w); polls := polls w; env := env w |}.

(** Create-or-get on a set of names: an existing name is reused, a new
    one is created. *)
Definition ensure_in (n : string) (s : gset string) : gset string :=
  if decide (n ∈ s) then s else {[n]} ∪ s.

Definition add_cluster (n : string) (r : resources) : resources :=
  {| clusters := ensure_in n (clusters r); log_groups := log_groups r;
     roles := roles r; security_groups := security_groups r;
     revisions := revisions r |}.

Definition add_log_group (n : string) (r : resources) : resources :=
  {| clusters := clusters r; log_groups := ensure_in n (log_groups r);
     roles := roles r; security_groups := security_groups r;
     revisions := revisions r |}.

Definition add_role (n : string) (r : resources) : resources :=
  {| clusters := clusters r; log_groups := log_groups r;
     roles := ensure_in n (roles r); security_groups := security_groups r;
     revisions := revisions r |}.

Definition add_security_group (n : string) (r : resources) : resources :=
  {| clusters := clusters r; log_groups := log_groups r;
     roles := roles r; security_groups := ensure_in n (security_groups r);
     revisions := revisions r |}.

(** The latest revision of a family, 0 when there is none. *)
Definition revision (family : string) (r : resources) : nat :=
  default 0 (revisions r !! family).

Definition add_revision (family : string) (r : resources) : resources :=
  {| clusters := clusters r; log_groups := log_groups r;
     roles := roles r; security_groups := security_groups r;
     revisions := <[family := S (revision family r)]> (revisions r) |}.

Definition role_of (n : string) : Role.t :=
  {| Role.name := n; Role.arn := "arn:aws:iam:::role/" +:+ n |}.

Definition security_group_of (n : string) : SecurityGroup.t :=
  {| SecurityGroup.id := "sg-" +:+ n |}.

(** Modelled from the spec: [ensure_vpc] of [aegea.util.aws] is not part
    of the sources at hand.  The spec: "ensure network exists and return
    its subnets". *)
Definition ensure_vpc (w : world) : result Vpc.t * world :=
  (inr (network (env w)), w).

(** Modelled from the spec: the ECS service is external.  The spec:
    "Create (or reuse) a cluster". *)
Definition create_cluster (n : string) (w : world) : result unit * world :=
  (inr tt, with_res (add_cluster n) w).

(** Modelled from the spec: [ensure_log_group] of [aegea.util.aws] is not
    part of the sources at hand.  The spec: "log group exists
    (create-or-get)". *)
Definition ensure_log_group (n : string) (w : world) : result unit * world :=
  (inr tt, with_res (add_log_group n) w).

(** Modelled from the spec: [ensure_iam_role] of [aegea.util.aws] is not
    part of the sources at hand.  The spec: "role identifier
    (create-or-get)". *)
Definition ensure_iam_role (n : string) (trust policies : option (list string))
    (w : world) : result Role.t * world :=
  (inr (role_of n), with_res (add_role n) w).

(** Modelled from the spec: the ECS service is external.  The spec: "each
    registration creates a new version under the same family". *)
Definition register_task_definition (defn : TaskDefinition.t) (w : world)
  : result unit * world :=
  (inr tt, with_res (add_revision (TaskDefinition.family defn)) w).

(** Modelled from the spec: [ensure_security_group] of [aegea.util.aws]
    is not part of the sources at hand.  The spec: "security group
    identifier (create-or-get)". *)
Definition ensure_security_group (n : string) (vpc : Vpc.t) (w : world)
  : result SecurityGroup.t * world :=
  (inr (security_group_of n), with_res (add_security_group n) w).

(** The service answers as its behaviour says; a submission leaves the
    provisioned resources as they are. *)
Definition run_task (req : RunTaskRequest.t) (w : world)
  : result Response.t * world :=
  (launch (env w) req, w).

(** Each description is the next answer of the script. *)
Definition describe_tasks (cluster : option string) (tasks : list string)
    (w : world) : result Response.t * world :=
  (described (env w) (polls w),
   {| res := res w; polls := S (polls w); env := env w |}).

Definition list_tasks (kw : gmap string string) (w : world)
  : result (list string) * world :=
  (listed (env w) kw, w).

Definition log_events (stream group : string) (w : world)
  : result (list LogEvent.t) * world :=
  (logged (env w) stream group, w).

(** A task that answers the statuses [s] one after the other and has
    logged [lines]. *)
Definition task_response (task_arn status : string) : Response.t :=
  {| Response.tasks :=
       [{| Task.taskArn := task_arn; Task.lastStatus := status |}];
     Response.failures := [] |}.

Definition scripted (task_arn : string) (s : nat -> string)
    (lines : list string) : behaviour :=
  {| region := "us-east-1";
     network := {| Vpc.id := "vpc-1";
                   Vpc.subnets := [{| Subnet.id := "subnet-a" |};
                                   {| Subnet.id := "subnet-b" |}] |};
     launch := fun _ => inr (task_response task_arn (s 0));
     described := fun k => inr (task_response task_arn (s (S k)));
     listed := fun _ => inr [];
     logged := fun _ _ => inr (map LogEvent.Build_t lines) |}.

(** What one provisioning leaves behind. *)
Definition provisioned (args : RunArgs.t) (r : resources) : resources :=
  add_security_group (RunArgs.security_group args)
    (add_revision (RunArgs.task_name args)
       (add_role (RunArgs.task_role args)
          (add_role (RunArgs.execution_role args)
             (add_log_group (RunArgs.task_name args)
                (add_cluster (RunArgs.cluster args) r))))).

(** The network configuration provisioning hands to [run_task]. *)
Definition network_config (args : RunArgs.t) (b : behaviour)
  : NetworkConfiguration.t :=
  {| NetworkConfiguration.subnets := map Subnet.id (Vpc.subnets (network b));
     NetworkConfiguration.securityGroups :=
       [SecurityGroup.id (security_group_of (RunArgs.security_group args))];
     NetworkConfiguration.assignPublicIp := "ENABLED" |}.

Definition empty : resources :=
  {| clusters := ∅; log_groups := ∅; roles := ∅; security_groups := ∅;
     revisions := ∅ |}.

Definition fresh (b : behaviour) : world :=
  {| res := empty; polls := 0; env := b |}.

End Aws.

#[global] Instance aws_cloud : Cloud Aws.world := {|
  region_name w := Aws.region (Aws.env w);
  ensure_vpc := Aws.ensure_vpc;
  create_cluster := Aws.create_cluster;
  ensure_log_group := Aws.ensure_log_group;
  ensure_iam_role := Aws.ensure_iam_role;
  register_task_definition := Aws.register_task_definition;
  ensure_security_group := Aws.ensure_security_group;
  run_task := Aws.run_task;
  describe_tasks := Aws.describe_tasks;
  list_tasks := Aws.list_tasks;
  log_events := Aws.log_events
|}.

(** ** Concrete runs *)

Module Demo.

Definition task_arn : string :=
  "arn:aws:ecs:us-east-1:123456789012:task/abc123".

Definition args : RunArgs.t :=
  {| RunArgs.command := ["echo"; "hi"];
     RunArgs.execution_role := "aegea.ecs";
     RunArgs.task_role := "aegea.ecs";
     RunArgs.security_group := "aegea.ecs";
     RunArgs.cluster := "aegea_ecs";
     RunArgs.task_name := "mytask";
     RunArgs.memory := None;
     RunArgs.fargate_cpu := None;
     RunArgs.fargate_memory := None;
     RunArgs.image := Some "busybox" |}.

(** A task that is provisioned, runs, and stops. *)
Definition statuses (k : nat) : string :=
  match k with
  | 0 => "PROVISIONING"
  | 1 => "RUNNING"
  | _ => "STOPPED"
  end.

Definition world : Aws.world :=
  Aws.fresh (Aws.scripted task_arn statuses ["hi"]).

(** The world and the trace of [run args] in [world]. *)
Definition final_world : Aws.world :=
  {| Aws.res := Aws.provisioned args Aws.empty; Aws.polls := 2;
     Aws.env := Aws.env world |}.

Definition submission : list event :=
  provision_trace args "us-east-1" (Aws.network (Aws.env world))
    (Aws.role_of "aegea.ecs") (Aws.role_of "aegea.ecs")
  ++ [RunTask (run_task_request_of args
                 (Aws.network_config args (Aws.env world)))].

Definition trace : list event :=
  submission ++
  [Print "arn:aws:ecs:us-east-1:123456789012:task/abc123 PROVISIONING";
   Sleep 1; DescribeTasks (Some "aegea_ecs") [task_arn];
   Print "arn:aws:ecs:us-east-1:123456789012:task/abc123 RUNNING";
   Sleep 1; DescribeTasks (Some "aegea_ecs") [task_arn];
   CloudwatchLogReader "mytask/mytask/abc123" "mytask";
   Print "hi"].

(** A task that never stops. *)
Definition running (k : nat) : string := "RUNNING".

Definition stuck : Aws.world :=
  Aws.fresh (Aws.scripted task_arn running []).

(** [describe_tasks] answers twice, then is throttled. *)
Definition throttled : Aws.world :=
  Aws.fresh
    {| Aws.region := "us-east-1";
       Aws.network := {| Vpc.id := "vpc-1"; Vpc.subnets := [] |};
       Aws.launch := fun _ => inr (Aws.task_response task_arn "PENDING");
       Aws.described := fun k =>
         if Nat.ltb k 2 then inr (Aws.task_response task_arn "RUNNING")
         else inl (ClientError "ThrottlingException");
       Aws.listed := fun _ => inr [];
       Aws.logged := fun _ _ => inr [] |}.

Definition polled (k : nat) : string :=
  match k with
  | 0 => "PENDING"
  | _ => "RUNNING"
  end.

(** [run_task] places no task and says why in [failures]. *)
Definition rejection : Response.t :=
  {| Response.tasks := [];
     Response.failures :=
       [{| Failure.arn := "arn:aws:ecs:us-east-1:123456789012:cluster/aegea_ecs";
           Failure.reason := "RESOURCE:MEMORY" |}] |}.

Definition rejected : Aws.world :=
  Aws.fresh
    {| Aws.region := "us-east-1";
       Aws.network := {| Vpc.id := "vpc-1"; Vpc.subnets := [] |};
       Aws.launch := fun _ => inr rejection;
       Aws.described := fun _ => inl (ClientError "unreachable");
       Aws.listed := fun _ => inr [];
       Aws.logged := fun _ _ => inr [] |}.

(** A listing: two tasks that are not stopped, one that is. *)
Definition listing (kw : gmap string string) : result (list string) :=
  match kw !! "desiredStatus" with
  | None => inr ["task-a"; "task-b"]
  | Some "STOPPED" => inr ["task-c"]
  | Some _ => inr ["task-a"]
  end.

Definition description : Response.t :=
  {| Response.tasks :=
       [{| Task.taskArn := "task-a"; Task.lastStatus := "RUNNING" |};
        {| Task.taskArn := "task-b"; Task.lastStatus := "PENDING" |};
        {| Task.taskArn := "task-c"; Task.lastStatus := "STOPPED" |}];
     Response.failures := [] |}.

Definition cluster_world : Aws.world :=
  Aws.fresh
    {| Aws.region := "us-east-1";
       Aws.network := {| Vpc.id := "vpc-1"; Vpc.subnets := [] |};
       Aws.launch := fun _ => inl (ClientError "unused");
       Aws.described := fun _ => inr description;
       Aws.listed := listing;
       Aws.logged := fun _ _ => inr [] |}.

Definition list_all : TasksArgs.t :=
  {| TasksArgs.tasks := []; TasksArgs.cluster := None;
     TasksArgs.desired_status := None; TasksArgs.launch_type := None |}.

Definition list_running : TasksArgs.t :=
  {| TasksArgs.tasks := []; TasksArgs.cluster := None;
     TasksArgs.desired_status := Some "RUNNING";
     TasksArgs.launch_type := None |}.

End Demo.

(** ** More of [ecs.py] *)

(** The ARN of an ECS task in the short format:
    [arn:partition:ecs:region:account:task/instance-id]. *)
Definition short_task_arn (partition region account instance_id : string)
  : string :=
  "arn:" +:+ partition +:+ ":ecs:" +:+ region +:+ ":" +:+ account +:+
  ":task/" +:+ instance_id.

(** *** The cluster listing *)

Module Cluster.
(** One entry of [describe_clusters(...)["clusters"]]. *)
Record t := { clusterArn : string; clusterName : string; status : string }.
End Cluster.

Module Clusters.

(** What the listing does to the outside. *)
Inductive call : Type :=
| ListClusters
| DescribeClusters (clusters : list string)
| PageOutput (rows : list Cluster.t).

(** ecs.py lines 32-36.  The listing makes each call at most once, so the
    service is given by its answers: [listed] is
    [list(paginate(list_clusters))] and [described] answers
    [describe_clusters(clusters=...)["clusters"]].  The result is the
    calls made, in order, and the exception raised, if any. *)
Definition clusters (listed : result (list string))
    (described : list string -> result (list Cluster.t))
    (args_clusters : list string) : list call * option exn :=
  let '(made, found) :=
    if negb (nonempty args_clusters) then ([ListClusters], listed)
    else ([], inr args_clusters) in
  match found with
  | inl e => (made, Some e)
  | inr args_clusters =>
      match described args_clusters with
      | inl e => (made ++ [DescribeClusters args_clusters], Some e)
      | inr cluster_desc =>
          (made ++ [DescribeClusters args_clusters; PageOutput cluster_desc],
           None)
      end
  end.

End Clusters.

(** *** A cloud in which calls can be refused *)

Module Faulty.

(** The cloud [Aws] behind a fault table: a call whose event the table
    maps to an exception raises it and changes nothing. *)
Record world := {
  inner : Aws.world;
  faults : event -> option exn
}.

Definition guard {A : Type} (ev : event)
    (op : Aws.world -> result A * Aws.world) (w : world)
  : result A * world :=
  match faults w ev with
  | Some e => (inl e, w)
  | None =>
      match op (inner w) with
      | (r, i) => (r, {| inner := i; faults := faults w |})
      end
  end.

End Faulty.

#[global] Instance faulty_cloud : Cloud Faulty.world := {|
  region_name w := Aws.region (Aws.env (Faulty.inner w));
  ensure_vpc := Faulty.guard EnsureVpc Aws.ensure_vpc;
  create_cluster n := Faulty.guard (CreateCluster n) (Aws.create_cluster n);
  ensure_log_group n :=
    Faulty.guard (EnsureLogGroup n) (Aws.ensure_log_group n);
  ensure_iam_role n trust policies :=
    Faulty.guard (EnsureIamRole n trust policies)
      (Aws.ensure_iam_role n trust policies);
  register_task_definition defn :=
    Faulty.guard (RegisterTaskDefinition defn)
      (Aws.register_task_definition defn);
  ensure_security_group n vpc :=
    Faulty.guard (EnsureSecurityGroup n vpc)
      (Aws.ensure_security_group n vpc);
  run_task req := Faulty.guard (RunTask req) (Aws.run_task req);
  describe_tasks c l :=
    Faulty.guard (DescribeTasks c l) (Aws.describe_tasks c l);
  list_tasks kw := Faulty.guard (ListTasks kw) (Aws.list_tasks kw);
  log_events stream group :=
    Faulty.guard (CloudwatchLogReader stream group)
      (Aws.log_events stream group)
|}.

(** *** More concrete runs *)

Module Cases.

(** Log groups cannot be created. *)
Definition no_log_groups (ev : event) : option exn :=
  match ev with
  | EnsureLogGroup _ => Some (ClientError "AccessDeniedException")
  | _ => None
  end.

Definition denied : Faulty.world :=
  {| Faulty.inner := Demo.world; Faulty.faults := no_log_groups |}.

(** The world [denied] is left in: network and cluster are there. *)
Definition denied_after : Faulty.world :=
  {| Faulty.inner :=
       Aws.with_res (Aws.add_cluster "aegea_ecs") Demo.world;
     Faulty.faults := no_log_groups |}.

(** No task can be submitted. *)
Definition no_capacity (ev : event) : option exn :=
  match ev with
  | RunTask _ => Some (ClientError "ClusterNotFoundException")
  | _ => None
  end.

Definition full : Faulty.world :=
  {| Faulty.inner := Demo.world; Faulty.faults := no_capacity |}.

(** The logs cannot be read. *)
Definition no_logs (ev : event) : option exn :=
  match ev with
  | CloudwatchLogReader _ _ => Some (ClientError "ResourceNotFoundException")
  | _ => None
  end.

Definition unread : Faulty.world :=
  {| Faulty.inner := Demo.world; Faulty.faults := no_logs |}.

(** The second poll answers no task at all. *)
Definition vanishing : Aws.world :=
  Aws.fresh
    {| Aws.region := "us-east-1";
       Aws.network := {| Vpc.id := "vpc-1"; Vpc.subnets := [] |};
       Aws.launch := fun _ => inr (Aws.task_response Demo.task_arn "PENDING");
       Aws.described := fun k =>
         if Nat.ltb k 1 then inr (Aws.task_response Demo.task_arn "RUNNING")
         else inr {| Response.tasks := []; Response.failures := [] |};
       Aws.listed := fun _ => inr [];
       Aws.logged := fun _ _ => inr [] |}.

(** The task ARN has no "/" in its resource. *)
Definition odd_arn : string := "arn:aws:ecs:us-east-1:123456789012:task".

Definition odd : Aws.world :=
  Aws.fresh (Aws.scripted odd_arn Demo.statuses []).

(** A run that logs two lines. *)
Definition chatty : Aws.world :=
  Aws.fresh (Aws.scripted Demo.task_arn Demo.statuses ["hello"; "bye"]).

(** Listings. *)
Definition list_given : TasksArgs.t :=
  {| TasksArgs.tasks := ["task-x"; "task-y"]; TasksArgs.cluster := Some "c1";
     TasksArgs.desired_status := None; TasksArgs.launch_type := None |}.

Definition list_filtered : TasksArgs.t :=
  {| TasksArgs.tasks := []; TasksArgs.cluster := Some "c1";
     TasksArgs.desired_status := Some "";
     TasksArgs.launch_type := Some "FARGATE" |}.

Definition no_listing (ev : event) : option exn :=
  match ev with
  | ListTasks _ => Some (ClientError "ThrottlingException")
  | _ => None
  end.

Definition unlisted : Faulty.world :=
  {| Faulty.inner := Demo.cluster_world; Faulty.faults := no_listing |}.

End Cases.

Module Expected.

(** What the concrete runs above are expected to do. *)

Definition provisioned (f : event -> option exn) : Faulty.world :=
  {| Faulty.inner := Aws.with_res (Aws.provisioned Demo.args) Demo.world;
     Faulty.faults := f |}.

Definition provisioning : list event :=
  provision_trace Demo.args "us-east-1" (Aws.network (Aws.env Demo.world))
    (Aws.role_of "aegea.ecs") (Aws.role_of "aegea.ecs").

Definition request : RunTaskRequest.t :=
  run_task_request_of Demo.args
    (Aws.network_config Demo.args (Aws.env Demo.world)).

Definition watched : list event :=
  [Print "arn:aws:ecs:us-east-1:123456789012:task/abc123 PROVISIONING";
   Sleep 1; DescribeTasks (Some "aegea_ecs") [Demo.task_arn];
   Print "arn:aws:ecs:us-east-1:123456789012:task/abc123 RUNNING";
   Sleep 1; DescribeTasks (Some "aegea_ecs") [Demo.task_arn]].

Definition first_task (task_arn status : string) : Task.t :=
  {| Task.taskArn := task_arn; Task.lastStatus := status |}.

End Expected.

Definition is_page_output (ev : event) : bool :=
  match ev with PageOutput _ => true | _ => false end.

Definition is_create_cluster (ev : event) : bool :=
  match ev with CreateCluster _ => true | _ => false end.

Module ClusterCases.

Definition default_cluster : Cluster.t :=
  {| Cluster.clusterArn := "arn:aws:ecs:us-east-1:123456789012:cluster/default";
     Cluster.clusterName := "default"; Cluster.status := "INACTIVE" |}.

(** An account without clusters: asked about no cluster in particular,
    the service describes the default one. *)
Definition described (clusters : list string) : result (list Cluster.t) :=
  match clusters with
  | [] => inr [default_cluster]
  | _ => inr []
  end.

End ClusterCases.

(** ** [ls.py]: the listings *)

Module Ls.

(** The exceptions of the listings. *)
Inductive exn : Type :=
| AttributeError (attr : string)
| KeyError (key : string)
| TypeError (msg : string)
| ValueError (msg : string)
| IndexError.

Definition result (A : Type) : Type := exn + A.

Definition bind {A B : Type} (m : result A) (k : A -> result B) : result B :=
  match m with
  | inl e => inl e
  | inr a => k a
  end.

Notation "x <~ m ;; k" := (bind m (fun x => k))
  (at level 100, m at next level, right associativity).

(** A list comprehension whose element expression may raise. *)
Fixpoint mapM {A B : Type} (f : A -> result B) (l : list A)
  : result (list B) :=
  match l with
  | [] => inr []
  | x :: xs => y <~ f x ;; ys <~ mapM f xs ;; inr (y :: ys)
  end.

(** A loop that updates an accumulator and may raise. *)
Fixpoint foldM {A B : Type} (f : B -> A -> result B) (acc : B) (l : list A)
  : result B :=
  match l with
  | [] => inr acc
  | x :: xs => acc' <~ f acc x ;; foldM f acc' xs
  end.

(** The values the service objects carry.  [VCollection] is a boto3
    collection, the one kind of value with an [all] method; it stands for
    the names of its items. *)
#[local] Unset Elimination Schemes.
Inductive value : Type :=
| VNone
| VStr (s : string)
| VInt (z : Z)
| VBool (b : bool)
| VDict (items : list (string * value))
| VList (items : list value)
| VCollection (names : list string).
#[local] Set Elimination Schemes.

(** A service object, by its attributes; a response dict, by its keys. *)
Definition resource : Type := list (string * value).

(** The first value under a key. *)
Fixpoint assoc {A : Type} (key : string) (l : list (string * A)) : option A :=
  match l with
  | [] => None
  | (k, v) :: rest => if String.eqb k key then Some v else assoc key rest
  end.

(** [getattr(resource, field)] *)
Definition getattr (r : resource) (field : string) : result value :=
  match assoc field r with
  | Some v => inr v
  | None => inl (AttributeError field)
  end.

(** [d.get(key)] on a response dict *)
Definition get (d : resource) (key : string) : value :=
  match assoc key d with
  | Some v => v
  | None => VNone
  end.

(** [v[key]] for a string key *)
Definition subscript (v : value) (key : string) : result value :=
  match v with
  | VDict items =>
      match assoc key items with
      | Some x => inr x
      | None => inl (KeyError key)
      end
  | _ => inl (TypeError "indices")
  end.

(** Truth value. *)
Definition truthy (v : value) : bool :=
  match v with
  | VNone => false
  | VStr s => Py.truthy s
  | VInt z => negb (Z.eqb z 0)
  | VBool b => b
  | VDict items => nonempty items
  | VList items => nonempty items
  | VCollection _ => true
  end.

(** [for x in v]: the items of a list, the characters of a string, the
    keys of a dict; nothing else can be iterated. *)
Definition iter (v : value) : result (list value) :=
  match v with
  | VList items => inr items
  | VStr s =>
      inr (map (fun c => VStr (String c EmptyString)) (list_ascii_of_string s))
  | VDict items => inr (map (fun kv => VStr (fst kv)) items)
  | _ => inl (TypeError "not iterable")
  end.

(** A value where a string is required. *)
Definition as_str (v : value) : result string :=
  match v with
  | VStr s => inr s
  | _ => inl (TypeError "str expected")
  end.

(** [x in l] *)
Definition contains (x : string) (l : list string) : bool :=
  existsb (String.eqb x) l.

(** [l.index(x)] *)
Fixpoint index_of (x : string) (l : list string) : result nat :=
  match l with
  | [] => inl (ValueError x)
  | y :: ys => if String.eqb y x then inr 0
               else n <~ index_of x ys ;; inr (S n)
  end.

(** [row[i]] *)
Definition item (row : list value) (i : nat) : result value :=
  match nth_error row i with
  | Some v => inr v
  | None => inl IndexError
  end.

(** [row[i] = v] *)
Definition setitem (row : list value) (i : nat) (v : value)
  : result (list value) :=
  if Nat.ltb i (length row) then inr (<[i := v]> row) else inl IndexError.

(** [d[k] = v] on a dict that keeps the order of first insertion. *)
Fixpoint dict_set (d : list (string * string)) (k v : string)
  : list (string * string) :=
  match d with
  | [] => [(k, v)]
  | (k', v') :: rest =>
      if String.eqb k' k then (k', v) :: rest
      else (k', v') :: dict_set rest k v
  end.

(** What [format_table] is handed: [format_table] and [page_output] are
    of [aegea.util.printing]; a listing is modelled up to this call. *)
Record Table := {
  rows : list (list value);
  column_names : list string;
  max_col_width : nat
}.

(** ls.py lines 11-13 *)
Definition get_cell (r : resource) (field : string) : result value :=
  cell <~ getattr r field ;;
  match cell with
  | VCollection names => inr (VStr (Py.join ", " names))
  | _ => inr cell
  end.

(** ls.py lines 15-17 *)
Definition tabulate (collection : list resource) (columns : list string)
    (max_col_width : nat) : result Table :=
  table <~ mapM (fun i => mapM (fun f => get_cell i f) columns) collection ;;
  inr {| rows := table; column_names := columns;
         max_col_width := max_col_width |}.

(** [columns] after [if name not in columns: columns.append(name)] *)
Definition with_column (name : string) (columns : list string) : list string :=
  if negb (contains name columns) then columns ++ [name] else columns.

(** ls.py line 27: the tags of a row as a dict, one [tag["Key"]:
    tag["Value"]] at a time.  The tags of the EC2 API have strings for keys
    and values, and the dict is over strings. *)
Definition add_tag (d : list (string * string)) (tag : value)
  : result (list (string * string)) :=
  k <~ subscript tag "Key" ;;
  v <~ subscript tag "Value" ;;
  ks <~ as_str k ;;
  vs <~ as_str v ;;
  inr (dict_set d ks vs).

Definition tags_of (cell : value) : result (list (string * string)) :=
  if truthy cell then
    items <~ iter cell ;;
    foldM add_tag [] items
  else inr [].

(** ["{}={}".format(k, v)] *)
Definition format_tag (kv : string * string) : string :=
  fst kv +:+ "=" +:+ snd kv.

(** ls.py lines 25-30: the body of [for row in table]. *)
Definition ls_row (columns : list string) (row : list value)
  : result (list value) :=
  row <~ (if contains "state" columns then
            i <~ index_of "state" columns ;;
            state <~ item row i ;;
            name <~ subscript state "Name" ;;
            setitem row i name
          else inr row) ;;
  i <~ index_of "tags" columns ;;
  cell <~ item row i ;;
  tags <~ tags_of cell ;;
  j <~ index_of "id" columns ;;
  default <~ item row j ;;
  let name := match assoc "Name" tags with
              | Some v => VStr v
              | None => default
              end in
  i <~ index_of "tags" columns ;;
  row <~ setitem row i (VStr (Py.join ", " (map format_tag tags))) ;;
  inr (name :: row).

(** ls.py lines 19-31, over the instances [ec2.instances.all()] yields.
    [args.columns] is changed in place: the columns of the table are the
    ones after the change. *)
Definition ls (args_columns : list string) (instances : list resource)
  : result Table :=
  let columns := with_column "tags" args_columns in
  table <~ mapM (fun i => mapM (fun f => getattr i f) columns) instances ;;
  table <~ mapM (ls_row columns) table ;;
  inr {| rows := table; column_names := "name" :: columns;
         max_col_width := 64 |}.

(** ls.py lines 36-42, over the users [iam.users.all()] yields and the
    id of the current user. *)
Definition users (args_columns : list string) (current_user_id : string)
    (all_users : list resource) : result Table :=
  let columns := with_column "user_id" args_columns in
  table <~ mapM (fun i =>
                   user_id <~ getattr i "user_id" ;;
                   let cur := match user_id with
                              | VStr s => if String.eqb s current_user_id
                                          then ">>>" else ""
                              | _ => ""
                              end in
                   cells <~ mapM (fun f => get_cell i f) columns ;;
                   inr (VStr cur :: cells))
                all_users ;;
  inr {| rows := table; column_names := "cur" :: columns;
         max_col_width := 64 |}.

(** ls.py line 64: the body of [for row in table]. *)
Definition volumes_row (columns : list string) (row : list value)
  : result (list value) :=
  i <~ index_of "attachments" columns ;;
  cell <~ item row i ;;
  attachments <~ iter cell ;;
  ids <~ mapM (fun a => v <~ subscript a "InstanceId" ;; inr v) attachments ;;
  names <~ mapM as_str ids ;;
  setitem row i (VStr (Py.join ", " names)).

(** ls.py lines 59-65, over the volumes [ec2.volumes.all()] yields. *)
Definition volumes (args_columns : list string) (all_volumes : list resource)
  : result Table :=
  table <~ mapM (fun i => mapM (fun f => get_cell i f) args_columns)
                all_volumes ;;
  table <~ (if contains "attachments" args_columns then
              mapM (volumes_row args_columns) table
            else inr table) ;;
  inr {| rows := table; column_names := args_columns; max_col_width := 64 |}.

(** ls.py lines 47-48, 53-54, 70-71, 101-102, 107-108: the listings that
    are [tabulate] alone, over what the collection yields. *)
Definition groups (args_columns : list string) (all_groups : list resource)
  : result Table :=
  tabulate all_groups args_columns 64.

(** ls.py lines 85-86 *)
Definition rrs_cols : list string := ["Name"; "Type"; "TTL"].
Definition record_cols : list string := ["Value"].

(** ls.py line 90: is the zone one of those asked for? *)
Definition zone_selected (args_zones : list string) (zone : resource)
  : result bool :=
  if nonempty args_zones then
    name <~ subscript (VDict zone) "Name" ;;
    inr (match name with
         | VStr s =>
             contains s (args_zones ++ map (fun z => z +:+ ".") args_zones)
         | _ => false
         end)
  else inr true.

(** [record.get(f)]: only a dict has [get]. *)
Definition as_dict (v : value) : result resource :=
  match v with
  | VDict items => inr items
  | _ => inl (AttributeError "get")
  end.

(** ls.py lines 94-95: the rows of one record set. *)
Definition record_rows (zone rrs : resource) : result (list (list value)) :=
  records <~ iter (match assoc "ResourceRecords" rrs with
                   | Some v => v
                   | None => VList []
                   end) ;;
  mapM (fun record =>
          record <~ as_dict record ;;
          config <~ subscript (VDict zone) "Config" ;;
          private <~ subscript config "PrivateZone" ;;
          inr (map (get rrs) rrs_cols ++ map (get record) record_cols
               ++ [private]))
       records.

(** ls.py lines 89-95: the rows of one zone.  [record_sets] gives the
    pages of [list_resource_record_sets] for a zone id, each page by its
    ["ResourceRecordSets"]. *)
Definition zone_rows (args_zones : list string)
    (record_sets : value -> list (list resource)) (zone : resource)
  : result (list (list value)) :=
  selected <~ zone_selected args_zones zone ;;
  if selected then
    id <~ subscript (VDict zone) "Id" ;;
    per_set <~ mapM (record_rows zone) (concat (record_sets id)) ;;
    inr (concat per_set)
  else inr [].

(** ls.py lines 83-96, over the pages of [list_hosted_zones], each page by
    its ["HostedZones"]. *)
Definition zones (args_zones : list string)
    (zone_pages : list (list resource))
    (record_sets : value -> list (list resource)) : result Table :=
  per_zone <~ mapM (zone_rows args_zones record_sets) (concat zone_pages) ;;
  inr {| rows := concat per_zone;
         column_names := rrs_cols ++ record_cols ++ ["Private"];
         max_col_width := 64 |}.

End Ls.

(** *** Concrete listings *)

Module LsCases.

Definition tag (k v : string) : Ls.value :=
  Ls.VDict [("Key", Ls.VStr k); ("Value", Ls.VStr v)].

Definition web : Ls.resource :=
  [("id", Ls.VStr "i-1");
   ("state", Ls.VDict [("Code", Ls.VInt 16); ("Name", Ls.VStr "running")]);
   ("tags", Ls.VList [tag "Name" "web"; tag "env" "prod"])].

Definition anonymous : Ls.resource :=
  [("id", Ls.VStr "i-2");
   ("state", Ls.VDict [("Code", Ls.VInt 80); ("Name", Ls.VStr "stopped")]);
   ("tags", Ls.VNone)].

Definition alice : Ls.resource :=
  [("name", Ls.VStr "alice"); ("user_id", Ls.VStr "AIDA1");
   ("groups", Ls.VCollection ["admins"; "devs"])].

Definition bob : Ls.resource :=
  [("name", Ls.VStr "bob"); ("user_id", Ls.VStr "AIDA2");
   ("groups", Ls.VCollection [])].

Definition zone_a : Ls.resource :=
  [("Name", Ls.VStr "example.com."); ("Id", Ls.VStr "/hostedzone/Z1");
   ("Config", Ls.VDict [("PrivateZone", Ls.VBool false)])].

Definition zone_b : Ls.resource :=
  [("Name", Ls.VStr "internal."); ("Id", Ls.VStr "/hostedzone/Z2");
   ("Config", Ls.VDict [("PrivateZone", Ls.VBool true)])].

Definition a_record : Ls.resource :=
  [("Name", Ls.VStr "www.example.com."); ("Type", Ls.VStr "A");
   ("TTL", Ls.VInt 300);
   ("ResourceRecords",
    Ls.VList [Ls.VDict [("Value", Ls.VStr "192.0.2.1")];
              Ls.VDict [("Value", Ls.VStr "192.0.2.2")]])].

Definition alias_record : Ls.resource :=
  [("Name", Ls.VStr "example.com."); ("Type", Ls.VStr "A");
   ("AliasTarget", Ls.VDict [("DNSName", Ls.VStr "lb.example.net.")])].

Definition record_sets (id : Ls.value) : list (list Ls.resource) :=
  match id with
  | Ls.VStr "/hostedzone/Z1" => [[a_record]; [alias_record]]
  | _ => [[a_record]]
  end.

Definition disk : Ls.resource :=
  [("id", Ls.VStr "vol-1");
   ("attachments",
    Ls.VList [Ls.VDict [("InstanceId", Ls.VStr "i-1"); ("Device", Ls.VStr "/dev/sda1")];
              Ls.VDict [("InstanceId", Ls.VStr "i-2"); ("Device", Ls.VStr "/dev/sdb")]])].

Definition spare : Ls.resource :=
  [("id", Ls.VStr "vol-2"); ("attachments", Ls.VList [])].

End LsCases.

(** * Properties *)

(** ** Strings and ARNs *)

Section SplitLemmas.

Variable sep : ascii.

Lemma split_free (s : string) :
  Py.free_of sep s = true -> Py.split sep s = [s].
Proof.
  induction s as [|c s IH]; simpl; [reflexivity|].
  destruct (Ascii.eqb c sep); simpl; [discriminate|].
  intros Hs. rewrite (IH Hs). reflexivity.
Qed.

Lemma split_cut (a r : string) :
  Py.free_of sep a = true ->
  Py.split sep (a +:+ String sep r) = a :: Py.split sep r.
Proof.
  induction a as [|c a IH]; simpl.
  - intros _. rewrite Ascii.eqb_refl. reflexivity.
  - destruct (Ascii.eqb c sep); simpl; [discriminate|].
    intros Ha. rewrite (IH Ha). reflexivity.
Qed.

Lemma splitn_zero (s : string) : Py.splitn sep s 0 = [s].
Proof. destruct s; reflexivity. Qed.

Lemma splitn_cut (a r : string) (m : nat) :
  Py.free_of sep a = true ->
  Py.splitn sep (a +:+ String sep r) (S m) = a :: Py.splitn sep r m.
Proof.
  induction a as [|c a IH]; simpl.
  - intros _. rewrite Ascii.eqb_refl. reflexivity.
  - destruct (Ascii.eqb c sep); simpl; [discriminate|].
    intros Ha. rewrite (IH Ha). reflexivity.
Qed.

End SplitLemmas.

Lemma join3 (sep a b c : string) :
  Py.join sep [a; b; c] = a +:+ sep +:+ b +:+ sep +:+ c.
Proof. reflexivity. Qed.

Lemma ARN_resource_task (partition region account cluster instance_id : string) :
  Py.free_of ":" partition = true ->
  Py.free_of ":" region = true ->
  Py.free_of ":" account = true ->
  ARN_resource (task_arn_of partition region account cluster instance_id)
  = inr ("task/" +:+ cluster +:+ "/" +:+ instance_id).
Proof.
  intros Hp Hr Ha. unfold ARN_resource, task_arn_of.
  change ("arn:" +:+ ?x) with ("arn" +:+ String ":" x).
  rewrite splitn_cut by reflexivity.
  change (":ecs:" +:+ ?x) with (String ":" ("ecs" +:+ String ":" x)).
  rewrite splitn_cut by exact Hp.
  rewrite splitn_cut by reflexivity.
  change (":" +:+ ?x) with (String ":" x).
  rewrite splitn_cut by exact Hr.
  change (":task/" +:+ ?x) with (String ":" ("task/" +:+ x)).
  rewrite splitn_cut by exact Ha.
  rewrite splitn_zero. reflexivity.
Qed.

(** On the short ARN format, whose resource is [task/instance-id], index 1
    of the split resource is the instance id. *)
Lemma task_uuid_of_short_arn (task_arn instance_id : string) :
  ARN_resource task_arn = inr ("task/" +:+ instance_id) ->
  Py.free_of "/" instance_id = true ->
  task_uuid_of task_arn = inr instance_id.
Proof.
  intros Hres Hi. unfold task_uuid_of. rewrite Hres.
  change ("task/" +:+ instance_id) with ("task" +:+ String "/" instance_id).
  rewrite split_cut by reflexivity.
  rewrite split_free by exact Hi. reflexivity.
Qed.

(** C1 (as the code behaves): on a task ARN of the long format
    [arn:partition:ecs:region:account:task/cluster-name/instance-id], the
    extraction of line 104, index 1 of the resource split at "/", yields
    the cluster name, not the instance id. *)
Theorem task_uuid_of_long_arn
    (partition region account cluster instance_id : string) :
  Py.free_of ":" partition = true ->
  Py.free_of ":" region = true ->
  Py.free_of ":" account = true ->
  Py.free_of "/" cluster = true ->
  task_uuid_of (task_arn_of partition region account cluster instance_id)
  = inr cluster.
Proof.
  intros Hp Hr Ha Hc. unfold task_uuid_of.
  rewrite ARN_resource_task by assumption.
  change ("task/" +:+ ?x) with ("task" +:+ String "/" x).
  rewrite split_cut by reflexivity.
  change ("/" +:+ ?x) with (String "/" x).
  rewrite split_cut by exact Hc.
  reflexivity.
Qed.

Lemma task_uuid_of_long_arn_witness :
  task_arn_of "aws" "region" "account" "cluster-name" "abcdef0123456789"
    = "arn:aws:ecs:region:account:task/cluster-name/abcdef0123456789" /\
  task_uuid_of "arn:aws:ecs:region:account:task/cluster-name/abcdef0123456789"
    = inr "cluster-name".
Proof.
  split; [reflexivity|].
  exact (task_uuid_of_long_arn "aws" "region" "account" "cluster-name"
           "abcdef0123456789" eq_refl eq_refl eq_refl eq_refl).
Defined.

(** ** The defaults of the command line *)

(** C8 (as stated) fails: not every option of [run] has a default derived
    from the module name; [--image] has none. *)
Lemma run_options_not_all_derived :
  ~ (forall (user : gmap string Argparse.value) (o : string),
       In o run_options -> user !! o = None ->
       exists v, Argparse.parse_args run_parser user !! o = Some v /\
                 derived_from_name v).
Proof.
  intros Hall.
  destruct (Hall ∅ "image") as [v [Hv Hd]].
  - simpl. tauto.
  - reflexivity.
  - vm_compute in Hv. injection Hv as <-.
    destruct Hd as [Hd|Hd]; discriminate Hd.
Qed.

Lemma parse_args_default (parser : list Argparse.argument)
    (user : gmap string Argparse.value) (o : string) :
  user !! o = None ->
  Argparse.parse_args parser user !! o = Argparse.defaults parser !! o.
Proof.
  intros Hu. unfold Argparse.parse_args.
  rewrite lookup_union_r by exact Hu. reflexivity.
Qed.

(** C8 (amended): when the user does not give them, the execution role,
    the task role and the security group default to the module name, the
    cluster and the task name to the module name with its dots replaced by
    underscores, and memory, Fargate CPU, Fargate memory and image have no
    default: they are [None]. *)
Theorem run_option_defaults (user : gmap string Argparse.value) (o : string) :
  user !! o = None ->
  (In o ["execution_role"; "task_role"; "security_group"] ->
   Argparse.parse_args run_parser user !! o
   = Some (Argparse.VStr __name__)) /\
  (In o ["cluster"; "task_name"] ->
   Argparse.parse_args run_parser user !! o
   = Some (Argparse.VStr (Py.replace "." "_" __name__))) /\
  (In o ["memory"; "fargate_cpu"; "fargate_memory"; "image"] ->
   Argparse.parse_args run_parser user !! o = Some Argparse.VNone).
Proof.
  intros Hu. rewrite (parse_args_default run_parser user o Hu).
  repeat split; intros Hin; simpl in Hin;
    repeat (destruct Hin as [<-|Hin]; [vm_compute; reflexivity|]);
    contradiction.
Qed.

Lemma run_option_defaults_witness :
  Argparse.parse_args run_parser ∅ !! "task_name"
    = Some (Argparse.VStr "aegea_ecs") /\
  Argparse.parse_args run_parser ∅ !! "task_role"
    = Some (Argparse.VStr "aegea.ecs") /\
  Argparse.parse_args run_parser ∅ !! "image" = Some Argparse.VNone.
Proof.
  destruct (run_option_defaults ∅ "task_name" (lookup_empty _))
    as (_ & Hname & _).
  destruct (run_option_defaults ∅ "task_role" (lookup_empty _))
    as (Hrole & _ & _).
  destruct (run_option_defaults ∅ "image" (lookup_empty _))
    as (_ & _ & Himage).
  split; [|split].
  - apply Hname. simpl. tauto.
  - apply Hrole. simpl. tauto.
  - apply Himage. simpl. tauto.
Defined.

(** ** The watch loop *)

Section WatchLoop.

Context {W : Type} `{Cloud W}.
Variables cluster task_arn : string.

Lemma iterations_S (s : nat -> string) (n : nat) :
  iterations cluster task_arn s (S n)
  = iterations cluster task_arn s n ++ iteration cluster task_arn (s n).
Proof.
  unfold iterations. rewrite seq_S, flat_map_app. reflexivity.
Qed.

Lemma not_stopped (st : string) :
  st <> "STOPPED" -> negb (String.eqb st "STOPPED") = true.
Proof.
  intros Hst. apply negb_true_iff. apply String.eqb_neq. exact Hst.
Qed.

(** The condition of the [while] is false: the loop is over. *)
Lemma watch_loop_stopped (fuel : nat) (res : Response.t) (w : W) :
  last_status res = inr "STOPPED" ->
  watch_loop fuel cluster task_arn res w = (Returned tt, w, []).
Proof.
  intros Hst. destruct fuel; simpl; unfold bind, lift; rewrite Hst;
    reflexivity.
Qed.

(** The condition of the [while] raises. *)
Lemma watch_loop_raises (fuel : nat) (res : Response.t) (w : W) (e : exn) :
  last_status res = inl e ->
  watch_loop fuel cluster task_arn res w = (Raised e, w, []).
Proof.
  intros Hst. destruct fuel; simpl; unfold bind, lift; rewrite Hst;
    reflexivity.
Qed.

Lemma watch_loop_no_fuel (res : Response.t) (w : W) (st : string) :
  last_status res = inr st -> st <> "STOPPED" ->
  watch_loop 0 cluster task_arn res w = (OutOfFuel, w, []).
Proof.
  intros Hst Hne. simpl. unfold bind, lift. rewrite Hst.
  rewrite (not_stopped st Hne). reflexivity.
Qed.

(** One turn of the body. *)
Lemma watch_loop_turn (fuel : nat) (res : Response.t) (w : W)
    (st : string) :
  last_status res = inr st -> st <> "STOPPED" ->
  watch_loop (S fuel) cluster task_arn res w
  = match poll cluster task_arn w with
    | (inr res', w1) =>
        match watch_loop fuel cluster task_arn res' w1 with
        | (o, w2, t) => (o, w2, iteration cluster task_arn st ++ t)
        end
    | (inl e, w1) => (Raised e, w1, iteration cluster task_arn st)
    end.
Proof.
  intros Hst Hne. simpl. unfold bind at 1. unfold lift at 1. rewrite Hst.
  rewrite (not_stopped st Hne). unfold bind, emit, call, poll. simpl.
  destruct (describe_tasks (Some cluster) [task_arn] w) as [[e|res'] w1];
    [reflexivity|].
  destruct (watch_loop fuel cluster task_arn res' w1) as [[o w2] t].
  reflexivity.
Qed.

(** [n] turns over statuses that are not STOPPED, then the rest of the
    loop from the [n]-th response. *)
Lemma watch_loop_turns (n fuel : nat) (res0 : Response.t) (w : W)
    (s : nat -> string) (resn : Response.t) :
  (forall k, k < n -> status_at cluster task_arn res0 w k = inr (s k)) ->
  (forall k, k < n -> s k <> "STOPPED") ->
  response_at cluster task_arn res0 w n = inr resn ->
  watch_loop (n + fuel) cluster task_arn res0 w
  = match watch_loop fuel cluster task_arn resn
            (world_after cluster task_arn w n) with
    | (o, w', t) => (o, w', iterations cluster task_arn s n ++ t)
    end.
Proof.
  revert fuel resn. induction n as [|n IH]; intros fuel resn Hs Hne Hn.
  - simpl in Hn. injection Hn as <-. simpl.
    destruct (watch_loop fuel cluster task_arn res0 w) as [[o w'] t].
    reflexivity.
  - assert (Hsn : status_at cluster task_arn res0 w n = inr (s n))
      by (apply Hs; lia).
    unfold status_at in Hsn.
    destruct (response_at cluster task_arn res0 w n) as [e|resp] eqn:Hresp;
      [discriminate|].
    replace (S n + fuel) with (n + S fuel) by lia.
    rewrite (IH (S fuel) resp); [|intros; apply Hs; lia
                                 |intros; apply Hne; lia|reflexivity].
    rewrite (watch_loop_turn fuel resp _ (s n) Hsn) by (apply Hne; lia).
    rewrite iterations_S.
    cbn [response_at] in Hn. cbn [world_after].
    destruct (poll cluster task_arn (world_after cluster task_arn w n))
      as [r w1]. cbn [fst] in Hn. cbn [snd]. subst r.
    destruct (watch_loop fuel cluster task_arn resn w1) as [[o w2] t].
    rewrite <- app_assoc. reflexivity.
Qed.

(** The loop returns at the first STOPPED. *)
Lemma watch_loop_returns (n fuel : nat) (res0 : Response.t) (w : W)
    (s : nat -> string) :
  (forall k, k <= n -> status_at cluster task_arn res0 w k = inr (s k)) ->
  (forall k, k < n -> s k <> "STOPPED") ->
  s n = "STOPPED" ->
  n <= fuel ->
  watch_loop fuel cluster task_arn res0 w
  = (Returned tt, world_after cluster task_arn w n,
     iterations cluster task_arn s n).
Proof.
  intros Hs Hne Hn Hfuel.
  assert (Hsn : status_at cluster task_arn res0 w n = inr (s n))
    by (apply Hs; lia).
  unfold status_at in Hsn.
  destruct (response_at cluster task_arn res0 w n) as [e|resn] eqn:Hresn;
    [discriminate|].
  replace fuel with (n + (fuel - n)) by lia.
  rewrite (watch_loop_turns n (fuel - n) res0 w s resn);
    [|intros; apply Hs; lia|exact Hne|exact Hresn].
  rewrite watch_loop_stopped by (rewrite Hsn, Hn; reflexivity).
  rewrite app_nil_r. reflexivity.
Qed.

(** While no STOPPED is seen the loop uses up any fuel. *)
Lemma watch_loop_runs_on (fuel : nat) (res0 : Response.t) (w : W)
    (s : nat -> string) :
  (forall k, k <= fuel -> status_at cluster task_arn res0 w k = inr (s k)) ->
  (forall k, k <= fuel -> s k <> "STOPPED") ->
  watch_loop fuel cluster task_arn res0 w
  = (OutOfFuel, world_after cluster task_arn w fuel,
     iterations cluster task_arn s fuel).
Proof.
  intros Hs Hne.
  assert (Hsn : status_at cluster task_arn res0 w fuel = inr (s fuel))
    by (apply Hs; lia).
  unfold status_at in Hsn.
  destruct (response_at cluster task_arn res0 w fuel) as [e|resn] eqn:Hresn;
    [discriminate|].
  replace fuel with (fuel + 0) at 1 by lia.
  rewrite (watch_loop_turns fuel 0 res0 w s resn);
    [|intros; apply Hs; lia|intros; apply Hne; lia|exact Hresn].
  rewrite (watch_loop_no_fuel resn _ (s fuel) Hsn) by (apply Hne; lia).
  rewrite app_nil_r. reflexivity.
Qed.

(** The poll after [n] turns raises: the loop raises with it. *)
Lemma watch_loop_poll_raises (n fuel : nat) (res0 : Response.t) (w : W)
    (s : nat -> string) (e : exn) :
  (forall k, k <= n -> status_at cluster task_arn res0 w k = inr (s k)) ->
  (forall k, k <= n -> s k <> "STOPPED") ->
  response_at cluster task_arn res0 w (S n) = inl e ->
  n < fuel ->
  watch_loop fuel cluster task_arn res0 w
  = (Raised e, world_after cluster task_arn w (S n),
     iterations cluster task_arn s (S n)).
Proof.
  intros Hs Hne He Hfuel.
  assert (Hsn : status_at cluster task_arn res0 w n = inr (s n))
    by (apply Hs; lia).
  unfold status_at in Hsn.
  destruct (response_at cluster task_arn res0 w n) as [e'|resn] eqn:Hresn;
    [discriminate|].
  replace fuel with (n + S (fuel - S n)) by lia.
  rewrite (watch_loop_turns n _ res0 w s resn);
    [|intros; apply Hs; lia|intros; apply Hne; lia|exact Hresn].
  rewrite (watch_loop_turn _ resn _ (s n) Hsn) by (apply Hne; lia).
  rewrite iterations_S.
  cbn [response_at] in He. cbn [world_after].
  destruct (poll cluster task_arn (world_after cluster task_arn w n))
    as [r w1]. cbn [fst] in He. cbn [snd]. subst r.
  reflexivity.
Qed.

(** Among the first statuses, either one is STOPPED or none is. *)
Lemma first_stopped (s : nat -> string) (n : nat) :
  (exists m, m <= n /\ s m = "STOPPED" /\
             forall k, k < m -> s k <> "STOPPED") \/
  (forall k, k <= n -> s k <> "STOPPED").
Proof.
  induction n as [|n [(m & Hm & Hst & Hbefore)|Hnone]].
  - destruct (String.eqb_spec (s 0) "STOPPED") as [Heq|Hne].
    + left. exists 0. repeat split; [lia|exact Heq|intros k Hk; lia].
    + right. intros k Hk. replace k with 0 by lia. exact Hne.
  - left. exists m. repeat split; [lia|exact Hst|exact Hbefore].
  - destruct (String.eqb_spec (s (S n)) "STOPPED") as [Heq|Hne].
    + left. exists (S n). repeat split; [lia|exact Heq|].
      intros k Hk. apply Hnone. lia.
    + right. intros k Hk.
      destruct (Nat.eq_dec k (S n)) as [->|Hk']; [exact Hne|].
      apply Hnone. lia.
Qed.

Lemma flat_map_singleton {A B : Type} (b : B) (l : list A) :
  flat_map (fun _ => [b]) l = repeat b (length l).
Proof.
  induction l as [|a l IH]; simpl; [reflexivity|].
  rewrite IH. reflexivity.
Qed.

(** Counting in the trace of the loop. *)
Lemma filter_iterations (p : event -> bool) (s : nat -> string) (n : nat) :
  List.filter p (iterations cluster task_arn s n)
  = flat_map (fun k => List.filter p (iteration cluster task_arn (s k)))
             (seq 0 n).
Proof.
  unfold iterations.
  induction (seq 0 n) as [|k l IH]; cbn [flat_map]; [reflexivity|].
  rewrite List.filter_app, IH. reflexivity.
Qed.

Lemma prints_of_iterations (s : nat -> string) (n : nat) :
  List.filter is_print (iterations cluster task_arn s n)
  = map (fun k => Print (progress_line task_arn (s k))) (seq 0 n).
Proof.
  rewrite filter_iterations.
  induction (seq 0 n) as [|k l IH]; cbn [flat_map map]; [reflexivity|].
  rewrite IH. reflexivity.
Qed.

Lemma describes_of_iterations (s : nat -> string) (n : nat) :
  List.filter is_describe (iterations cluster task_arn s n)
  = repeat (DescribeTasks (Some cluster) [task_arn]) n.
Proof.
  rewrite filter_iterations.
  change (flat_map (fun _ : nat => [DescribeTasks (Some cluster) [task_arn]])
            (seq 0 n)
          = repeat (DescribeTasks (Some cluster) [task_arn]) n).
  rewrite flat_map_singleton, length_seq. reflexivity.
Qed.

Lemma sleeps_of_iterations (s : nat -> string) (n : nat) :
  List.filter is_sleep (iterations cluster task_arn s n) = repeat (Sleep 1) n.
Proof.
  rewrite filter_iterations.
  change (flat_map (fun _ : nat => [Sleep 1]) (seq 0 n) = repeat (Sleep 1) n).
  rewrite flat_map_singleton, length_seq. reflexivity.
Qed.

Lemma log_reads_of_iterations (s : nat -> string) (n : nat) :
  List.filter is_log_read (iterations cluster task_arn s n) = [].
Proof.
  rewrite filter_iterations.
  change (flat_map (fun _ : nat => @nil event) (seq 0 n) = []).
  induction (seq 0 n) as [|k l IH]; [reflexivity|exact IH].
Qed.

End WatchLoop.

(** ** The monad *)

Section MonadLaws.

Context {W : Type}.

Lemma bind_assoc {A B C : Type} (m : M W A) (f : A -> M W B)
    (g : B -> M W C) (w : W) :
  bind (bind m f) g w = bind m (fun x => bind (f x) g) w.
Proof.
  unfold bind. destruct (m w) as [[[a|e|] w1] t1]; try reflexivity.
  destruct (f a w1) as [[[b|e|] w2] t2]; try reflexivity.
  destruct (g b w2) as [[o w3] t3]. rewrite app_assoc. reflexivity.
Qed.

Lemma bind_ext {A B : Type} (m : M W A) (f g : A -> M W B) (w : W) :
  (forall a w1, f a w1 = g a w1) -> bind m f w = bind m g w.
Proof.
  intros Hfg. unfold bind. destruct (m w) as [[[a|e|] w1] t1];
    try reflexivity.
  rewrite Hfg. reflexivity.
Qed.

Lemma bind_ret_l {A B : Type} (a : A) (f : A -> M W B) (w : W) :
  bind (ret a) f w = f a w.
Proof.
  unfold bind, ret. destruct (f a w) as [[o w1] t1]. reflexivity.
Qed.

(** The first step returned: go on with the rest. *)
Lemma bind_returned {A B : Type} (m : M W A) (f : A -> M W B) (w w1 : W)
    (a : A) (t1 : list event) :
  m w = (Returned a, w1, t1) ->
  bind m f w = match f a w1 with (o, w2, t2) => (o, w2, t1 ++ t2) end.
Proof. intros Hm. unfold bind. rewrite Hm. reflexivity. Qed.

Lemma bind_raised {A B : Type} (m : M W A) (f : A -> M W B) (w w1 : W)
    (e : exn) (t1 : list event) :
  m w = (Raised e, w1, t1) -> bind m f w = (Raised e, w1, t1).
Proof. intros Hm. unfold bind. rewrite Hm. reflexivity. Qed.

Lemma bind_out_of_fuel {A B : Type} (m : M W A) (f : A -> M W B)
    (w w1 : W) (t1 : list event) :
  m w = (OutOfFuel, w1, t1) -> bind m f w = (OutOfFuel, w1, t1).
Proof. intros Hm. unfold bind. rewrite Hm. reflexivity. Qed.

End MonadLaws.

(** ** The phases of [run] *)

Section Phases.

Context {W : Type} `{Cloud W}.

Lemma run_phases (fuel : nat) (args : RunArgs.t) (w : W) :
  run fuel args w = bind (provision args) (launch_and_watch fuel args) w.
Proof.
  unfold run, provision.
  repeat (rewrite bind_assoc; apply bind_ext; intros ? ?).
  rewrite bind_ret_l. reflexivity.
Qed.

(** The log group ensured is the one of the logging configuration: the
    task name. *)
Lemma log_group_of_config (region task_name : string) :
  getitem (LogConfiguration.options (log_config_of region task_name))
          "awslogs-group" = inr task_name.
Proof.
  unfold getitem, log_config_of. cbn [LogConfiguration.options].
  rewrite lookup_insert_ne by discriminate.
  rewrite lookup_insert_eq. reflexivity.
Qed.

Lemma stream_prefix_of_config (region task_name : string) :
  LogConfiguration.options (log_config_of region task_name)
    !! "awslogs-stream-prefix" = Some task_name.
Proof.
  unfold log_config_of. cbn [LogConfiguration.options].
  rewrite lookup_insert_ne by discriminate.
  rewrite lookup_insert_ne by discriminate.
  apply lookup_singleton_eq.
Qed.

Lemma print_messages_trace (events : list LogEvent.t) (w : W) :
  print_messages events w
  = (Returned tt, w, map (fun ev => Print (LogEvent.message ev)) events).
Proof.
  induction events as [|ev rest IH]; [reflexivity|].
  cbn [print_messages map]. unfold bind, emit. rewrite IH. reflexivity.
Qed.

End Phases.

(** ** Provisioning *)

Section Provisioning.

Context {W : Type} `{Cloud W}.

Ltac answer op :=
  match goal with
  | |- context [op ?w] =>
      let e := fresh "e" in
      let a := fresh "a" in
      let w' := fresh "w" in
      destruct (op w) as [[e|a] w']
  end.

Lemma provision_returns (args : RunArgs.t) (w w1 : W)
    (network_config : NetworkConfiguration.t) (tp : list event) :
  provision args w = (Returned network_config, w1, tp) ->
  exists region vpc exec_role task_role sg,
    tp = provision_trace args region vpc exec_role task_role /\
    network_config = network_config_of vpc sg.
Proof.
  unfold provision, bind, call, read, lift.
  answer ensure_vpc; [discriminate|].
  answer (create_cluster (RunArgs.cluster args)); [discriminate|].
  rewrite log_group_of_config.
  answer (ensure_log_group (RunArgs.task_name args)); [discriminate|].
  answer (ensure_iam_role (RunArgs.execution_role args) (Some ["ecs-tasks"])
            (Some ["service-role/AWSBatchServiceRole"])); [discriminate|].
  answer (ensure_iam_role (RunArgs.task_role args) None None);
    [discriminate|].
  match goal with
  | |- context [register_task_definition ?d ?w] =>
      destruct (register_task_definition d w) as [[?e|?u] ?w]
  end; [discriminate|].
  match goal with
  | |- context [ensure_security_group ?n ?v ?w] =>
      destruct (ensure_security_group n v w) as [[?e|?sg] ?w]
  end; [discriminate|].
  unfold ret. intros Heq. injection Heq as <- <- <-.
  eexists _, _, _, _, _. split; reflexivity.
Qed.

(** However far provisioning gets, its calls are an initial part of the
    provisioning sequence, and it does nothing else. *)
Lemma provision_calls (args : RunArgs.t) (w w1 : W)
    (o : outcome NetworkConfiguration.t) (tp : list event) :
  provision args w = (o, w1, tp) ->
  exists rest, map kind_of tp ++ rest = provision_sequence.
Proof.
  unfold provision, bind, call, read, lift.
  answer ensure_vpc;
    [intros Heq; injection Heq as <- <- <-; eexists; reflexivity|].
  answer (create_cluster (RunArgs.cluster args));
    [intros Heq; injection Heq as <- <- <-; eexists; reflexivity|].
  rewrite log_group_of_config.
  answer (ensure_log_group (RunArgs.task_name args));
    [intros Heq; injection Heq as <- <- <-; eexists; reflexivity|].
  answer (ensure_iam_role (RunArgs.execution_role args) (Some ["ecs-tasks"])
            (Some ["service-role/AWSBatchServiceRole"]));
    [intros Heq; injection Heq as <- <- <-; eexists; reflexivity|].
  answer (ensure_iam_role (RunArgs.task_role args) None None);
    [intros Heq; injection Heq as <- <- <-; eexists; reflexivity|].
  match goal with
  | |- context [register_task_definition ?d ?w] =>
      destruct (register_task_definition d w) as [[?e|?u] ?w]
  end; [intros Heq; injection Heq as <- <- <-; eexists; reflexivity|].
  match goal with
  | |- context [ensure_security_group ?n ?v ?w] =>
      destruct (ensure_security_group n v w) as [[?e|?sg] ?w]
  end; [intros Heq; injection Heq as <- <- <-; eexists; reflexivity|].
  unfold ret. intros Heq. injection Heq as <- <- <-.
  exists []. reflexivity.
Qed.

(** An event of a kind in the provisioning sequence is an external call
    and is none of the later calls. *)
Lemma provisioning_event (ev : event) :
  In (kind_of ev) provision_sequence ->
  external ev = true /\ is_run_task ev = false /\ is_describe ev = false /\
  is_log_read ev = false /\ is_print ev = false /\ is_sleep ev = false.
Proof.
  unfold provision_sequence.
  destruct ev; simpl; intros Hin; repeat split; try reflexivity;
    repeat (destruct Hin as [Hin|Hin]; [discriminate Hin|]);
    contradiction.
Qed.

Lemma provision_events (args : RunArgs.t) (w w1 : W)
    (o : outcome NetworkConfiguration.t) (tp : list event) (ev : event) :
  provision args w = (o, w1, tp) -> In ev tp ->
  In (kind_of ev) provision_sequence.
Proof.
  intros Hp Hin. destruct (provision_calls args w w1 o tp Hp) as [rest <-].
  apply in_or_app. left. apply in_map. exact Hin.
Qed.

End Provisioning.

(** ** Traces of the later phases *)

Section Traces.

Context {W : Type} `{Cloud W}.

Lemma calls_app (t1 t2 : list event) :
  calls (t1 ++ t2) = calls t1 ++ calls t2.
Proof. unfold calls. rewrite List.filter_app, map_app. reflexivity. Qed.

Lemma count_app (p : event -> bool) (t1 t2 : list event) :
  count p (t1 ++ t2) = count p t1 + count p t2.
Proof. unfold count. rewrite List.filter_app, length_app. reflexivity. Qed.

Lemma count_none (p : event -> bool) (t : list event) :
  (forall ev, In ev t -> p ev = false) -> count p t = 0.
Proof.
  unfold count. induction t as [|ev t IH]; intros Hp; [reflexivity|].
  simpl. rewrite (Hp ev) by (left; reflexivity).
  apply IH. intros ev' Hin. apply Hp. right. exact Hin.
Qed.

Lemma count_zero_not_in (p : event -> bool) (t : list event) (ev : event) :
  count p t = 0 -> p ev = true -> ~ In ev t.
Proof.
  unfold count. intros Hc Hp Hin.
  assert (Hf : In ev (List.filter p t)) by (apply filter_In; split; assumption).
  destruct (List.filter p t); [contradiction|discriminate].
Qed.

Lemma watch_loop_events (fuel : nat) (cluster task_arn : string)
    (res : Response.t) (w w' : W) (o : outcome unit) (t : list event)
    (ev : event) :
  watch_loop fuel cluster task_arn res w = (o, w', t) -> In ev t ->
  In (kind_of ev) watch_kinds.
Proof.
  revert res w w' o t.
  induction fuel as [|fuel IH]; intros res w w' o t.
  - destruct (last_status res) as [e|st] eqn:Hst.
    + rewrite (watch_loop_raises cluster task_arn 0 res w e Hst).
      intros Heq. injection Heq as <- <- <-. contradiction.
    + destruct (String.eqb_spec st "STOPPED") as [->|Hne].
      * rewrite (watch_loop_stopped cluster task_arn 0 res w Hst).
        intros Heq. injection Heq as <- <- <-. contradiction.
      * rewrite (watch_loop_no_fuel cluster task_arn res w st Hst Hne).
        intros Heq. injection Heq as <- <- <-. contradiction.
  - destruct (last_status res) as [e|st] eqn:Hst.
    + rewrite (watch_loop_raises cluster task_arn _ res w e Hst).
      intros Heq. injection Heq as <- <- <-. contradiction.
    + destruct (String.eqb_spec st "STOPPED") as [->|Hne].
      * rewrite (watch_loop_stopped cluster task_arn _ res w Hst).
        intros Heq. injection Heq as <- <- <-. contradiction.
      * rewrite (watch_loop_turn cluster task_arn fuel res w st Hst Hne).
        destruct (poll cluster task_arn w) as [[e|res'] w1].
        -- intros Heq. injection Heq as <- <- <-. unfold iteration.
           simpl. intros [<-|[<-|[<-|[]]]]; simpl; tauto.
        -- destruct (watch_loop fuel cluster task_arn res' w1)
             as [[o1 w2] t1] eqn:Hrest.
           intros Heq. injection Heq as <- <- <-. intros Hin.
           unfold iteration in Hin. simpl in Hin.
           destruct Hin as [<-|[<-|[<-|Hin]]]; try (simpl; tauto).
           exact (IH res' w1 _ _ _ Hrest Hin).
Qed.

Lemma watch_event (ev : event) :
  In (kind_of ev) watch_kinds ->
  is_run_task ev = false /\ is_log_read ev = false /\
  is_register ev = false /\
  (external ev = true -> kind_of ev = KDescribeTasks /\ is_describe ev = true)
  /\ (external ev = false -> is_describe ev = false).
Proof.
  unfold watch_kinds.
  destruct ev; simpl; intros Hin; repeat split; try reflexivity;
    try discriminate;
    repeat (destruct Hin as [Hin|Hin]; [discriminate Hin|]);
    contradiction.
Qed.

(** The external calls of the loop are its polls. *)
Lemma watch_calls (t : list event) :
  (forall ev, In ev t -> In (kind_of ev) watch_kinds) ->
  calls t = repeat KDescribeTasks (count is_describe t).
Proof.
  unfold calls, count. induction t as [|ev t IH]; intros Hk; [reflexivity|].
  destruct (watch_event ev (Hk ev (or_introl eq_refl)))
    as (_ & _ & _ & Hext & Hnot).
  assert (IH' := IH (fun ev' Hin => Hk ev' (or_intror Hin))).
  simpl. destruct (external ev) eqn:He.
  - destruct (Hext eq_refl) as [Hkind Hd]. rewrite Hd. simpl.
    rewrite Hkind, IH'. reflexivity.
  - rewrite (Hnot eq_refl). exact IH'.
Qed.

(** Once the task is submitted, [run] is the watching and reading. *)
Lemma run_from_submission (fuel : nat) (args : RunArgs.t) (w w2 : W)
    (t : list event) (res : Response.t) (task_arn : string) :
  submits args w t res task_arn w2 ->
  run fuel args w
  = match watch_and_read fuel args task_arn res w2 with
    | (o, w3, t3) => (o, w3, t ++ t3)
    end.
Proof.
  intros (nc & w1 & tp & task & Hp & Hr & -> & Hi & <-).
  rewrite run_phases. rewrite (bind_returned _ _ _ _ _ _ Hp).
  unfold launch_and_watch.
  assert (Hcall : call (RunTask (run_task_request_of args nc))
                    (run_task (run_task_request_of args nc)) w1
                  = (Returned res, w2,
                     [RunTask (run_task_request_of args nc)])).
  { unfold call. rewrite Hr. reflexivity. }
  rewrite (bind_returned _ _ _ _ _ _ Hcall).
  assert (Hlift : @lift W _ (index (Response.tasks res) 0) w2
                  = (Returned task, w2, [])).
  { unfold lift. rewrite Hi. reflexivity. }
  rewrite (bind_returned _ _ _ _ _ _ Hlift).
  destruct (watch_and_read fuel args (Task.taskArn task) res w2)
    as [[o w3] t3].
  simpl. rewrite <- app_assoc. reflexivity.
Qed.

(** The loop returns: the logs are read under the constructed name and
    their messages printed. *)
Lemma watch_and_read_returns (fuel : nat) (args : RunArgs.t)
    (task_arn task_uuid : string) (res : Response.t) (w w3 w4 : W)
    (tw : list event) (events : list LogEvent.t) :
  task_uuid_of task_arn = inr task_uuid ->
  watch_loop fuel (RunArgs.cluster args) task_arn res w
    = (Returned tt, w3, tw) ->
  log_events
    (Py.join "/" [RunArgs.task_name args; RunArgs.task_name args; task_uuid])
    (RunArgs.task_name args) w3 = (inr events, w4) ->
  watch_and_read fuel args task_arn res w
  = (Returned tt, w4,
     tw ++
     CloudwatchLogReader
       (Py.join "/" [RunArgs.task_name args; RunArgs.task_name args;
                     task_uuid])
       (RunArgs.task_name args)
     :: map (fun ev => Print (LogEvent.message ev)) events).
Proof.
  intros Hu Hloop Hlogs. unfold watch_and_read.
  unfold bind at 1. unfold lift at 1. rewrite Hu.
  rewrite (bind_returned _ _ _ _ _ _ Hloop).
  unfold bind, call. rewrite Hlogs, print_messages_trace. reflexivity.
Qed.

(** The loop does not return: nothing follows. *)
Lemma watch_and_read_stops (fuel : nat) (args : RunArgs.t)
    (task_arn task_uuid : string) (res : Response.t) (w w3 : W)
    (o : outcome unit) (tw : list event) :
  task_uuid_of task_arn = inr task_uuid ->
  watch_loop fuel (RunArgs.cluster args) task_arn res w = (o, w3, tw) ->
  o <> Returned tt ->
  watch_and_read fuel args task_arn res w = (o, w3, tw).
Proof.
  intros Hu Hloop Ho. unfold watch_and_read.
  unfold bind at 1. unfold lift at 1. rewrite Hu.
  unfold bind. rewrite Hloop.
  destruct o as [[]|e|]; [contradiction|reflexivity|reflexivity].
Qed.

End Traces.

(** ** The cloud with create-or-get provisioning *)

Section AwsWorld.

Variables cluster task_arn : string.

Lemma aws_world_after (w : Aws.world) (k : nat) :
  world_after cluster task_arn w k
  = {| Aws.res := Aws.res w; Aws.polls := Aws.polls w + k;
       Aws.env := Aws.env w |}.
Proof.
  induction k as [|k IH]; cbn [world_after].
  - rewrite Nat.add_0_r. destruct w; reflexivity.
  - rewrite IH. cbn. rewrite Nat.add_succ_r. reflexivity.
Qed.

Lemma aws_response_at (res0 : Response.t) (w : Aws.world) (k : nat) :
  response_at cluster task_arn res0 w (S k)
  = Aws.described (Aws.env w) (Aws.polls w + k).
Proof. cbn [response_at]. rewrite aws_world_after. reflexivity. Qed.

(** A scripted task reports its script. *)
Lemma aws_scripted_status (arn : string) (s : nat -> string)
    (lines : list string) (r : Aws.resources) (k : nat) :
  status_at cluster task_arn (Aws.task_response arn (s 0))
    {| Aws.res := r; Aws.polls := 0; Aws.env := Aws.scripted arn s lines |} k
  = inr (s k).
Proof.
  unfold status_at. destruct k as [|k]; [reflexivity|].
  rewrite aws_response_at. reflexivity.
Qed.

End AwsWorld.

(** Provisioning in this cloud always gets through. *)
Lemma aws_provision (args : RunArgs.t) (w : Aws.world) :
  provision args w
  = (Returned (Aws.network_config args (Aws.env w)),
     Aws.with_res (Aws.provisioned args) w,
     provision_trace args (Aws.region (Aws.env w)) (Aws.network (Aws.env w))
       (Aws.role_of (RunArgs.execution_role args))
       (Aws.role_of (RunArgs.task_role args))).
Proof.
  unfold provision, bind, call, read, lift.
  cbn [ensure_vpc create_cluster region_name aws_cloud Aws.ensure_vpc
       Aws.create_cluster].
  rewrite log_group_of_config. reflexivity.
Qed.

Lemma aws_submits (args : RunArgs.t) (w : Aws.world) (res : Response.t)
    (task : Task.t) :
  Aws.launch (Aws.env w)
    (run_task_request_of args (Aws.network_config args (Aws.env w)))
    = inr res ->
  index (Response.tasks res) 0 = inr task ->
  submits args w
    (provision_trace args (Aws.region (Aws.env w)) (Aws.network (Aws.env w))
       (Aws.role_of (RunArgs.execution_role args))
       (Aws.role_of (RunArgs.task_role args))
     ++ [RunTask (run_task_request_of args
                    (Aws.network_config args (Aws.env w)))])
    res (Task.taskArn task) (Aws.with_res (Aws.provisioned args) w).
Proof.
  intros Hl Hi. unfold submits.
  exists (Aws.network_config args (Aws.env w)),
         (Aws.with_res (Aws.provisioned args) w),
         (provision_trace args (Aws.region (Aws.env w))
            (Aws.network (Aws.env w))
            (Aws.role_of (RunArgs.execution_role args))
            (Aws.role_of (RunArgs.task_role args))),
         task.
  split; [apply aws_provision|].
  split.
  { unfold run_task, aws_cloud, Aws.run_task. cbn [Aws.env Aws.with_res].
    rewrite Hl. reflexivity. }
  split; [reflexivity|]. split; [exact Hi|reflexivity].
Qed.

(** ** Claims about the watch loop *)

(** C2: whatever statuses are reported, when the first STOPPED is the
    [n]-th status (the answer of [run_task] counting as status 0), the loop
    makes exactly [n] turns, each one printing one progress line, sleeping
    and polling once: the lines printed are the task ARN with the statuses
    0 to [n-1] in order, the first of them the status [run_task] answered,
    and there are [n] polls, the last of which is the one that answered
    STOPPED.  The loop returns right there, in the world after [n] polls:
    the STOPPED status itself gets no line, and when [n = 0] there is no
    turn at all. *)
Theorem watch_loop_line_per_poll {W : Type} `{Cloud W}
    (cluster task_arn : string) (n fuel : nat) (res0 : Response.t) (w : W)
    (s : nat -> string) :
  (forall k, k <= n -> status_at cluster task_arn res0 w k = inr (s k)) ->
  (forall k, k < n -> s k <> "STOPPED") ->
  s n = "STOPPED" ->
  n <= fuel ->
  watch_loop fuel cluster task_arn res0 w
  = (Returned tt, world_after cluster task_arn w n,
     iterations cluster task_arn s n) /\
  List.filter is_print (iterations cluster task_arn s n)
  = map (fun k => Print (progress_line task_arn (s k))) (seq 0 n) /\
  count is_print (iterations cluster task_arn s n) = n /\
  count is_describe (iterations cluster task_arn s n) = n.
Proof.
  intros Hs Hne Hn Hfuel.
  split; [exact (watch_loop_returns cluster task_arn n fuel res0 w s
                   Hs Hne Hn Hfuel)|].
  split; [apply prints_of_iterations|].
  unfold count.
  rewrite prints_of_iterations, describes_of_iterations.
  rewrite length_map, length_seq, repeat_length. split; reflexivity.
Qed.

Lemma watch_loop_line_per_poll_witness :
  watch_loop 5 "aegea_ecs" Demo.task_arn
    (Aws.task_response Demo.task_arn "PROVISIONING") Demo.world
  = (Returned tt,
     {| Aws.res := Aws.empty; Aws.polls := 2; Aws.env := Aws.env Demo.world |},
     [Print "arn:aws:ecs:us-east-1:123456789012:task/abc123 PROVISIONING";
      Sleep 1; DescribeTasks (Some "aegea_ecs") [Demo.task_arn];
      Print "arn:aws:ecs:us-east-1:123456789012:task/abc123 RUNNING";
      Sleep 1; DescribeTasks (Some "aegea_ecs") [Demo.task_arn]]).
Proof.
  refine (proj1 (watch_loop_line_per_poll "aegea_ecs" Demo.task_arn 2 5
                   (Aws.task_response Demo.task_arn "PROVISIONING")
                   Demo.world Demo.statuses _ _ _ _)).
  - intros k Hk. destruct k as [|[|[|k]]]; [reflexivity..|lia].
  - intros k Hk. destruct k as [|[|k]]; [discriminate..|lia].
  - reflexivity.
  - lia.
Defined.

(** C7: when every poll answers a status, the loop comes to an end if and
    only if one of the statuses, the answer of [run_task] included, is
    STOPPED.  Nothing else ends it: as long as no STOPPED is seen, any
    number of turns is made in full, each one sleeping one second and
    polling again. *)
Theorem watch_loop_terminates_iff_stopped {W : Type} `{Cloud W}
    (cluster task_arn : string) (res0 : Response.t) (w : W)
    (s : nat -> string) :
  (forall k, status_at cluster task_arn res0 w k = inr (s k)) ->
  ((exists fuel,
      fst (fst (watch_loop fuel cluster task_arn res0 w)) <> OutOfFuel)
   <-> (exists k, s k = "STOPPED")) /\
  (forall fuel,
      (forall k, k <= fuel -> s k <> "STOPPED") ->
      watch_loop fuel cluster task_arn res0 w
      = (OutOfFuel, world_after cluster task_arn w fuel,
         iterations cluster task_arn s fuel) /\
      List.filter is_sleep (iterations cluster task_arn s fuel)
      = repeat (Sleep 1) fuel /\
      count is_describe (iterations cluster task_arn s fuel) = fuel).
Proof.
  intros Hs. split; [split|].
  - intros [fuel Hend].
    destruct (first_stopped s fuel) as [(m & _ & Hm & _)|Hnone].
    + exists m. exact Hm.
    + exfalso. apply Hend.
      rewrite (watch_loop_runs_on cluster task_arn fuel res0 w s);
        [reflexivity|intros; apply Hs|exact Hnone].
  - intros [k Hk].
    destruct (first_stopped s k) as [(m & _ & Hm & Hbefore)|Hnone].
    + exists m.
      rewrite (watch_loop_returns cluster task_arn m m res0 w s);
        [discriminate|intros; apply Hs|exact Hbefore|exact Hm|lia].
    + exfalso. apply (Hnone k); [lia|exact Hk].
  - intros fuel Hnone.
    split; [apply watch_loop_runs_on; [intros; apply Hs|exact Hnone]|].
    split; [apply sleeps_of_iterations|].
    unfold count. rewrite describes_of_iterations. apply repeat_length.
Qed.

Lemma watch_loop_terminates_iff_stopped_witness :
  ((exists fuel,
      fst (fst (watch_loop fuel "aegea_ecs" Demo.task_arn
                  (Aws.task_response Demo.task_arn (Demo.statuses 0))
                  Demo.world)) <> OutOfFuel)
   <-> (exists k, Demo.statuses k = "STOPPED")) /\
  fst (fst (watch_loop 7 "aegea_ecs" Demo.task_arn
              (Aws.task_response Demo.task_arn (Demo.running 0))
              Demo.stuck)) = OutOfFuel.
Proof.
  split.
  - exact (proj1 (watch_loop_terminates_iff_stopped "aegea_ecs" Demo.task_arn
                    (Aws.task_response Demo.task_arn (Demo.statuses 0))
                    Demo.world Demo.statuses
                    (aws_scripted_status "aegea_ecs" Demo.task_arn
                       Demo.task_arn Demo.statuses ["hi"] Aws.empty))).
  - destruct (proj2 (watch_loop_terminates_iff_stopped "aegea_ecs"
                       Demo.task_arn
                       (Aws.task_response Demo.task_arn (Demo.running 0))
                       Demo.stuck Demo.running
                       (aws_scripted_status "aegea_ecs" Demo.task_arn
                          Demo.task_arn Demo.running [] Aws.empty))
                    7 (fun k _ => ltac:(discriminate)))
      as [Hrun _].
    rewrite Hrun. reflexivity.
Defined.

(** ** The order of the calls *)

Section CallOrder.

Context {W : Type} `{Cloud W}.

Lemma calls_prints (events : list LogEvent.t) :
  calls (map (fun ev => Print (LogEvent.message ev)) events) = [].
Proof. induction events as [|ev rest IH]; [reflexivity|exact IH]. Qed.

Lemma count_prints (p : event -> bool) (events : list LogEvent.t) :
  (forall line, p (Print line) = false) ->
  count p (map (fun ev => Print (LogEvent.message ev)) events) = 0.
Proof.
  intros Hp. apply count_none. intros ev Hin.
  apply in_map_iff in Hin. destruct Hin as (x & <- & _). apply Hp.
Qed.

Lemma calls_provision_trace (args : RunArgs.t) (region : string)
    (vpc : Vpc.t) (exec_role task_role : Role.t) :
  calls (provision_trace args region vpc exec_role task_role)
  = provision_sequence.
Proof. reflexivity. Qed.

(** The task is submitted: what has been called so far. *)
Lemma submits_trace (args : RunArgs.t) (w w2 : W) (t : list event)
    (res : Response.t) (task_arn : string) :
  submits args w t res task_arn w2 ->
  exists region vpc exec_role task_role sg,
    t = provision_trace args region vpc exec_role task_role ++
        [RunTask (run_task_request_of args (network_config_of vpc sg))].
Proof.
  intros (nc & w1 & tp & task & Hp & _ & -> & _ & _).
  destruct (provision_returns args w w1 nc tp Hp)
    as (region & vpc & er & tr & sg & -> & ->).
  exists region, vpc, er, tr, sg. reflexivity.
Qed.

(** What follows the submission, however it ends: polls, then at most
    one log read, and no second submission. *)
Lemma watch_and_read_calls (fuel : nat) (args : RunArgs.t)
    (task_arn : string) (res : Response.t) (w w' : W) (o : outcome unit)
    (t : list event) :
  watch_and_read fuel args task_arn res w = (o, w', t) ->
  (exists rest,
      calls t ++ rest
      = repeat KDescribeTasks (count is_describe t) ++ [KCloudwatchLogReader])
  /\ (o = Returned tt ->
      calls t
      = repeat KDescribeTasks (count is_describe t) ++ [KCloudwatchLogReader])
  /\ count is_run_task t = 0.
Proof.
  unfold watch_and_read. unfold bind at 1. unfold lift at 1.
  destruct (task_uuid_of task_arn) as [e|u].
  { intros Heq. injection Heq as <- <- <-.
    split; [exists [KCloudwatchLogReader]; reflexivity|].
    split; [discriminate|reflexivity]. }
  destruct (watch_loop fuel (RunArgs.cluster args) task_arn res w)
    as [[o1 w3] tw] eqn:Hloop.
  assert (Hkinds : forall ev, In ev tw -> In (kind_of ev) watch_kinds)
    by (intros ev; exact (watch_loop_events _ _ _ _ _ _ _ _ ev Hloop)).
  assert (Hcalls := watch_calls tw Hkinds).
  assert (Hno : count is_run_task tw = 0).
  { apply count_none. intros ev Hin.
    exact (proj1 (watch_event ev (Hkinds ev Hin))). }
  destruct o1 as [[]|e|].
  - rewrite (bind_returned _ _ _ _ _ _ Hloop).
    unfold bind, call.
    match goal with
    | |- context [log_events ?a ?b ?c] =>
        destruct (log_events a b c) as [[e|events] w4]
    end.
    + intros Heq. injection Heq as <- <- <-. cbn [app].
      rewrite !calls_app, !count_app, Hcalls, Hno.
      cbn. rewrite Nat.add_0_r.
      split; [exists []; rewrite app_nil_r; reflexivity|].
      split; [discriminate|reflexivity].
    + rewrite print_messages_trace.
      intros Heq. injection Heq as <- <- <-. cbn [app].
      rewrite !calls_app, !count_app, Hcalls, Hno.
      change (calls (CloudwatchLogReader ?a ?b :: ?l))
        with (KCloudwatchLogReader :: calls l).
      change (count ?p (CloudwatchLogReader ?a ?b :: ?l))
        with (count p l).
      rewrite calls_prints, !count_prints by reflexivity.
      rewrite Nat.add_0_r.
      split; [exists []; rewrite app_nil_r; reflexivity|].
      split; reflexivity.
  - rewrite (bind_raised _ _ _ _ _ _ Hloop).
    intros Heq. injection Heq as <- <- <-. cbn [app].
    rewrite Hcalls, Hno.
    split; [exists [KCloudwatchLogReader]; reflexivity|].
    split; [discriminate|reflexivity].
  - rewrite (bind_out_of_fuel _ _ _ _ _ Hloop).
    intros Heq. injection Heq as <- <- <-. cbn [app].
    rewrite Hcalls, Hno.
    split; [exists [KCloudwatchLogReader]; reflexivity|].
    split; [discriminate|reflexivity].
Qed.

End CallOrder.

Section RunOrder.

Context {W : Type} `{Cloud W}.

Lemma calls_all_external (t : list event) :
  (forall ev, In ev t -> external ev = true) -> calls t = map kind_of t.
Proof.
  unfold calls. induction t as [|ev t IH]; intros Hext; [reflexivity|].
  simpl. rewrite (Hext ev) by (left; reflexivity). simpl.
  rewrite IH; [reflexivity|]. intros ev' Hin. apply Hext. right. exact Hin.
Qed.

(** From the submission on, however it ends. *)
Lemma launch_and_watch_calls (fuel : nat) (args : RunArgs.t)
    (nc : NetworkConfiguration.t) (w w' : W) (o : outcome unit)
    (t : list event) :
  launch_and_watch fuel args nc w = (o, w', t) ->
  (exists rest,
      calls t ++ rest
      = KRunTask :: repeat KDescribeTasks (count is_describe t) ++
        [KCloudwatchLogReader])
  /\ (o = Returned tt ->
      calls t
      = KRunTask :: repeat KDescribeTasks (count is_describe t) ++
        [KCloudwatchLogReader])
  /\ count is_run_task t = 1
  /\ (forall req, In (RunTask req) t -> req = run_task_request_of args nc).
Proof.
  unfold launch_and_watch. unfold bind at 1. unfold call at 1.
  destruct (run_task (run_task_request_of args nc) w) as [[e|res] w2].
  { intros Heq. injection Heq as <- <- <-.
    split; [exists [KCloudwatchLogReader]; reflexivity|].
    split; [discriminate|]. split; [reflexivity|].
    intros req [Heq|[]]. injection Heq as <-. reflexivity. }
  unfold bind at 1. unfold lift at 1.
  destruct (index (Response.tasks res) 0) as [e|task].
  { intros Heq. injection Heq as <- <- <-.
    split; [exists [KCloudwatchLogReader]; reflexivity|].
    split; [discriminate|]. split; [reflexivity|].
    intros req [Heq|[]]. injection Heq as <-. reflexivity. }
  destruct (watch_and_read fuel args (Task.taskArn task) res w2)
    as [[o3 w3] t3] eqn:Hrest.
  destruct (watch_and_read_calls fuel args _ res w2 w3 o3 t3 Hrest)
    as ([rest Hprefix] & Hfull & Hno).
  intros Heq. injection Heq as <- <- <-. cbn [app].
  change (calls (RunTask ?r :: ?l)) with (KRunTask :: calls l).
  change (count is_describe (RunTask ?r :: ?l)) with (count is_describe l).
  change (count is_run_task (RunTask ?r :: ?l))
    with (S (count is_run_task l)).
  split; [exists rest; cbn [app]; rewrite Hprefix; reflexivity|].
  split; [intros Ho; rewrite (Hfull Ho); reflexivity|].
  split; [rewrite Hno; reflexivity|].
  intros req [Heq|Hin]; [injection Heq as <-; reflexivity|].
  exfalso. exact (count_zero_not_in is_run_task t3 (RunTask req) Hno
                    eq_refl Hin).
Qed.

(** C5: however an invocation of [run] ends, its external calls are, in
    this order and with nothing else in between, an initial part of:
    ensure network, create cluster, ensure log group, ensure execution
    role, ensure task role, register task definition, ensure security
    group, run-task, the polls, read logs.  No step comes twice or out of
    turn, at most one run-task request is made and it asks for the
    FARGATE launch type on the cluster and the task name of the
    arguments; an invocation that returns has made all of the calls, the
    log read last. *)
Theorem run_call_sequence (fuel : nat) (args : RunArgs.t) (w w' : W)
    (o : outcome unit) (t : list event) :
  run fuel args w = (o, w', t) ->
  (exists rest, calls t ++ rest = run_sequence (count is_describe t)) /\
  count is_run_task t <= 1 /\
  (forall req, In (RunTask req) t ->
     RunTaskRequest.launchType req = "FARGATE" /\
     RunTaskRequest.cluster req = RunArgs.cluster args /\
     RunTaskRequest.taskDefinition req = RunArgs.task_name args) /\
  (o = Returned tt ->
     calls t = run_sequence (count is_describe t) /\
     count is_run_task t = 1).
Proof.
  rewrite run_phases.
  destruct (provision args w) as [[o1 w1] tp] eqn:Hp.
  assert (Hkinds : forall ev, In ev tp -> In (kind_of ev) provision_sequence)
    by (intros ev; exact (provision_events args w w1 o1 tp ev Hp)).
  assert (Hext : calls tp = map kind_of tp).
  { apply calls_all_external. intros ev Hin.
    exact (proj1 (provisioning_event ev (Hkinds ev Hin))). }
  assert (Hnorun : count is_run_task tp = 0).
  { apply count_none. intros ev Hin.
    exact (proj1 (proj2 (provisioning_event ev (Hkinds ev Hin)))). }
  assert (Hnodesc : count is_describe tp = 0).
  { apply count_none. intros ev Hin.
    exact (proj1 (proj2 (proj2 (provisioning_event ev (Hkinds ev Hin))))). }
  destruct (provision_calls args w w1 o1 tp Hp) as [rest Hrest].
  destruct o1 as [nc|e|].
  - rewrite (bind_returned _ _ _ _ _ _ Hp).
    destruct (provision_returns args w w1 nc tp Hp)
      as (region & vpc & er & tr & sg & Htp & Hnc).
    destruct (launch_and_watch fuel args nc w1) as [[o2 w2] t2] eqn:Hl.
    destruct (launch_and_watch_calls fuel args nc w1 w2 o2 t2 Hl)
      as ([rest2 Hprefix] & Hfull & Hone & Hreq).
    intros Heq. injection Heq as <- <- <-.
    rewrite calls_app, !count_app, Hnorun, Hnodesc. cbn [Nat.add].
    assert (Hcp : calls tp = provision_sequence)
      by (rewrite Htp; reflexivity).
    rewrite Hcp. unfold run_sequence.
    split; [exists rest2; rewrite <- app_assoc, Hprefix; reflexivity|].
    split; [rewrite Hone; lia|].
    split.
    + intros req Hin. apply in_app_or in Hin. destruct Hin as [Hin|Hin].
      * exfalso. exact (count_zero_not_in is_run_task tp (RunTask req)
                          Hnorun eq_refl Hin).
      * rewrite (Hreq req Hin). repeat split.
    + intros Ho. rewrite (Hfull Ho). split; [reflexivity|exact Hone].
  - rewrite (bind_raised _ _ _ _ _ _ Hp).
    intros Heq. injection Heq as <- <- <-.
    rewrite Hext, Hnorun, Hnodesc. unfold run_sequence. rewrite <- Hrest.
    split; [exists (rest ++ [KRunTask; KCloudwatchLogReader]);
            rewrite <- !app_assoc; reflexivity|].
    split; [lia|]. split; [|discriminate].
    intros req Hin. exfalso.
    exact (count_zero_not_in is_run_task tp (RunTask req) Hnorun eq_refl Hin).
  - rewrite (bind_out_of_fuel _ _ _ _ _ Hp).
    intros Heq. injection Heq as <- <- <-.
    rewrite Hext, Hnorun, Hnodesc. unfold run_sequence. rewrite <- Hrest.
    split; [exists (rest ++ [KRunTask; KCloudwatchLogReader]);
            rewrite <- !app_assoc; reflexivity|].
    split; [lia|]. split; [|discriminate].
    intros req Hin. exfalso.
    exact (count_zero_not_in is_run_task tp (RunTask req) Hnorun eq_refl Hin).
Qed.

End RunOrder.

Lemma demo_run :
  run 5 Demo.args Demo.world = (Returned tt, Demo.final_world, Demo.trace).
Proof. vm_compute. reflexivity. Qed.

Lemma run_call_sequence_witness :
  run 5 Demo.args Demo.world = (Returned tt, Demo.final_world, Demo.trace) /\
  calls Demo.trace = run_sequence 2 /\
  count is_run_task Demo.trace = 1.
Proof.
  split; [exact demo_run|].
  exact (proj2 (proj2 (proj2
           (run_call_sequence 5 Demo.args Demo.world Demo.final_world
              (Returned tt) Demo.trace demo_run))) eq_refl).
Defined.

(** ** Errors *)

Section Errors.

Context {W : Type} `{Cloud W}.

Lemma submits_counts (args : RunArgs.t) (w w2 : W) (t : list event)
    (res : Response.t) (task_arn : string) :
  submits args w t res task_arn w2 ->
  count is_describe t = 0 /\ count is_log_read t = 0 /\
  count is_print t = 0 /\ count is_sleep t = 0 /\
  count is_register t = 1 /\ count is_run_task t = 1.
Proof.
  intros Hsub.
  destruct (submits_trace args w w2 t res task_arn Hsub)
    as (region & vpc & er & tr & sg & ->).
  repeat split; reflexivity.
Qed.

Lemma last_iterations (cluster task_arn : string) (s : nat -> string)
    (n : nat) (t : list event) (d : event) :
  List.last (t ++ iterations cluster task_arn s (S n)) d
  = DescribeTasks (Some cluster) [task_arn].
Proof.
  rewrite iterations_S. unfold iteration.
  change [Print (progress_line task_arn (s n)); Sleep 1;
          DescribeTasks (Some cluster) [task_arn]]
    with ([Print (progress_line task_arn (s n)); Sleep 1] ++
          [DescribeTasks (Some cluster) [task_arn]]).
  rewrite !app_assoc. apply last_last.
Qed.

(** C4: the task is submitted and [n] polls have answered statuses that
    are not STOPPED; the next [describe_tasks] call raises [e].  Then
    [run] raises [e] whatever fuel is left: the failing call is the last
    event of the trace, it is poll [n+1] of [n+1], and the logs are not
    read. *)
Theorem run_aborts_when_poll_raises (fuel n : nat) (args : RunArgs.t)
    (w w2 : W) (t : list event) (res0 : Response.t)
    (task_arn task_uuid : string) (s : nat -> string) (e : exn) :
  submits args w t res0 task_arn w2 ->
  task_uuid_of task_arn = inr task_uuid ->
  (forall k, k <= n ->
     status_at (RunArgs.cluster args) task_arn res0 w2 k = inr (s k)) ->
  (forall k, k <= n -> s k <> "STOPPED") ->
  response_at (RunArgs.cluster args) task_arn res0 w2 (S n) = inl e ->
  n < fuel ->
  run fuel args w
  = (Raised e, world_after (RunArgs.cluster args) task_arn w2 (S n),
     t ++ iterations (RunArgs.cluster args) task_arn s (S n)) /\
  count is_describe
    (t ++ iterations (RunArgs.cluster args) task_arn s (S n)) = S n /\
  List.last (t ++ iterations (RunArgs.cluster args) task_arn s (S n))
    EnsureVpc
  = DescribeTasks (Some (RunArgs.cluster args)) [task_arn] /\
  count is_log_read
    (t ++ iterations (RunArgs.cluster args) task_arn s (S n)) = 0.
Proof.
  intros Hsub Hu Hs Hne He Hfuel.
  destruct (submits_counts args w w2 t res0 task_arn Hsub)
    as (Hd & Hl & _).
  split.
  - rewrite (run_from_submission fuel args w w2 t res0 task_arn Hsub).
    rewrite (watch_and_read_stops fuel args task_arn task_uuid res0 w2
               (world_after (RunArgs.cluster args) task_arn w2 (S n))
               (Raised e)
               (iterations (RunArgs.cluster args) task_arn s (S n)));
      [reflexivity|exact Hu| |discriminate].
    apply watch_loop_poll_raises; assumption.
  - split; [|split; [apply last_iterations|]].
    + rewrite count_app, Hd. unfold count.
      rewrite describes_of_iterations, repeat_length. reflexivity.
    + rewrite count_app, Hl. unfold count.
      rewrite log_reads_of_iterations. reflexivity.
Qed.

(** C9: provisioning gets through and [run_task] answers a response with
    no task, whatever its [failures] say.  Then [run] raises
    [IndexError] at line 103: [run_task] is the last call, nothing is
    polled, printed or read, and the outcome does not depend on
    [failures]. *)
Theorem run_index_error_when_no_task (fuel : nat) (args : RunArgs.t)
    (w w1 w2 : W) (nc : NetworkConfiguration.t) (tp : list event)
    (failures : list Failure.t) :
  provision args w = (Returned nc, w1, tp) ->
  run_task (run_task_request_of args nc) w1
  = (inr {| Response.tasks := []; Response.failures := failures |}, w2) ->
  run fuel args w
  = (Raised IndexError, w2, tp ++ [RunTask (run_task_request_of args nc)]) /\
  count is_describe (tp ++ [RunTask (run_task_request_of args nc)]) = 0 /\
  count is_print (tp ++ [RunTask (run_task_request_of args nc)]) = 0 /\
  count is_log_read (tp ++ [RunTask (run_task_request_of args nc)]) = 0.
Proof.
  intros Hp Hr. split.
  - rewrite run_phases. rewrite (bind_returned _ _ _ _ _ _ Hp).
    unfold launch_and_watch, bind, call, lift. rewrite Hr. reflexivity.
  - destruct (provision_returns args w w1 nc tp Hp)
      as (region & vpc & er & tr & sg & -> & _).
    repeat split; reflexivity.
Qed.

End Errors.

Lemma run_aborts_when_poll_raises_witness :
  run 10 Demo.args Demo.throttled
  = (Raised (ClientError "ThrottlingException"),
     {| Aws.res := Aws.provisioned Demo.args Aws.empty; Aws.polls := 3;
        Aws.env := Aws.env Demo.throttled |},
     provision_trace Demo.args "us-east-1"
       (Aws.network (Aws.env Demo.throttled))
       (Aws.role_of "aegea.ecs") (Aws.role_of "aegea.ecs")
     ++ [RunTask (run_task_request_of Demo.args
                    (Aws.network_config Demo.args (Aws.env Demo.throttled)))]
     ++ [Print "arn:aws:ecs:us-east-1:123456789012:task/abc123 PENDING";
         Sleep 1; DescribeTasks (Some "aegea_ecs") [Demo.task_arn];
         Print "arn:aws:ecs:us-east-1:123456789012:task/abc123 RUNNING";
         Sleep 1; DescribeTasks (Some "aegea_ecs") [Demo.task_arn];
         Print "arn:aws:ecs:us-east-1:123456789012:task/abc123 RUNNING";
         Sleep 1; DescribeTasks (Some "aegea_ecs") [Demo.task_arn]]).
Proof.
  refine (proj1 (run_aborts_when_poll_raises 10 2 Demo.args Demo.throttled
                   (Aws.with_res (Aws.provisioned Demo.args) Demo.throttled)
                   _ (Aws.task_response Demo.task_arn "PENDING")
                   Demo.task_arn "abc123" Demo.polled
                   (ClientError "ThrottlingException")
                   (aws_submits Demo.args Demo.throttled
                      (Aws.task_response Demo.task_arn "PENDING")
                      {| Task.taskArn := Demo.task_arn;
                         Task.lastStatus := "PENDING" |} eq_refl eq_refl)
                   eq_refl _ _ _ _)).
  - intros k Hk. destruct k as [|[|[|k]]]; [reflexivity..|lia].
  - intros k Hk. destruct k as [|[|[|k]]]; [discriminate..|lia].
  - reflexivity.
  - lia.
Defined.

Lemma run_index_error_when_no_task_witness :
  run 10 Demo.args Demo.rejected
  = (Raised IndexError,
     Aws.with_res (Aws.provisioned Demo.args) Demo.rejected,
     provision_trace Demo.args "us-east-1"
       (Aws.network (Aws.env Demo.rejected))
       (Aws.role_of "aegea.ecs") (Aws.role_of "aegea.ecs")
     ++ [RunTask (run_task_request_of Demo.args
                    (Aws.network_config Demo.args (Aws.env Demo.rejected)))]).
Proof.
  exact (proj1 (run_index_error_when_no_task 10 Demo.args Demo.rejected
                  _ _ _ _ (Response.failures Demo.rejection)
                  (aws_provision Demo.args Demo.rejected) eq_refl)).
Defined.

(** ** The log stream *)

Section LogStream.

Context {W : Type} `{Cloud W}.

Lemma group_of_config (region task_name : string) :
  LogConfiguration.options (log_config_of region task_name)
    !! "awslogs-group" = Some task_name.
Proof.
  unfold log_config_of. cbn [LogConfiguration.options].
  rewrite lookup_insert_ne by discriminate.
  apply lookup_insert_eq.
Qed.

(** After the submission: the events of the loop, then at most the log
    read under the constructed name, then printed lines. *)
Lemma watch_and_read_events (fuel : nat) (args : RunArgs.t)
    (task_arn task_uuid : string) (res : Response.t) (w w' : W)
    (o : outcome unit) (t : list event) :
  task_uuid_of task_arn = inr task_uuid ->
  watch_and_read fuel args task_arn res w = (o, w', t) ->
  (forall ev, In ev t ->
     In (kind_of ev) watch_kinds \/
     ev = CloudwatchLogReader
            (Py.join "/" [RunArgs.task_name args; RunArgs.task_name args;
                          task_uuid])
            (RunArgs.task_name args)) /\
  (o = Returned tt ->
   In (CloudwatchLogReader
         (Py.join "/" [RunArgs.task_name args; RunArgs.task_name args;
                       task_uuid])
         (RunArgs.task_name args)) t).
Proof.
  intros Hu. unfold watch_and_read. unfold bind at 1. unfold lift at 1.
  rewrite Hu.
  destruct (watch_loop fuel (RunArgs.cluster args) task_arn res w)
    as [[o1 w3] tw] eqn:Hloop.
  assert (Hkinds : forall ev, In ev tw -> In (kind_of ev) watch_kinds)
    by (intros ev; exact (watch_loop_events _ _ _ _ _ _ _ _ ev Hloop)).
  destruct o1 as [[]|e|].
  - rewrite (bind_returned _ _ _ _ _ _ Hloop). unfold bind, call.
    match goal with
    | |- context [log_events ?a ?b ?c] =>
        destruct (log_events a b c) as [[e|events] w4]
    end.
    + intros Heq. injection Heq as <- <- <-. cbn [app]. split.
      * intros ev Hin. apply in_app_or in Hin. destruct Hin as [Hin|Hin].
        -- left. exact (Hkinds ev Hin).
        -- right. destruct Hin as [<-|[]]. reflexivity.
      * discriminate.
    + rewrite print_messages_trace.
      intros Heq. injection Heq as <- <- <-. cbn [app]. split.
      * intros ev Hin. apply in_app_or in Hin. destruct Hin as [Hin|Hin].
        -- left. exact (Hkinds ev Hin).
        -- destruct Hin as [<-|Hin]; [right; reflexivity|].
           left. apply in_map_iff in Hin. destruct Hin as (x & <- & _).
           simpl. tauto.
      * intros _. apply in_or_app. right. left. reflexivity.
  - rewrite (bind_raised _ _ _ _ _ _ Hloop).
    intros Heq. injection Heq as <- <- <-. cbn [app].
    split; [intros ev Hin; left; exact (Hkinds ev Hin)|discriminate].
  - rewrite (bind_out_of_fuel _ _ _ _ _ Hloop).
    intros Heq. injection Heq as <- <- <-. cbn [app].
    split; [intros ev Hin; left; exact (Hkinds ev Hin)|discriminate].
Qed.

(** C3: the task is submitted and [task_uuid] is what line 104 extracts
    from its ARN.  Then every log read of the run is on the stream
    [task_name/task_name/task_uuid] of the group [task_name], a run that
    returns has made that read, and this is the naming the run has
    declared: the log group it ensured is [task_name], and the one
    container of the task definition it registered is named [task_name],
    with the awslogs driver and both awslogs-group and
    awslogs-stream-prefix equal to [task_name]. *)
Theorem log_stream_matches_logging_config (fuel : nat) (args : RunArgs.t)
    (w w2 w' : W) (t0 t : list event) (res : Response.t)
    (task_arn task_uuid : string) (o : outcome unit) :
  submits args w t0 res task_arn w2 ->
  task_uuid_of task_arn = inr task_uuid ->
  run fuel args w = (o, w', t) ->
  (forall stream group, In (CloudwatchLogReader stream group) t ->
     stream = RunArgs.task_name args +:+ "/" +:+ RunArgs.task_name args
              +:+ "/" +:+ task_uuid /\
     group = RunArgs.task_name args) /\
  (o = Returned tt ->
   In (CloudwatchLogReader
         (RunArgs.task_name args +:+ "/" +:+ RunArgs.task_name args
          +:+ "/" +:+ task_uuid)
         (RunArgs.task_name args)) t) /\
  (exists name, In (EnsureLogGroup name) t) /\
  (forall name, In (EnsureLogGroup name) t -> name = RunArgs.task_name args) /\
  (exists defn, In (RegisterTaskDefinition defn) t) /\
  (forall defn, In (RegisterTaskDefinition defn) t ->
     exists c,
       TaskDefinition.containerDefinitions defn = [c] /\
       ContainerDefinition.name c = RunArgs.task_name args /\
       LogConfiguration.logDriver (ContainerDefinition.logConfiguration c)
       = "awslogs" /\
       LogConfiguration.options (ContainerDefinition.logConfiguration c)
         !! "awslogs-group" = Some (RunArgs.task_name args) /\
       LogConfiguration.options (ContainerDefinition.logConfiguration c)
         !! "awslogs-stream-prefix" = Some (RunArgs.task_name args)).
Proof.
  intros Hsub Hu.
  rewrite (run_from_submission fuel args w w2 t0 res task_arn Hsub).
  destruct (submits_trace args w w2 t0 res task_arn Hsub)
    as (region & vpc & er & tr & sg & ->).
  destruct (watch_and_read fuel args task_arn res w2) as [[o3 w3] t3] eqn:Hrest.
  destruct (watch_and_read_events fuel args task_arn task_uuid res w2 w3 o3 t3
              Hu Hrest) as [Hevents Hread].
  intros Heq. injection Heq as <- <- <-.
  rewrite join3 in Hevents, Hread.
  assert (Hlater : forall ev, In ev t3 ->
            kind_of ev <> KCloudwatchLogReader ->
            In (kind_of ev) watch_kinds).
  { intros ev Hin Hk. destruct (Hevents ev Hin) as [Hw | ->]; [exact Hw|].
    contradiction Hk. reflexivity. }
  split; [|split; [|split; [|split; [|split]]]].
  - intros stream group Hin. simpl in Hin.
    repeat (destruct Hin as [Hin|Hin]; [discriminate Hin|]).
    destruct (Hevents _ Hin) as [Hk|Heq].
    + simpl in Hk. repeat (destruct Hk as [Hk|Hk]; [discriminate Hk|]).
      contradiction.
    + injection Heq as Hstream Hgroup. split; assumption.
  - intros Ho. simpl. do 8 right. exact (Hread Ho).
  - exists (RunArgs.task_name args). simpl. tauto.
  - intros name Hin. simpl in Hin.
    destruct Hin as [Hin|[Hin|[Hin|Hin]]];
      [discriminate Hin|discriminate Hin
      |injection Hin as <-; reflexivity|].
    repeat (destruct Hin as [Hin|Hin]; [discriminate Hin|]).
    assert (Hk := Hlater _ Hin ltac:(discriminate)).
    simpl in Hk. repeat (destruct Hk as [Hk|Hk]; [discriminate Hk|]).
    contradiction.
  - eexists. simpl. do 5 right. left. reflexivity.
  - intros defn Hin. simpl in Hin.
    do 5 (destruct Hin as [Hin|Hin]; [discriminate Hin|]).
    destruct Hin as [Hin|Hin].
    + injection Hin as <-.
      eexists. split; [reflexivity|]. split; [reflexivity|].
      split; [reflexivity|].
      split; [apply group_of_config|apply stream_prefix_of_config].
    + repeat (destruct Hin as [Hin|Hin]; [discriminate Hin|]).
      assert (Hk := Hlater _ Hin ltac:(discriminate)).
      simpl in Hk. repeat (destruct Hk as [Hk|Hk]; [discriminate Hk|]).
      contradiction.
Qed.

End LogStream.

Lemma log_stream_matches_logging_config_witness :
  Py.join "/" ["mytask"; "mytask"; "abc123"] = "mytask/mytask/abc123" /\
  run 5 Demo.args Demo.world = (Returned tt, Demo.final_world, Demo.trace) /\
  In (CloudwatchLogReader "mytask/mytask/abc123" "mytask") Demo.trace.
Proof.
  split; [reflexivity|]. split; [exact demo_run|].
  exact (proj1 (proj2
           (log_stream_matches_logging_config 5 Demo.args Demo.world
              (Aws.with_res (Aws.provisioned Demo.args) Demo.world)
              Demo.final_world _ Demo.trace
              (Aws.task_response Demo.task_arn "PROVISIONING")
              Demo.task_arn "abc123" (Returned tt)
              (aws_submits Demo.args Demo.world
                 (Aws.task_response Demo.task_arn "PROVISIONING")
                 {| Task.taskArn := Demo.task_arn;
                    Task.lastStatus := "PROVISIONING" |} eq_refl eq_refl)
              eq_refl demo_run)) eq_refl).
Defined.

(** ** Running twice *)

Section Preservation.

Context {W : Type} `{Cloud W}.
Variable P : W -> Prop.

Hypothesis run_task_keeps :
  forall req w r w1, run_task req w = (r, w1) -> P w -> P w1.
Hypothesis describe_tasks_keeps :
  forall c l w r w1, describe_tasks c l w = (r, w1) -> P w -> P w1.
Hypothesis log_events_keeps :
  forall a b w r w1, log_events a b w = (r, w1) -> P w -> P w1.

Lemma watch_loop_keeps (fuel : nat) (cluster task_arn : string)
    (res : Response.t) (w w' : W) (o : outcome unit) (t : list event) :
  watch_loop fuel cluster task_arn res w = (o, w', t) -> P w -> P w'.
Proof.
  revert res w w' o t.
  induction fuel as [|fuel IH]; intros res w w' o t;
    destruct (last_status res) as [e|st] eqn:Hst;
    try (rewrite (watch_loop_raises cluster task_arn _ res w e Hst);
         intros Heq; injection Heq as <- <- <-; tauto);
    destruct (String.eqb_spec st "STOPPED") as [->|Hne];
    try (rewrite (watch_loop_stopped cluster task_arn _ res w Hst);
         intros Heq; injection Heq as <- <- <-; tauto).
  - rewrite (watch_loop_no_fuel cluster task_arn res w st Hst Hne).
    intros Heq. injection Heq as <- <- <-. tauto.
  - rewrite (watch_loop_turn cluster task_arn fuel res w st Hst Hne).
    unfold poll.
    destruct (describe_tasks (Some cluster) [task_arn] w) as [[e|res'] w1]
      eqn:Hd.
    + intros Heq. injection Heq as <- <- <-.
      exact (describe_tasks_keeps _ _ _ _ _ Hd).
    + destruct (watch_loop fuel cluster task_arn res' w1) as [[o1 w2] t1]
        eqn:Hrest.
      intros Heq. injection Heq as <- <- <-. intros Hw.
      exact (IH res' w1 _ _ _ Hrest (describe_tasks_keeps _ _ _ _ _ Hd Hw)).
Qed.

Lemma watch_and_read_keeps (fuel : nat) (args : RunArgs.t)
    (task_arn : string) (res : Response.t) (w w' : W) (o : outcome unit)
    (t : list event) :
  watch_and_read fuel args task_arn res w = (o, w', t) -> P w -> P w'.
Proof.
  unfold watch_and_read. unfold bind at 1. unfold lift at 1.
  destruct (task_uuid_of task_arn) as [e|u].
  { intros Heq. injection Heq as <- <- <-. tauto. }
  destruct (watch_loop fuel (RunArgs.cluster args) task_arn res w)
    as [[o1 w3] tw] eqn:Hloop.
  assert (Hw3 := watch_loop_keeps _ _ _ _ _ _ _ _ Hloop).
  destruct o1 as [[]|e|].
  - rewrite (bind_returned _ _ _ _ _ _ Hloop). unfold bind, call.
    match goal with
    | |- context [log_events ?a ?b ?c] =>
        destruct (log_events a b c) as [[e|events] w4] eqn:Hlog
    end.
    + intros Heq. injection Heq as <- <- <-. intros Hw.
      exact (log_events_keeps _ _ _ _ _ Hlog (Hw3 Hw)).
    + rewrite print_messages_trace.
      intros Heq. injection Heq as <- <- <-. intros Hw.
      exact (log_events_keeps _ _ _ _ _ Hlog (Hw3 Hw)).
  - rewrite (bind_raised _ _ _ _ _ _ Hloop).
    intros Heq. injection Heq as <- <- <-. exact Hw3.
  - rewrite (bind_out_of_fuel _ _ _ _ _ Hloop).
    intros Heq. injection Heq as <- <- <-. exact Hw3.
Qed.

Lemma launch_and_watch_keeps (fuel : nat) (args : RunArgs.t)
    (nc : NetworkConfiguration.t) (w w' : W) (o : outcome unit)
    (t : list event) :
  launch_and_watch fuel args nc w = (o, w', t) -> P w -> P w'.
Proof.
  unfold launch_and_watch. unfold bind at 1. unfold call at 1.
  destruct (run_task (run_task_request_of args nc) w) as [[e|res] w2] eqn:Hr.
  { intros Heq. injection Heq as <- <- <-.
    exact (run_task_keeps _ _ _ _ Hr). }
  unfold bind at 1. unfold lift at 1.
  destruct (index (Response.tasks res) 0) as [e|task].
  { intros Heq. injection Heq as <- <- <-.
    exact (run_task_keeps _ _ _ _ Hr). }
  destruct (watch_and_read fuel args (Task.taskArn task) res w2)
    as [[o3 w3] t3] eqn:Hrest.
  intros Heq. injection Heq as <- <- <-. intros Hw.
  exact (watch_and_read_keeps _ _ _ _ _ _ _ _ Hrest
           (run_task_keeps _ _ _ _ Hr Hw)).
Qed.

End Preservation.

Section Registration.

Context {W : Type} `{Cloud W}.

(** Nothing is registered after provisioning. *)
Lemma launch_and_watch_no_register (fuel : nat) (args : RunArgs.t)
    (nc : NetworkConfiguration.t) (w w' : W) (o : outcome unit)
    (t : list event) :
  launch_and_watch fuel args nc w = (o, w', t) -> count is_register t = 0.
Proof.
  unfold launch_and_watch. unfold bind at 1. unfold call at 1.
  destruct (run_task (run_task_request_of args nc) w) as [[e|res] w2].
  { intros Heq. injection Heq as <- <- <-. reflexivity. }
  unfold bind at 1. unfold lift at 1.
  destruct (index (Response.tasks res) 0) as [e|task].
  { intros Heq. injection Heq as <- <- <-. reflexivity. }
  destruct (watch_and_read fuel args (Task.taskArn task) res w2)
    as [[o3 w3] t3] eqn:Hrest.
  intros Heq. injection Heq as <- <- <-. cbn [app].
  change (count is_register (RunTask ?r :: ?l)) with (count is_register l).
  destruct (task_uuid_of (Task.taskArn task)) as [e|u] eqn:Hu.
  - unfold watch_and_read in Hrest. unfold bind at 1 in Hrest.
    unfold lift at 1 in Hrest. rewrite Hu in Hrest.
    injection Hrest as <- <- <-. reflexivity.
  - destruct (watch_and_read_events fuel args _ u res w2 w3 o3 t3 Hu Hrest)
      as [Hevents _].
    apply count_none. intros ev Hin.
    destruct (Hevents ev Hin) as [Hk | ->]; [|reflexivity].
    exact (proj1 (proj2 (proj2 (watch_event ev Hk)))).
Qed.

End Registration.

(** *** Create-or-get *)

Lemma ensure_in_present (n : string) (s : gset string) :
  n ∈ s -> Aws.ensure_in n s = s.
Proof. intros Hn. unfold Aws.ensure_in. rewrite decide_True by exact Hn. reflexivity. Qed.

Lemma ensure_in_elem (n : string) (s : gset string) : n ∈ Aws.ensure_in n s.
Proof. unfold Aws.ensure_in. destruct (decide (n ∈ s)); set_solver. Qed.

Lemma ensure_in_keeps (n m : string) (s : gset string) :
  m ∈ s -> m ∈ Aws.ensure_in n s.
Proof. unfold Aws.ensure_in. destruct (decide (n ∈ s)); set_solver. Qed.

(** Provisioning a second time with the same names finds every cluster,
    log group, role and security group in place. *)
Lemma provisioned_again (args : RunArgs.t) (r : Aws.resources) :
  Aws.clusters (Aws.provisioned args (Aws.provisioned args r))
  = Aws.clusters (Aws.provisioned args r) /\
  Aws.log_groups (Aws.provisioned args (Aws.provisioned args r))
  = Aws.log_groups (Aws.provisioned args r) /\
  Aws.roles (Aws.provisioned args (Aws.provisioned args r))
  = Aws.roles (Aws.provisioned args r) /\
  Aws.security_groups (Aws.provisioned args (Aws.provisioned args r))
  = Aws.security_groups (Aws.provisioned args r).
Proof.
  unfold Aws.provisioned. cbn.
  split; [apply ensure_in_present, ensure_in_elem|].
  split; [apply ensure_in_present, ensure_in_elem|].
  split; [|apply ensure_in_present, ensure_in_elem].
  rewrite (ensure_in_present (RunArgs.execution_role args))
    by apply ensure_in_keeps, ensure_in_elem.
  apply ensure_in_present, ensure_in_elem.
Qed.

(** Each provisioning registers one more revision under the task name. *)
Lemma provisioned_revision (args : RunArgs.t) (r : Aws.resources) :
  Aws.revision (RunArgs.task_name args) (Aws.provisioned args r)
  = S (Aws.revision (RunArgs.task_name args) r).
Proof.
  unfold Aws.provisioned, Aws.revision. cbn.
  rewrite lookup_insert_eq. reflexivity.
Qed.

(** A run in this cloud: provisioning gets through, one registration, one
    submission, and nothing after provisioning touches the resources. *)
Lemma aws_run (fuel : nat) (args : RunArgs.t) (w w' : Aws.world)
    (o : outcome unit) (t : list event) :
  run fuel args w = (o, w', t) ->
  Aws.res w' = Aws.provisioned args (Aws.res w) /\
  exists later,
    t = provision_trace args (Aws.region (Aws.env w))
          (Aws.network (Aws.env w))
          (Aws.role_of (RunArgs.execution_role args))
          (Aws.role_of (RunArgs.task_role args)) ++ later /\
    count is_register later = 0 /\ count is_run_task later = 1.
Proof.
  rewrite run_phases. rewrite (bind_returned _ _ _ _ _ _ (aws_provision args w)).
  destruct (launch_and_watch fuel args (Aws.network_config args (Aws.env w))
              (Aws.with_res (Aws.provisioned args) w))
    as [[o2 w2] t2] eqn:Hl.
  intros Heq. injection Heq as <- <- <-.
  split.
  - apply (launch_and_watch_keeps
             (fun x => Aws.res x = Aws.provisioned args (Aws.res w)))
      with (4 := Hl); try reflexivity.
    + intros req x r x1 Hx. injection Hx as <- <-. tauto.
    + intros c l x r x1 Hx. injection Hx as <- <-. tauto.
    + intros a b x r x1 Hx. injection Hx as <- <-. tauto.
  - exists t2. split; [reflexivity|]. split.
    + exact (launch_and_watch_no_register _ _ _ _ _ _ _ Hl).
    + exact (proj1 (proj2 (proj2 (launch_and_watch_calls _ _ _ _ _ _ _ Hl)))).
Qed.

(** C6: in a cloud whose provisioning is create-or-get and whose
    registration adds a revision, two invocations of [run] with the same
    arguments, one after the other and however each ends, each register
    exactly one task definition, under the family [task_name]; the
    revision of that family grows by one with each, so the two revisions
    are distinct and increasing.  The second invocation finds cluster, log
    group, roles and security group in place, leaves them as they are, and
    still gets through provisioning to its one [run_task] call. *)
Theorem run_twice_registers_two_revisions (fuel1 fuel2 : nat)
    (args : RunArgs.t) (w w1 w2 : Aws.world) (o1 o2 : outcome unit)
    (t1 t2 : list event) :
  run fuel1 args w = (o1, w1, t1) ->
  run fuel2 args w1 = (o2, w2, t2) ->
  count is_register t1 = 1 /\ count is_register t2 = 1 /\
  (forall defn, In (RegisterTaskDefinition defn) (t1 ++ t2) ->
     TaskDefinition.family defn = RunArgs.task_name args) /\
  Aws.revision (RunArgs.task_name args) (Aws.res w1)
  = S (Aws.revision (RunArgs.task_name args) (Aws.res w)) /\
  Aws.revision (RunArgs.task_name args) (Aws.res w2)
  = S (Aws.revision (RunArgs.task_name args) (Aws.res w1)) /\
  count is_run_task t1 = 1 /\ count is_run_task t2 = 1 /\
  Aws.clusters (Aws.res w2) = Aws.clusters (Aws.res w1) /\
  Aws.log_groups (Aws.res w2) = Aws.log_groups (Aws.res w1) /\
  Aws.roles (Aws.res w2) = Aws.roles (Aws.res w1) /\
  Aws.security_groups (Aws.res w2) = Aws.security_groups (Aws.res w1).
Proof.
  intros Hrun1 Hrun2.
  destruct (aws_run fuel1 args w w1 o1 t1 Hrun1)
    as (Hres1 & l1 & -> & Hreg1 & Hsub1).
  destruct (aws_run fuel2 args w1 w2 o2 t2 Hrun2)
    as (Hres2 & l2 & -> & Hreg2 & Hsub2).
  assert (Hfamily : forall region vpc er tr later defn,
            count is_register later = 0 ->
            In (RegisterTaskDefinition defn)
               (provision_trace args region vpc er tr ++ later) ->
            TaskDefinition.family defn = RunArgs.task_name args).
  { intros region vpc er tr later defn Hnone Hin.
    apply in_app_or in Hin. destruct Hin as [Hin|Hin].
    - simpl in Hin.
      repeat (destruct Hin as [Hin|Hin];
              [first [discriminate Hin|injection Hin as <-; reflexivity]|]).
      contradiction.
    - exfalso.
      exact (count_zero_not_in is_register later (RegisterTaskDefinition defn)
               Hnone eq_refl Hin). }
  rewrite !count_app, Hreg1, Hreg2, Hsub1, Hsub2, Hres2, Hres1.
  rewrite !provisioned_revision.
  destruct (provisioned_again args (Aws.res w)) as (Hc & Hl & Hr & Hs).
  repeat split; try reflexivity; try assumption.
  intros defn Hin. apply in_app_or in Hin.
  destruct Hin as [Hin|Hin];
    [exact (Hfamily _ _ _ _ l1 defn Hreg1 Hin)
    |exact (Hfamily _ _ _ _ l2 defn Hreg2 Hin)].
Qed.

Lemma run_twice_registers_two_revisions_witness :
  Aws.revision "mytask" (Aws.res Demo.world) = 0 /\
  Aws.revision "mytask" (Aws.res Demo.final_world) = 1 /\
  Aws.revision "mytask"
    (Aws.res (snd (fst (run 5 Demo.args Demo.final_world)))) = 2.
Proof.
  destruct (run 5 Demo.args Demo.final_world) as [[o2 w2] t2] eqn:Hrun2.
  destruct (run_twice_registers_two_revisions 5 5 Demo.args Demo.world
              Demo.final_world w2 (Returned tt) o2 Demo.trace t2
              demo_run Hrun2)
    as (_ & _ & _ & Hfirst & Hsecond & _).
  split; [reflexivity|].
  split; [exact Hfirst|].
  cbn [fst snd]. change (RunArgs.task_name Demo.args) with "mytask" in *.
  rewrite Hsecond, Hfirst. reflexivity.
Defined.

(** ** The task listing *)

Section Listing.

Context {W : Type} `{Cloud W}.

Lemma set_if_other (key key' : string) (v : option string)
    (d : gmap string string) :
  key <> key' -> set_if key v d !! key' = d !! key'.
Proof.
  intros Hne. unfold set_if. destruct v as [s|]; [|reflexivity].
  destruct (Py.truthy s); [|reflexivity].
  apply lookup_insert_ne. exact Hne.
Qed.

Lemma set_if_not_given (key : string) (v : option string)
    (d : gmap string string) :
  given v = false -> set_if key v d = d.
Proof.
  unfold given, set_if. destruct v as [s|]; [|reflexivity].
  intros ->. reflexivity.
Qed.

Lemma set_if_given (key : string) (v : option string)
    (d : gmap string string) :
  given v = true -> set_if key v d !! key = v.
Proof.
  unfold given, set_if. destruct v as [s|]; [|discriminate].
  intros ->. apply lookup_insert_eq.
Qed.

(** Without [--desired-status] the keyword arguments have no
    [desiredStatus]. *)
Lemma list_tasks_args_unfiltered (args : TasksArgs.t) :
  given (TasksArgs.desired_status args) = false ->
  list_tasks_args_of args !! "desiredStatus" = None.
Proof.
  intros Hds. unfold list_tasks_args_of.
  rewrite (set_if_not_given _ _ _ Hds).
  rewrite !set_if_other by discriminate. apply lookup_empty.
Qed.

Lemma tasks_unfold (args : TasksArgs.t) (w : W) :
  tasks args w
  = bind (if negb (nonempty (TasksArgs.tasks args)) then
            found <- call (ListTasks (list_tasks_args_of args))
                          (list_tasks (list_tasks_args_of args)) ;;
            if negb (given (TasksArgs.desired_status args)) then
              stopped_args <- lift (kwargs "desiredStatus" "STOPPED"
                                           (list_tasks_args_of args)) ;;
              stopped <- call (ListTasks stopped_args)
                              (list_tasks stopped_args) ;;
              ret (found ++ stopped)
            else ret found
          else ret (TasksArgs.tasks args))
         (describe_and_show args) w.
Proof. reflexivity. Qed.

Lemma describe_and_show_trace (args : TasksArgs.t) (l : list string)
    (res : Response.t) (w w1 : W) :
  describe_tasks (TasksArgs.cluster args) l w = (inr res, w1) ->
  describe_and_show args l w
  = (Returned tt, if nonempty l then w1 else w, shown args l res).
Proof.
  intros Hd. unfold describe_and_show, shown.
  destruct (nonempty l); [|reflexivity].
  unfold bind, call, emit, ret. rewrite Hd. reflexivity.
Qed.

(** C10: the listing is asked for no task in particular.  Without
    [--desired-status] it makes two [list_tasks] queries, the first with no
    [desiredStatus] and the second with [desiredStatus] STOPPED and
    otherwise the same arguments, and describes and shows the tasks of the
    first followed by those of the second.  With [--desired-status] it
    makes the one query, with that [desiredStatus], and describes and
    shows what it finds. *)
Theorem tasks_queries (args : TasksArgs.t) (w : W) :
  TasksArgs.tasks args = [] ->
  (given (TasksArgs.desired_status args) = false ->
   list_tasks_args_of args !! "desiredStatus" = None /\
   forall found stopped res w1 w2 w3,
     list_tasks (list_tasks_args_of args) w = (inr found, w1) ->
     list_tasks (<["desiredStatus" := "STOPPED"]> (list_tasks_args_of args)) w1
     = (inr stopped, w2) ->
     describe_tasks (TasksArgs.cluster args) (found ++ stopped) w2
     = (inr res, w3) ->
     tasks args w
     = (Returned tt, if nonempty (found ++ stopped) then w3 else w2,
        ListTasks (list_tasks_args_of args)
        :: ListTasks (<["desiredStatus" := "STOPPED"]>
                        (list_tasks_args_of args))
        :: shown args (found ++ stopped) res) /\
     count is_list_tasks
       (ListTasks (list_tasks_args_of args)
        :: ListTasks (<["desiredStatus" := "STOPPED"]>
                        (list_tasks_args_of args))
        :: shown args (found ++ stopped) res) = 2) /\
  (given (TasksArgs.desired_status args) = true ->
   list_tasks_args_of args !! "desiredStatus" = TasksArgs.desired_status args /\
   forall found res w1 w2,
     list_tasks (list_tasks_args_of args) w = (inr found, w1) ->
     describe_tasks (TasksArgs.cluster args) found w1 = (inr res, w2) ->
     tasks args w
     = (Returned tt, if nonempty found then w2 else w1,
        ListTasks (list_tasks_args_of args) :: shown args found res) /\
     count is_list_tasks
       (ListTasks (list_tasks_args_of args) :: shown args found res) = 1).
Proof.
  intros Hnone. split.
  - intros Hds. split; [exact (list_tasks_args_unfiltered args Hds)|].
    intros found stopped res w1 w2 w3 Hl1 Hl2 Hd. split.
    + rewrite tasks_unfold, Hnone, Hds. cbn [nonempty negb].
      unfold bind at 1. unfold bind at 1. unfold call at 1. rewrite Hl1.
      unfold bind at 1. unfold lift at 1. unfold kwargs.
      rewrite (list_tasks_args_unfiltered args Hds).
      unfold bind at 1. unfold call at 1. rewrite Hl2.
      unfold ret at 1.
      rewrite (describe_and_show_trace args _ res w2 w3 Hd). reflexivity.
    + unfold shown. destruct (nonempty (found ++ stopped)); reflexivity.
  - intros Hds. split.
    { unfold list_tasks_args_of. apply set_if_given. exact Hds. }
    intros found res w1 w2 Hl Hd. split.
    + rewrite tasks_unfold, Hnone, Hds. cbn [nonempty negb].
      unfold bind at 1. unfold bind at 1. unfold call at 1. rewrite Hl.
      unfold ret at 1.
      rewrite (describe_and_show_trace args _ res w1 w2 Hd). reflexivity.
    + unfold shown. destruct (nonempty found); reflexivity.
Qed.

End Listing.

Lemma tasks_queries_witness :
  tasks Demo.list_all Demo.cluster_world
  = (Returned tt,
     {| Aws.res := Aws.empty; Aws.polls := 1;
        Aws.env := Aws.env Demo.cluster_world |},
     [ListTasks ∅;
      ListTasks (<["desiredStatus" := "STOPPED"]> ∅);
      DescribeTasks None ["task-a"; "task-b"; "task-c"];
      PageOutput
        [{| Task.taskArn := "task-a"; Task.lastStatus := "RUNNING" |};
         {| Task.taskArn := "task-b"; Task.lastStatus := "PENDING" |};
         {| Task.taskArn := "task-c"; Task.lastStatus := "STOPPED" |}]]) /\
  count is_list_tasks
    (snd (tasks Demo.list_running Demo.cluster_world)) = 1.
Proof.
  destruct (tasks_queries Demo.list_all Demo.cluster_world eq_refl)
    as [Hall _].
  destruct (tasks_queries Demo.list_running Demo.cluster_world eq_refl)
    as [_ Hone].
  split.
  - refine (proj1 (proj2 (Hall eq_refl) ["task-a"; "task-b"] ["task-c"]
                     Demo.description Demo.cluster_world Demo.cluster_world
                     {| Aws.res := Aws.empty; Aws.polls := 1;
                        Aws.env := Aws.env Demo.cluster_world |} _ _ _)).
    + vm_compute. reflexivity.
    + vm_compute. reflexivity.
    + reflexivity.
  - destruct (proj2 (Hone eq_refl) ["task-a"] Demo.description
                Demo.cluster_world
                {| Aws.res := Aws.empty; Aws.polls := 1;
                   Aws.env := Aws.env Demo.cluster_world |}
                ltac:(vm_compute; reflexivity) eq_refl) as [Hrun Hcount].
    rewrite Hrun. exact Hcount.
Defined.

(** * More properties of [ecs.py] *)

(** ** The shape of every watch *)

Section WatchShape.

Context {W : Type} `{Cloud W}.

(** However the loop ends, its trace is a sequence of whole turns, one
    for each status seen that was not STOPPED, and there are no more turns
    than fuel. *)
Lemma watch_loop_shape (fuel : nat) (cluster task_arn : string)
    (res : Response.t) (w w' : W) (o : outcome unit) (t : list event) :
  watch_loop fuel cluster task_arn res w = (o, w', t) ->
  exists statuses,
    t = flat_map (iteration cluster task_arn) statuses /\
    Forall (fun st => st <> "STOPPED") statuses /\
    length statuses <= fuel.
Proof.
  revert res w w' o t.
  induction fuel as [|fuel IH]; intros res w w' o t;
    destruct (last_status res) as [e|st] eqn:Hst;
    try (rewrite (watch_loop_raises cluster task_arn _ res w e Hst);
         intros Heq; injection Heq as <- <- <-;
         exists []; repeat split; [constructor|simpl; lia]);
    destruct (String.eqb_spec st "STOPPED") as [->|Hne];
    try (rewrite (watch_loop_stopped cluster task_arn _ res w Hst);
         intros Heq; injection Heq as <- <- <-;
         exists []; repeat split; [constructor|simpl; lia]).
  - rewrite (watch_loop_no_fuel cluster task_arn res w st Hst Hne).
    intros Heq. injection Heq as <- <- <-.
    exists []. repeat split; [constructor|simpl; lia].
  - rewrite (watch_loop_turn cluster task_arn fuel res w st Hst Hne).
    destruct (poll cluster task_arn w) as [[e|res'] w1].
    + intros Heq. injection Heq as <- <- <-.
      exists [st]. cbn [flat_map]. rewrite app_nil_r.
      repeat split; [repeat constructor; exact Hne|simpl; lia].
    + destruct (watch_loop fuel cluster task_arn res' w1) as [[o1 w2] t1]
        eqn:Hrest.
      destruct (IH res' w1 w2 o1 t1 Hrest) as (sts & -> & Hall & Hlen).
      intros Heq. injection Heq as <- <- <-.
      exists (st :: sts).
      repeat split; [constructor; assumption|simpl; lia].
Qed.

Lemma append_cancel (a x y : string) : a +:+ x = a +:+ y -> x = y.
Proof.
  induction a as [|c a IH]; simpl; [tauto|].
  intros Heq. injection Heq as Heq. exact (IH Heq).
Qed.

Lemma filter_turns (p : event -> bool) (cluster task_arn : string)
    (statuses : list string) :
  List.filter p (flat_map (iteration cluster task_arn) statuses)
  = flat_map (fun st => List.filter p (iteration cluster task_arn st))
             statuses.
Proof.
  induction statuses as [|st sts IH]; cbn [flat_map]; [reflexivity|].
  rewrite List.filter_app, IH. reflexivity.
Qed.

Lemma count_turns (p : event -> bool) (cluster task_arn : string)
    (statuses : list string) (c : nat) :
  (forall st, length (List.filter p (iteration cluster task_arn st)) = c) ->
  count p (flat_map (iteration cluster task_arn) statuses)
  = c * length statuses.
Proof.
  intros Hc. unfold count. rewrite filter_turns.
  induction statuses as [|st sts IH]; cbn [flat_map length];
    [lia|].
  rewrite length_app, Hc, IH. lia.
Qed.

(** X1: however the watch loop ends - STOPPED seen, an error, or still
    running - it has printed exactly as many progress lines as it has
    slept and as it has polled; every sleep is one second, every poll asks
    for the one task on the one cluster, and no progress line shows the
    status STOPPED. *)
Theorem watch_loop_pacing (fuel : nat) (cluster task_arn : string)
    (res : Response.t) (w w' : W) (o : outcome unit) (t : list event) :
  watch_loop fuel cluster task_arn res w = (o, w', t) ->
  count is_print t = count is_describe t /\
  count is_sleep t = count is_describe t /\
  count is_describe t <= fuel /\
  (forall seconds, In (Sleep seconds) t -> seconds = 1) /\
  (forall c l, In (DescribeTasks c l) t -> c = Some cluster /\ l = [task_arn]) /\
  ~ In (Print (progress_line task_arn "STOPPED")) t.
Proof.
  intros Hloop.
  destruct (watch_loop_shape fuel cluster task_arn res w w' o t Hloop)
    as (sts & -> & Hall & Hlen).
  rewrite !(count_turns _ cluster task_arn sts 1) by reflexivity.
  split; [reflexivity|]. split; [reflexivity|]. split; [lia|].
  assert (Hin : forall ev,
            In ev (flat_map (iteration cluster task_arn) sts) ->
            exists st, In st sts /\ In ev (iteration cluster task_arn st)).
  { intros ev Hev. apply in_flat_map in Hev. exact Hev. }
  split; [|split].
  - intros seconds Hev. destruct (Hin _ Hev) as (st & _ & Hst).
    simpl in Hst. destruct Hst as [Hst|[Hst|[Hst|[]]]];
      [discriminate|injection Hst as <-; reflexivity|discriminate].
  - intros c l Hev. destruct (Hin _ Hev) as (st & _ & Hst).
    simpl in Hst. destruct Hst as [Hst|[Hst|[Hst|[]]]];
      [discriminate|discriminate|].
    injection Hst as <- <-. split; reflexivity.
  - intros Hev. destruct (Hin _ Hev) as (st & Hmem & Hst).
    simpl in Hst. destruct Hst as [Hst|[Hst|[Hst|[]]]];
      [|discriminate|discriminate].
    injection Hst as Heq. unfold progress_line in Heq.
    apply append_cancel in Heq. injection Heq as Heq.
    rewrite List.Forall_forall in Hall. exact (Hall st Hmem Heq).
Qed.

End WatchShape.

Lemma watch_loop_pacing_witness :
  watch_loop 10 "aegea_ecs" Demo.task_arn
    (Aws.task_response Demo.task_arn "PENDING") Demo.throttled
  = (Raised (ClientError "ThrottlingException"),
     {| Aws.res := Aws.empty; Aws.polls := 3;
        Aws.env := Aws.env Demo.throttled |},
     iterations "aegea_ecs" Demo.task_arn Demo.polled 3) /\
  count is_print (iterations "aegea_ecs" Demo.task_arn Demo.polled 3)
  = count is_describe (iterations "aegea_ecs" Demo.task_arn Demo.polled 3).
Proof.
  assert (Hrun : watch_loop 10 "aegea_ecs" Demo.task_arn
                   (Aws.task_response Demo.task_arn "PENDING") Demo.throttled
                 = (Raised (ClientError "ThrottlingException"),
                    {| Aws.res := Aws.empty; Aws.polls := 3;
                       Aws.env := Aws.env Demo.throttled |},
                    iterations "aegea_ecs" Demo.task_arn Demo.polled 3))
    by (vm_compute; reflexivity).
  split; [exact Hrun|].
  exact (proj1 (watch_loop_pacing _ _ _ _ _ _ _ _ Hrun)).
Defined.

(** ** Failures of [run] *)

Section RunFailures.

Context {W : Type} `{Cloud W}.

(** X2: when a provisioning step raises, [run] raises the same exception
    in the world that step left: the calls made are an initial part of the
    provisioning sequence, and no task is submitted, polled or read. *)
Theorem run_provisioning_failure_is_fatal (fuel : nat) (args : RunArgs.t)
    (w w1 : W) (tp : list event) (e : exn) :
  provision args w = (Raised e, w1, tp) ->
  run fuel args w = (Raised e, w1, tp) /\
  (exists rest, calls tp ++ rest = provision_sequence) /\
  count is_run_task tp = 0 /\ count is_describe tp = 0 /\
  count is_log_read tp = 0 /\ count is_print tp = 0.
Proof.
  intros Hp.
  assert (Hkinds : forall ev, In ev tp -> In (kind_of ev) provision_sequence)
    by (intros ev; exact (provision_events args w w1 _ tp ev Hp)).
  split; [rewrite run_phases; exact (bind_raised _ _ _ _ _ _ Hp)|].
  split.
  { destruct (provision_calls args w w1 _ tp Hp) as [rest Hrest].
    exists rest. rewrite calls_all_external; [exact Hrest|].
    intros ev Hin. exact (proj1 (provisioning_event ev (Hkinds ev Hin))). }
  repeat split; apply count_none; intros ev Hin;
    destruct (provisioning_event ev (Hkinds ev Hin))
      as (_ & Hr & Hd & Hl & Hpr & _); assumption.
Qed.

(** X3: when [run_task] raises, [run] raises the same exception right
    after that call: nothing is polled, printed or read. *)
Theorem run_launch_failure_is_fatal (fuel : nat) (args : RunArgs.t)
    (w w1 w2 : W) (nc : NetworkConfiguration.t) (tp : list event) (e : exn) :
  provision args w = (Returned nc, w1, tp) ->
  run_task (run_task_request_of args nc) w1 = (inl e, w2) ->
  run fuel args w
  = (Raised e, w2, tp ++ [RunTask (run_task_request_of args nc)]) /\
  count is_describe (tp ++ [RunTask (run_task_request_of args nc)]) = 0 /\
  count is_print (tp ++ [RunTask (run_task_request_of args nc)]) = 0 /\
  count is_log_read (tp ++ [RunTask (run_task_request_of args nc)]) = 0.
Proof.
  intros Hp Hr. split.
  - rewrite run_phases. rewrite (bind_returned _ _ _ _ _ _ Hp).
    unfold launch_and_watch, bind, call. rewrite Hr. reflexivity.
  - destruct (provision_returns args w w1 nc tp Hp)
      as (region & vpc & er & tr & sg & -> & _).
    repeat split; reflexivity.
Qed.

(** The status after [n] turns cannot be read: the loop raises. *)
Lemma watch_loop_status_fails (n fuel : nat) (cluster task_arn : string)
    (res0 : Response.t) (w : W) (s : nat -> string) (e : exn) :
  (forall k, k <= n -> status_at cluster task_arn res0 w k = inr (s k)) ->
  (forall k, k <= n -> s k <> "STOPPED") ->
  status_at cluster task_arn res0 w (S n) = inl e ->
  n < fuel ->
  watch_loop fuel cluster task_arn res0 w
  = (Raised e, world_after cluster task_arn w (S n),
     iterations cluster task_arn s (S n)).
Proof.
  intros Hs Hne He Hfuel. unfold status_at in He.
  destruct (response_at cluster task_arn res0 w (S n)) as [e'|resn] eqn:Hresn.
  - injection He as <-. apply watch_loop_poll_raises; assumption.
  - replace fuel with (S n + (fuel - S n)) by lia.
    rewrite (watch_loop_turns cluster task_arn (S n) _ res0 w s resn);
      [|intros; apply Hs; lia|intros; apply Hne; lia|exact Hresn].
    rewrite (watch_loop_raises cluster task_arn _ resn _ e He).
    rewrite app_nil_r. reflexivity.
Qed.

(** X4: when a poll answers a response with no task in it, [run] raises
    [IndexError] at the loop condition, right after that poll: the logs
    are not read. *)
Theorem run_poll_without_task (fuel n : nat) (args : RunArgs.t)
    (w w2 : W) (t : list event) (res0 : Response.t)
    (task_arn task_uuid : string) (s : nat -> string)
    (failures : list Failure.t) :
  submits args w t res0 task_arn w2 ->
  task_uuid_of task_arn = inr task_uuid ->
  (forall k, k <= n ->
     status_at (RunArgs.cluster args) task_arn res0 w2 k = inr (s k)) ->
  (forall k, k <= n -> s k <> "STOPPED") ->
  response_at (RunArgs.cluster args) task_arn res0 w2 (S n)
  = inr {| Response.tasks := []; Response.failures := failures |} ->
  n < fuel ->
  run fuel args w
  = (Raised IndexError, world_after (RunArgs.cluster args) task_arn w2 (S n),
     t ++ iterations (RunArgs.cluster args) task_arn s (S n)) /\
  count is_log_read
    (t ++ iterations (RunArgs.cluster args) task_arn s (S n)) = 0.
Proof.
  intros Hsub Hu Hs Hne Hres Hfuel.
  destruct (submits_counts args w w2 t res0 task_arn Hsub) as (_ & Hl & _).
  split.
  - rewrite (run_from_submission fuel args w w2 t res0 task_arn Hsub).
    rewrite (watch_and_read_stops fuel args task_arn task_uuid res0 w2
               (world_after (RunArgs.cluster args) task_arn w2 (S n))
               (Raised IndexError)
               (iterations (RunArgs.cluster args) task_arn s (S n)));
      [reflexivity|exact Hu| |discriminate].
    apply watch_loop_status_fails; try assumption.
    unfold status_at. rewrite Hres. reflexivity.
  - rewrite count_app, Hl. unfold count.
    rewrite log_reads_of_iterations. reflexivity.
Qed.

(** X5: when the ARN of the submitted task has no "/" in its resource,
    [run] raises [IndexError] at line 104, before the first poll. *)
Theorem run_arn_without_slash (fuel : nat) (args : RunArgs.t) (w w2 : W)
    (t : list event) (res0 : Response.t) (task_arn resource : string) :
  submits args w t res0 task_arn w2 ->
  ARN_resource task_arn = inr resource ->
  Py.free_of "/" resource = true ->
  run fuel args w = (Raised IndexError, w2, t) /\
  count is_describe t = 0 /\ count is_print t = 0.
Proof.
  intros Hsub Hres Hfree.
  destruct (submits_counts args w w2 t res0 task_arn Hsub)
    as (Hd & _ & Hp & _).
  split; [|split; assumption].
  rewrite (run_from_submission fuel args w w2 t res0 task_arn Hsub).
  unfold watch_and_read. unfold bind at 1. unfold lift at 1.
  unfold task_uuid_of. rewrite Hres, (split_free _ _ Hfree).
  cbn. rewrite app_nil_r. reflexivity.
Qed.

(** X6: the whole of a run that returns.  The task is submitted, its
    statuses are not STOPPED before the [n]-th, and the log stream holds
    [events]: [run] returns after the submission, [n] turns of the loop,
    one read of the stream [task_name/task_name/task_uuid] in the group
    [task_name], and one printed line per log event, its message as it
    is, in the order of the stream. *)
Theorem run_returns (fuel n : nat) (args : RunArgs.t) (w w2 w4 : W)
    (t : list event) (res0 : Response.t) (task_arn task_uuid : string)
    (s : nat -> string) (events : list LogEvent.t) :
  submits args w t res0 task_arn w2 ->
  task_uuid_of task_arn = inr task_uuid ->
  (forall k, k <= n ->
     status_at (RunArgs.cluster args) task_arn res0 w2 k = inr (s k)) ->
  (forall k, k < n -> s k <> "STOPPED") ->
  s n = "STOPPED" ->
  n <= fuel ->
  log_events
    (RunArgs.task_name args +:+ "/" +:+ RunArgs.task_name args +:+ "/"
     +:+ task_uuid)
    (RunArgs.task_name args)
    (world_after (RunArgs.cluster args) task_arn w2 n) = (inr events, w4) ->
  run fuel args w
  = (Returned tt, w4,
     t ++ iterations (RunArgs.cluster args) task_arn s n ++
     CloudwatchLogReader
       (RunArgs.task_name args +:+ "/" +:+ RunArgs.task_name args +:+ "/"
        +:+ task_uuid)
       (RunArgs.task_name args)
     :: map (fun ev => Print (LogEvent.message ev)) events).
Proof.
  intros Hsub Hu Hs Hne Hn Hfuel Hlog.
  rewrite (run_from_submission fuel args w w2 t res0 task_arn Hsub).
  rewrite (watch_and_read_returns fuel args task_arn task_uuid res0 w2
             (world_after (RunArgs.cluster args) task_arn w2 n) w4
             (iterations (RunArgs.cluster args) task_arn s n) events Hu);
    [rewrite join3; reflexivity| |rewrite join3; exact Hlog].
  apply watch_loop_returns; assumption.
Qed.


End RunFailures.

Lemma run_provisioning_failure_is_fatal_witness :
  run 5 Demo.args Cases.denied
  = (Raised (ClientError "AccessDeniedException"), Cases.denied_after,
     [EnsureVpc; CreateCluster "aegea_ecs"; EnsureLogGroup "mytask"]).
Proof.
  refine (proj1 (run_provisioning_failure_is_fatal 5 Demo.args Cases.denied
                   Cases.denied_after _ _ _)).
  vm_compute. reflexivity.
Defined.

Lemma run_launch_failure_is_fatal_witness :
  run 5 Demo.args Cases.full
  = (Raised (ClientError "ClusterNotFoundException"),
     Expected.provisioned Cases.no_capacity,
     Expected.provisioning ++ [RunTask Expected.request]).
Proof.
  refine (proj1 (run_launch_failure_is_fatal 5 Demo.args Cases.full
                   (Expected.provisioned Cases.no_capacity)
                   (Expected.provisioned Cases.no_capacity)
                   (Aws.network_config Demo.args (Aws.env Demo.world))
                   Expected.provisioning
                   (ClientError "ClusterNotFoundException") _ _)).
  - vm_compute. reflexivity.
  - reflexivity.
Defined.

Lemma run_poll_without_task_witness :
  run 5 Demo.args Cases.vanishing
  = (Raised IndexError,
     {| Aws.res := Aws.provisioned Demo.args Aws.empty; Aws.polls := 2;
        Aws.env := Aws.env Cases.vanishing |},
     (provision_trace Demo.args "us-east-1"
        (Aws.network (Aws.env Cases.vanishing))
        (Aws.role_of "aegea.ecs") (Aws.role_of "aegea.ecs")
      ++ [RunTask (run_task_request_of Demo.args
                     (Aws.network_config Demo.args
                        (Aws.env Cases.vanishing)))])
     ++ [Print "arn:aws:ecs:us-east-1:123456789012:task/abc123 PENDING";
         Sleep 1; DescribeTasks (Some "aegea_ecs") [Demo.task_arn];
         Print "arn:aws:ecs:us-east-1:123456789012:task/abc123 RUNNING";
         Sleep 1; DescribeTasks (Some "aegea_ecs") [Demo.task_arn]]).
Proof.
  refine (proj1 (run_poll_without_task 5 1 Demo.args Cases.vanishing
                   (Aws.with_res (Aws.provisioned Demo.args) Cases.vanishing)
                   _ (Aws.task_response Demo.task_arn "PENDING")
                   Demo.task_arn "abc123" Demo.polled []
                   (aws_submits Demo.args Cases.vanishing
                      (Aws.task_response Demo.task_arn "PENDING")
                      (Expected.first_task Demo.task_arn "PENDING")
                      eq_refl eq_refl)
                   eq_refl _ _ _ _)).
  - intros k Hk. destruct k as [|[|k]]; [reflexivity..|lia].
  - intros k Hk. destruct k as [|[|k]]; [discriminate..|lia].
  - reflexivity.
  - lia.
Defined.

Lemma run_arn_without_slash_witness :
  run 5 Demo.args Cases.odd
  = (Raised IndexError,
     Aws.with_res (Aws.provisioned Demo.args) Cases.odd,
     provision_trace Demo.args "us-east-1"
       (Aws.network (Aws.env Cases.odd))
       (Aws.role_of "aegea.ecs") (Aws.role_of "aegea.ecs")
     ++ [RunTask (run_task_request_of Demo.args
                    (Aws.network_config Demo.args (Aws.env Cases.odd)))]).
Proof.
  exact (proj1 (run_arn_without_slash 5 Demo.args Cases.odd _ _
                  (Aws.task_response Cases.odd_arn "PROVISIONING")
                  Cases.odd_arn "task"
                  (aws_submits Demo.args Cases.odd
                     (Aws.task_response Cases.odd_arn "PROVISIONING")
                     (Expected.first_task Cases.odd_arn "PROVISIONING")
                     eq_refl eq_refl)
                  eq_refl eq_refl)).
Defined.

Lemma run_returns_witness :
  run 5 Demo.args Cases.chatty
  = (Returned tt,
     {| Aws.res := Aws.provisioned Demo.args Aws.empty; Aws.polls := 2;
        Aws.env := Aws.env Cases.chatty |},
     (Expected.provisioning ++ [RunTask Expected.request]) ++
     Expected.watched ++
     [CloudwatchLogReader "mytask/mytask/abc123" "mytask";
      Print "hello"; Print "bye"]).
Proof.
  refine (run_returns 5 2 Demo.args Cases.chatty
            (Aws.with_res (Aws.provisioned Demo.args) Cases.chatty) _
            _ (Aws.task_response Demo.task_arn "PROVISIONING")
            Demo.task_arn "abc123" Demo.statuses
            [LogEvent.Build_t "hello"; LogEvent.Build_t "bye"]
            (aws_submits Demo.args Cases.chatty
               (Aws.task_response Demo.task_arn "PROVISIONING")
               (Expected.first_task Demo.task_arn "PROVISIONING")
               eq_refl eq_refl)
            eq_refl _ _ _ _ _).
  - intros k Hk. destruct k as [|[|[|k]]]; [reflexivity..|lia].
  - intros k Hk. destruct k as [|[|k]]; [discriminate..|lia].
  - reflexivity.
  - lia.
  - reflexivity.
Defined.

Lemma faulty_submits (f : event -> option exn) :
  f EnsureVpc = None -> f (CreateCluster "aegea_ecs") = None ->
  f (EnsureLogGroup "mytask") = None ->
  (forall n trust policies, f (EnsureIamRole n trust policies) = None) ->
  (forall defn, f (RegisterTaskDefinition defn) = None) ->
  (forall n vpc, f (EnsureSecurityGroup n vpc) = None) ->
  (forall req, f (RunTask req) = None) ->
  submits Demo.args
    {| Faulty.inner := Demo.world; Faulty.faults := f |}
    (Expected.provisioning ++ [RunTask Expected.request])
    (Aws.task_response Demo.task_arn "PROVISIONING")
    Demo.task_arn (Expected.provisioned f).
Proof.
  intros Hv Hc Hl Hr Hd Hs Hrun. unfold submits.
  exists (Aws.network_config Demo.args (Aws.env Demo.world)),
         (Expected.provisioned f), Expected.provisioning,
         (Expected.first_task Demo.task_arn "PROVISIONING").
  split.
  { unfold provision, bind, call, read, lift.
    cbn [ensure_vpc create_cluster ensure_log_group ensure_iam_role
         register_task_definition ensure_security_group region_name
         faulty_cloud].
    unfold Faulty.guard at 1. cbn [Faulty.faults Faulty.inner]. rewrite Hv.
    cbn [Aws.ensure_vpc].
    unfold Faulty.guard at 1. cbn [Faulty.faults Faulty.inner].
    change (RunArgs.cluster Demo.args) with "aegea_ecs". rewrite Hc.
    cbn [Aws.create_cluster].
    rewrite log_group_of_config.
    unfold Faulty.guard at 1. cbn [Faulty.faults Faulty.inner].
    change (RunArgs.task_name Demo.args) with "mytask". rewrite Hl.
    cbn [Aws.ensure_log_group].
    unfold Faulty.guard at 1. cbn [Faulty.faults Faulty.inner]. rewrite Hr.
    cbn [Aws.ensure_iam_role].
    unfold Faulty.guard at 1. cbn [Faulty.faults Faulty.inner]. rewrite Hr.
    cbn [Aws.ensure_iam_role].
    unfold Faulty.guard at 1. cbn [Faulty.faults Faulty.inner]. rewrite Hd.
    cbn [Aws.register_task_definition].
    unfold Faulty.guard at 1. cbn [Faulty.faults Faulty.inner]. rewrite Hs.
    reflexivity. }
  split.
  { cbn [run_task faulty_cloud]. unfold Faulty.guard, Expected.provisioned.
    cbn [Faulty.faults Faulty.inner]. rewrite Hrun. reflexivity. }
  repeat split.
Qed.


(** ** What every run polls *)

Section RunPolls.

Context {W : Type} `{Cloud W}.

(** After the submission: whole turns of the loop, then events that are
    neither polls nor sleeps. *)
Lemma watch_and_read_parts (fuel : nat) (args : RunArgs.t)
    (task_arn : string) (res : Response.t) (w w' : W) (o : outcome unit)
    (t : list event) :
  watch_and_read fuel args task_arn res w = (o, w', t) ->
  exists statuses tail,
    t = flat_map (iteration (RunArgs.cluster args) task_arn) statuses ++ tail
    /\ forall ev, In ev tail ->
         is_describe ev = false /\ is_sleep ev = false /\
         is_create_cluster ev = false.
Proof.
  unfold watch_and_read. unfold bind at 1. unfold lift at 1.
  destruct (task_uuid_of task_arn) as [e|u].
  { intros Heq. injection Heq as <- <- <-. exists [], [].
    split; [reflexivity|intros ev []]. }
  destruct (watch_loop fuel (RunArgs.cluster args) task_arn res w)
    as [[o1 w3] tw] eqn:Hloop.
  destruct (watch_loop_shape _ _ _ _ _ _ _ _ Hloop) as (sts & -> & _ & _).
  destruct o1 as [[]|e|].
  - rewrite (bind_returned _ _ _ _ _ _ Hloop). unfold bind, call.
    match goal with
    | |- context [log_events ?a ?b ?c] =>
        destruct (log_events a b c) as [[e|events] w4]
    end.
    + intros Heq. injection Heq as <- <- <-. cbn [app].
      eexists sts, _. split; [reflexivity|].
      intros ev [<-|[]]. repeat split.
    + rewrite print_messages_trace.
      intros Heq. injection Heq as <- <- <-. cbn [app].
      eexists sts, _. split; [reflexivity|].
      intros ev [<-|Hin]; [repeat split|].
      apply in_map_iff in Hin. destruct Hin as (x & <- & _). repeat split.
  - rewrite (bind_raised _ _ _ _ _ _ Hloop).
    intros Heq. injection Heq as <- <- <-. cbn [app].
    exists sts, []. split; [rewrite app_nil_r; reflexivity|intros ev []].
  - rewrite (bind_out_of_fuel _ _ _ _ _ Hloop).
    intros Heq. injection Heq as <- <- <-. cbn [app].
    exists sts, []. split; [rewrite app_nil_r; reflexivity|intros ev []].
Qed.

(** X8: however a run that has submitted its task ends, every poll in it
    asks for exactly that task - the first task of the [run_task] answer -
    on the cluster of the arguments, the one cluster it has created;
    every sleep is one second, and there are as many sleeps as polls. *)
Theorem run_polls_the_submitted_task (fuel : nat) (args : RunArgs.t)
    (w w2 w' : W) (t0 t : list event) (res : Response.t) (task_arn : string)
    (o : outcome unit) :
  submits args w t0 res task_arn w2 ->
  run fuel args w = (o, w', t) ->
  (forall c l, In (DescribeTasks c l) t ->
     c = Some (RunArgs.cluster args) /\ l = [task_arn]) /\
  (forall name, In (CreateCluster name) t -> name = RunArgs.cluster args) /\
  (forall seconds, In (Sleep seconds) t -> seconds = 1) /\
  count is_sleep t = count is_describe t.
Proof.
  intros Hsub.
  rewrite (run_from_submission fuel args w w2 t0 res task_arn Hsub).
  destruct (submits_counts args w w2 t0 res task_arn Hsub)
    as (Hd & _ & _ & Hs & _).
  destruct (submits_trace args w w2 t0 res task_arn Hsub)
    as (region & vpc & er & tr & sg & Ht0).
  destruct (watch_and_read fuel args task_arn res w2) as [[o3 w3] t3] eqn:Hrest.
  destruct (watch_and_read_parts fuel args task_arn res w2 w3 o3 t3 Hrest)
    as (sts & tail & -> & Htail).
  intros Heq. injection Heq as <- <- <-.
  assert (Hturn : forall ev,
            In ev (flat_map (iteration (RunArgs.cluster args) task_arn) sts) ->
            (exists line, ev = Print line) \/ ev = Sleep 1 \/
            ev = DescribeTasks (Some (RunArgs.cluster args)) [task_arn]).
  { intros ev Hev. apply in_flat_map in Hev. destruct Hev as (st & _ & Hst).
    simpl in Hst. destruct Hst as [<-|[<-|[<-|[]]]]; eauto. }
  assert (Hwhere : forall ev, In ev (t0 ++ flat_map
                       (iteration (RunArgs.cluster args) task_arn) sts ++ tail)
            -> In ev t0 \/
               ((exists line, ev = Print line) \/ ev = Sleep 1 \/
                ev = DescribeTasks (Some (RunArgs.cluster args)) [task_arn])
               \/ In ev tail).
  { intros ev Hev. apply in_app_or in Hev.
    destruct Hev as [Hev|Hev]; [left; exact Hev|].
    apply in_app_or in Hev.
    destruct Hev as [Hev|Hev]; [|right; right; exact Hev].
    right. left. exact (Hturn ev Hev). }
  split; [|split; [|split]].
  - intros c l Hev. destruct (Hwhere _ Hev) as [Hin|[Hin|Hin]].
    + exfalso. exact (count_zero_not_in is_describe t0 (DescribeTasks c l) Hd
                        eq_refl Hin).
    + destruct Hin as [[line Hl]|[Hl|Hl]]; try discriminate.
      injection Hl as Hc Hl. split; assumption.
    + destruct (Htail _ Hin) as (Hno & _). discriminate.
  - intros name Hev. destruct (Hwhere _ Hev) as [Hin|[Hin|Hin]].
    + rewrite Ht0 in Hin. simpl in Hin.
      destruct Hin as [Hin|[Hin|Hin]];
        [discriminate|injection Hin as <-; reflexivity|].
      repeat (destruct Hin as [Hin|Hin]; [discriminate|]). contradiction.
    + destruct Hin as [[line Hl]|[Hl|Hl]]; discriminate.
    + destruct (Htail _ Hin) as (_ & _ & Hno). discriminate.
  - intros seconds Hev. destruct (Hwhere _ Hev) as [Hin|[Hin|Hin]].
    + exfalso. exact (count_zero_not_in is_sleep t0 (Sleep seconds) Hs eq_refl Hin).
    + destruct Hin as [[line Hl]|[Hl|Hl]]; try discriminate.
      injection Hl as Hsec. exact Hsec.
    + destruct (Htail _ Hin) as (_ & Hno & _). discriminate.
  - rewrite !count_app, Hd, Hs.
    rewrite !(count_turns _ _ task_arn sts 1) by reflexivity.
    rewrite !(count_none _ tail);
      [reflexivity
      |intros ev Hin; exact (proj1 (Htail ev Hin))
      |intros ev Hin; exact (proj1 (proj2 (Htail ev Hin)))].
Qed.

End RunPolls.

Lemma run_polls_the_submitted_task_witness :
  run 10 Demo.args Demo.throttled
  = (Raised (ClientError "ThrottlingException"),
     {| Aws.res := Aws.provisioned Demo.args Aws.empty; Aws.polls := 3;
        Aws.env := Aws.env Demo.throttled |},
     (provision_trace Demo.args "us-east-1"
        (Aws.network (Aws.env Demo.throttled))
        (Aws.role_of "aegea.ecs") (Aws.role_of "aegea.ecs")
      ++ [RunTask (run_task_request_of Demo.args
                     (Aws.network_config Demo.args (Aws.env Demo.throttled)))])
     ++ iterations "aegea_ecs" Demo.task_arn Demo.polled 3) /\
  count is_sleep (snd (run 10 Demo.args Demo.throttled))
  = count is_describe (snd (run 10 Demo.args Demo.throttled)).
Proof.
  assert (Hrun : run 10 Demo.args Demo.throttled
                 = (Raised (ClientError "ThrottlingException"),
                    {| Aws.res := Aws.provisioned Demo.args Aws.empty;
                       Aws.polls := 3; Aws.env := Aws.env Demo.throttled |},
                    (provision_trace Demo.args "us-east-1"
                       (Aws.network (Aws.env Demo.throttled))
                       (Aws.role_of "aegea.ecs") (Aws.role_of "aegea.ecs")
                     ++ [RunTask (run_task_request_of Demo.args
                                    (Aws.network_config Demo.args
                                       (Aws.env Demo.throttled)))])
                    ++ iterations "aegea_ecs" Demo.task_arn Demo.polled 3))
    by (vm_compute; reflexivity).
  split; [exact Hrun|].
  rewrite Hrun.
  exact (proj2 (proj2 (proj2
           (run_polls_the_submitted_task 10 Demo.args Demo.throttled
              (Aws.with_res (Aws.provisioned Demo.args) Demo.throttled)
              _ _ _ (Aws.task_response Demo.task_arn "PENDING")
              Demo.task_arn _
              (aws_submits Demo.args Demo.throttled
                 (Aws.task_response Demo.task_arn "PENDING")
                 (Expected.first_task Demo.task_arn "PENDING")
                 eq_refl eq_refl)
              Hrun)))).
Defined.

(** ** The short ARN format *)

Lemma ARN_resource_short (partition region account instance_id : string) :
  Py.free_of ":" partition = true ->
  Py.free_of ":" region = true ->
  Py.free_of ":" account = true ->
  ARN_resource (short_task_arn partition region account instance_id)
  = inr ("task/" +:+ instance_id).
Proof.
  intros Hp Hr Ha. unfold ARN_resource, short_task_arn.
  change ("arn:" +:+ ?x) with ("arn" +:+ String ":" x).
  rewrite splitn_cut by reflexivity.
  change (":ecs:" +:+ ?x) with (String ":" ("ecs" +:+ String ":" x)).
  rewrite splitn_cut by exact Hp.
  rewrite splitn_cut by reflexivity.
  change (":" +:+ ?x) with (String ":" x).
  rewrite splitn_cut by exact Hr.
  change (":task/" +:+ ?x) with (String ":" ("task/" +:+ x)).
  rewrite splitn_cut by exact Ha.
  rewrite splitn_zero. reflexivity.
Qed.

(** X9: on a task ARN of the short format
    [arn:partition:ecs:region:account:task/instance-id], line 104 gives
    back the instance id, whatever follows a further "/" in it being cut
    off. *)
Theorem task_uuid_of_short_task_arn
    (partition region account instance_id rest : string) :
  Py.free_of ":" partition = true ->
  Py.free_of ":" region = true ->
  Py.free_of ":" account = true ->
  Py.free_of "/" instance_id = true ->
  task_uuid_of (short_task_arn partition region account instance_id)
  = inr instance_id /\
  task_uuid_of (short_task_arn partition region account
                  (instance_id +:+ "/" +:+ rest))
  = inr instance_id.
Proof.
  intros Hp Hr Ha Hi. unfold task_uuid_of.
  rewrite !ARN_resource_short by assumption.
  change ("task/" +:+ ?x) with ("task" +:+ String "/" x).
  rewrite !split_cut by reflexivity.
  rewrite split_free by exact Hi.
  change ("/" +:+ rest) with (String "/" rest).
  rewrite split_cut by exact Hi.
  split; reflexivity.
Qed.

Lemma task_uuid_of_short_task_arn_witness :
  task_uuid_of "arn:aws:ecs:us-east-1:123456789012:task/abc123"
  = inr "abc123".
Proof.
  exact (proj1 (task_uuid_of_short_task_arn "aws" "us-east-1" "123456789012"
                  "abc123" "" eq_refl eq_refl eq_refl eq_refl)).
Defined.

(** ** More of the task listing *)

Section ListingCases.

Context {W : Type} `{Cloud W}.

Lemma describe_and_show_nothing (args : TasksArgs.t) (w : W) :
  describe_and_show args [] w = (Returned tt, w, [PageOutput []]).
Proof. reflexivity. Qed.

(** X10: when task identifiers are given on the command line, the listing
    makes no [list_tasks] query at all, whatever [--desired-status] and
    [--launch-type] say: it describes exactly the tasks given and shows
    the descriptions. *)
Theorem tasks_given_are_not_looked_up (args : TasksArgs.t) (w w1 : W)
    (res : Response.t) :
  TasksArgs.tasks args <> [] ->
  describe_tasks (TasksArgs.cluster args) (TasksArgs.tasks args) w
  = (inr res, w1) ->
  tasks args w
  = (Returned tt, w1,
     [DescribeTasks (TasksArgs.cluster args) (TasksArgs.tasks args);
      PageOutput (Response.tasks res)]).
Proof.
  intros Hgiven Hd. rewrite tasks_unfold.
  destruct (TasksArgs.tasks args) as [|task rest] eqn:Htasks;
    [contradiction|].
  cbn [nonempty negb]. rewrite bind_ret_l.
  rewrite (describe_and_show_trace args _ res w w1 Hd). reflexivity.
Qed.

(** X11: when the queries find no task, [describe_tasks] is not called and
    an empty table is shown. *)
Theorem tasks_nothing_found (args : TasksArgs.t) (w w1 w2 : W) :
  TasksArgs.tasks args = [] ->
  list_tasks (list_tasks_args_of args) w = (inr [], w1) ->
  (given (TasksArgs.desired_status args) = true ->
   tasks args w
   = (Returned tt, w1,
      [ListTasks (list_tasks_args_of args); PageOutput []])) /\
  (given (TasksArgs.desired_status args) = false ->
   list_tasks (<["desiredStatus" := "STOPPED"]> (list_tasks_args_of args)) w1
   = (inr [], w2) ->
   tasks args w
   = (Returned tt, w2,
      [ListTasks (list_tasks_args_of args);
       ListTasks (<["desiredStatus" := "STOPPED"]> (list_tasks_args_of args));
       PageOutput []])).
Proof.
  intros Hnone Hl1. split.
  - intros Hds. rewrite tasks_unfold, Hnone, Hds. cbn [nonempty negb].
    unfold bind at 1. unfold bind at 1. unfold call at 1. rewrite Hl1.
    unfold ret at 1. rewrite describe_and_show_nothing. reflexivity.
  - intros Hds Hl2. rewrite tasks_unfold, Hnone, Hds. cbn [nonempty negb].
    unfold bind at 1. unfold bind at 1. unfold call at 1. rewrite Hl1.
    unfold bind at 1. unfold lift at 1. unfold kwargs.
    rewrite (list_tasks_args_unfiltered args Hds).
    unfold bind at 1. unfold call at 1. rewrite Hl2.
    unfold ret at 1. cbn [app]. rewrite describe_and_show_nothing.
    reflexivity.
Qed.

(** X12: the table is shown exactly when the listing returns, and then
    once, as its last act; a call that raises ends the listing with
    nothing shown.  However it ends, the listing makes at most two
    [list_tasks] queries and one [describe_tasks] call, and it cannot run
    on. *)
Theorem tasks_shows_only_on_success (args : TasksArgs.t) (w w' : W)
    (o : outcome unit) (t : list event) :
  tasks args w = (o, w', t) ->
  count is_page_output t = (if o is Returned _ then 1 else 0) /\
  (o = Returned tt -> exists before rows, t = before ++ [PageOutput rows]) /\
  count is_list_tasks t <= 2 /\ count is_describe t <= 1 /\
  o <> OutOfFuel.
Proof.
  rewrite tasks_unfold.
  assert (Hshow : forall l w0 o0 w1 t0,
            describe_and_show args l w0 = (o0, w1, t0) ->
            count is_page_output t0 = (if o0 is Returned _ then 1 else 0) /\
            (o0 = Returned tt ->
             exists before rows, t0 = before ++ [PageOutput rows]) /\
            count is_list_tasks t0 = 0 /\ count is_describe t0 <= 1 /\
            o0 <> OutOfFuel).
  { intros l w0 o0 w1 t0. unfold describe_and_show.
    destruct (nonempty l).
    - unfold bind, call, emit, ret.
      destruct (describe_tasks (TasksArgs.cluster args) l w0) as [[e|res] w2];
        intros Heq; injection Heq as <- <- <-.
      + repeat split; try discriminate. cbn. lia.
      + repeat split; try discriminate; [|cbn; lia].
        intros _. exists [DescribeTasks (TasksArgs.cluster args) l],
                    (Response.tasks res). reflexivity.
    - intros Heq. injection Heq as <- <- <-.
      repeat split; try discriminate; [|cbn; lia].
      intros _. exists [], []. reflexivity. }
  assert (Hthen : forall (made : list event) l w0,
            count is_page_output made = 0 -> count is_describe made = 0 ->
            count is_list_tasks made <= 2 ->
            forall o0 w1 t0,
            match describe_and_show args l w0 with
            | (o1, w2, t2) => (o1, w2, made ++ t2)
            end = (o0, w1, t0) ->
            count is_page_output t0 = (if o0 is Returned _ then 1 else 0) /\
            (o0 = Returned tt ->
             exists before rows, t0 = before ++ [PageOutput rows]) /\
            count is_list_tasks t0 <= 2 /\ count is_describe t0 <= 1 /\
            o0 <> OutOfFuel).
  { intros made l w0 Hp Hd Hl o0 w1 t0.
    destruct (describe_and_show args l w0) as [[o1 w2] t2] eqn:Hs.
    destruct (Hshow l w0 o1 w2 t2 Hs) as (H1 & H2 & H3 & H4 & H5).
    intros Heq. injection Heq as <- <- <-.
    rewrite !count_app, Hp, Hd, H1, H3.
    split; [reflexivity|]. split.
    - intros Ho. destruct (H2 Ho) as (before & rows & ->).
      exists (made ++ before), rows. rewrite app_assoc. reflexivity.
    - repeat split; [lia|lia|exact H5]. }
  destruct (nonempty (TasksArgs.tasks args)); cbn [negb].
  { rewrite bind_ret_l. intros Heq.
    destruct (Hshow _ _ _ _ _ Heq) as (H1 & H2 & H3 & H4 & H5).
    repeat split; try assumption. lia. }
  unfold bind at 1. unfold bind at 1. unfold call at 1.
  destruct (list_tasks (list_tasks_args_of args) w) as [[e|found] w1].
  { intros Heq. injection Heq as <- <- <-.
    repeat split; try discriminate; cbn; lia. }
  destruct (given (TasksArgs.desired_status args)); cbn [negb].
  { unfold ret at 1. apply Hthen; reflexivity || (cbn; lia). }
  unfold bind at 1. unfold lift at 1.
  destruct (kwargs "desiredStatus" "STOPPED" (list_tasks_args_of args))
    as [e|kw].
  { intros Heq. injection Heq as <- <- <-.
    repeat split; try discriminate; cbn; lia. }
  unfold bind at 1. unfold call at 1.
  destruct (list_tasks kw w1) as [[e|stopped] w2].
  { intros Heq. injection Heq as <- <- <-.
    repeat split; try discriminate; cbn; lia. }
  unfold ret at 1.
  destruct (describe_and_show args (found ++ stopped) w2) as [[o1 w3] t2]
    eqn:Hs.
  destruct (Hshow _ _ _ _ _ Hs) as (H1 & H2 & H3 & H4 & H5).
  intros Heq. injection Heq as <- <- <-. cbn [app].
  change (count is_page_output (ListTasks ?a :: ListTasks ?b :: ?l))
    with (count is_page_output l).
  change (count is_describe (ListTasks ?a :: ListTasks ?b :: ?l))
    with (count is_describe l).
  change (count is_list_tasks (ListTasks ?a :: ListTasks ?b :: ?l))
    with (S (S (count is_list_tasks l))).
  rewrite H3. split; [exact H1|]. split.
  - intros Ho. destruct (H2 Ho) as (before & rows & ->).
    exists (ListTasks (list_tasks_args_of args) :: ListTasks kw :: before),
           rows. reflexivity.
  - repeat split; [lia|exact H4|exact H5].
Qed.

(** X13: the keyword arguments of the queries hold exactly the options
    that were given a non-empty value: [cluster], [launchType] and
    [desiredStatus] under their own keys, and no other key. *)
Theorem list_tasks_args_lookup (args : TasksArgs.t) (key : string) :
  list_tasks_args_of args !! key
  = if String.eqb key "desiredStatus" then
      (if given (TasksArgs.desired_status args)
       then TasksArgs.desired_status args else None)
    else if String.eqb key "launchType" then
      (if given (TasksArgs.launch_type args)
       then TasksArgs.launch_type args else None)
    else if String.eqb key "cluster" then
      (if given (TasksArgs.cluster args)
       then TasksArgs.cluster args else None)
    else None.
Proof.
  assert (Hset : forall k v d,
            set_if k v d !! key
            = if String.eqb key k then
                (if given v then v else d !! key)
              else d !! key).
  { intros k v d. destruct (String.eqb_spec key k) as [->|Hne].
    - destruct (given v) eqn:Hv; [apply set_if_given; exact Hv|].
      rewrite (set_if_not_given _ _ _ Hv). reflexivity.
    - apply set_if_other. congruence. }
  unfold list_tasks_args_of. rewrite !Hset, lookup_empty.
  destruct (String.eqb_spec key "desiredStatus") as [->|_];
    [destruct (given (TasksArgs.desired_status args)); reflexivity|].
  destruct (String.eqb_spec key "launchType") as [->|_];
    [destruct (given (TasksArgs.launch_type args)); reflexivity|].
  reflexivity.
Qed.

End ListingCases.

Lemma tasks_given_are_not_looked_up_witness :
  tasks Cases.list_given Demo.cluster_world
  = (Returned tt,
     {| Aws.res := Aws.empty; Aws.polls := 1;
        Aws.env := Aws.env Demo.cluster_world |},
     [DescribeTasks (Some "c1") ["task-x"; "task-y"];
      PageOutput (Response.tasks Demo.description)]).
Proof.
  refine (tasks_given_are_not_looked_up Cases.list_given Demo.cluster_world
            _ Demo.description _ eq_refl).
  discriminate.
Defined.

Lemma tasks_nothing_found_witness :
  tasks Demo.list_all (Aws.fresh (Aws.scripted "" Demo.running []))
  = (Returned tt, Aws.fresh (Aws.scripted "" Demo.running []),
     [ListTasks ∅; ListTasks (<["desiredStatus" := "STOPPED"]> ∅);
      PageOutput []]).
Proof.
  exact (proj2 (tasks_nothing_found Demo.list_all
                  (Aws.fresh (Aws.scripted "" Demo.running []))
                  (Aws.fresh (Aws.scripted "" Demo.running []))
                  (Aws.fresh (Aws.scripted "" Demo.running []))
                  eq_refl eq_refl) eq_refl eq_refl).
Defined.

Lemma tasks_shows_only_on_success_witness :
  tasks Demo.list_all Cases.unlisted
  = (Raised (ClientError "ThrottlingException"), Cases.unlisted,
     [ListTasks ∅]) /\
  count is_page_output [ListTasks ∅] = 0.
Proof.
  assert (Hrun : tasks Demo.list_all Cases.unlisted
                 = (Raised (ClientError "ThrottlingException"),
                    Cases.unlisted, [ListTasks ∅]))
    by (vm_compute; reflexivity).
  split; [exact Hrun|].
  exact (proj1 (tasks_shows_only_on_success Demo.list_all Cases.unlisted
                  _ _ _ Hrun)).
Defined.

(** ** The cluster listing *)

(** X14: the cluster listing describes the clusters it has, whatever they
    are: the clusters given on the command line, without listing any, or
    else all the clusters listed - and when none is listed it still calls
    [describe_clusters], with an empty list.  The descriptions are shown
    when that call returns, and nothing is shown when it raises. *)
Theorem clusters_describes_what_it_has (listed : result (list string))
    (described : list string -> result (list Cluster.t))
    (args_clusters found : list string) :
  (if nonempty args_clusters then found = args_clusters
   else listed = inr found) ->
  exists shown,
    fst (Clusters.clusters listed described args_clusters)
    = (if nonempty args_clusters then [] else [Clusters.ListClusters])
      ++ Clusters.DescribeClusters found :: shown /\
    (snd (Clusters.clusters listed described args_clusters) = None ->
     exists desc,
       described found = inr desc /\ shown = [Clusters.PageOutput desc]) /\
    (forall e,
       snd (Clusters.clusters listed described args_clusters) = Some e ->
       described found = inl e /\ shown = []).
Proof.
  unfold Clusters.clusters.
  destruct (nonempty args_clusters); cbn [negb]; intros Hfound;
    [rewrite <- Hfound|rewrite Hfound];
    destruct (described found) as [e|desc] eqn:Hd; cbn [fst snd app].
  - exists []. split; [reflexivity|]. split; [discriminate|].
    intros e' He. injection He as <-. split; reflexivity.
  - exists [Clusters.PageOutput desc]. split; [reflexivity|].
    split; [|discriminate].
    intros _. exists desc. split; reflexivity.
  - exists []. split; [reflexivity|]. split; [discriminate|].
    intros e' He. injection He as <-. split; reflexivity.
  - exists [Clusters.PageOutput desc]. split; [reflexivity|].
    split; [|discriminate].
    intros _. exists desc. split; reflexivity.
Qed.

Lemma clusters_describes_what_it_has_witness :
  Clusters.clusters (inr []) ClusterCases.described []
  = ([Clusters.ListClusters; Clusters.DescribeClusters [];
      Clusters.PageOutput [ClusterCases.default_cluster]], None).
Proof.
  destruct (clusters_describes_what_it_has (inr []) ClusterCases.described
              [] [] eq_refl) as (shown & Hcalls & Hshown & _).
  destruct (Hshown eq_refl) as (desc & Hdesc & ->).
  injection Hdesc as <-. reflexivity.
Defined.

(** * Properties of [ls.py] *)

(** ** Comprehensions that may raise *)

Section MapM.

Context {A B : Type}.
Variable f : A -> Ls.result B.

Lemma mapM_cons (x : A) (xs : list A) (ys : list B) :
  Ls.mapM f (x :: xs) = inr ys ->
  exists y ys', ys = y :: ys' /\ f x = inr y /\ Ls.mapM f xs = inr ys'.
Proof.
  cbn [Ls.mapM]. unfold Ls.bind.
  destruct (f x) as [e|y]; [discriminate|].
  destruct (Ls.mapM f xs) as [e|ys']; [discriminate|].
  intros Heq. injection Heq as <-. exists y, ys'. repeat split.
Qed.

(** The comprehension returns: element by element. *)
Lemma mapM_returns (l : list A) (ys : list B) :
  Ls.mapM f l = inr ys -> Forall2 (fun x y => f x = inr y) l ys.
Proof.
  revert ys. induction l as [|x xs IH]; intros ys.
  - intros Heq. injection Heq as <-. constructor.
  - intros Heq. destruct (mapM_cons x xs ys Heq) as (y & ys' & -> & Hy & Hys).
    constructor; [exact Hy|exact (IH ys' Hys)].
Qed.

Lemma mapM_length (l : list A) (ys : list B) :
  Ls.mapM f l = inr ys -> length ys = length l.
Proof.
  intros Heq. symmetry. exact (Forall2_length _ _ _ (mapM_returns l ys Heq)).
Qed.

(** The comprehension raises: what some element raises. *)
Lemma mapM_raises (l : list A) (e : Ls.exn) :
  Ls.mapM f l = inl e -> exists x, In x l /\ f x = inl e.
Proof.
  induction l as [|x xs IH]; [discriminate|].
  cbn [Ls.mapM]. unfold Ls.bind.
  destruct (f x) as [e'|y] eqn:Hx.
  - intros Heq. injection Heq as <-. exists x. split; [left; reflexivity|exact Hx].
  - destruct (Ls.mapM f xs) as [e'|ys']; [|discriminate].
    intros Heq. injection Heq as <-.
    destruct (IH eq_refl) as (x' & Hin & Hx').
    exists x'. split; [right; exact Hin|exact Hx'].
Qed.

(** Every element returns: so does the comprehension. *)
Lemma mapM_all (l : list A) :
  (forall x, In x l -> exists y, f x = inr y) -> exists ys, Ls.mapM f l = inr ys.
Proof.
  induction l as [|x xs IH]; intros Hall; [exists []; reflexivity|].
  destruct (Hall x (or_introl eq_refl)) as [y Hy].
  destruct (IH (fun x' Hin => Hall x' (or_intror Hin))) as [ys Hys].
  exists (y :: ys). cbn [Ls.mapM]. unfold Ls.bind. rewrite Hy, Hys.
  reflexivity.
Qed.

End MapM.

Lemma Forall2_in_left {A B : Type} (P : A -> B -> Prop) (l : list A)
    (l' : list B) (x : A) :
  Forall2 P l l' -> In x l -> exists y, In y l' /\ P x y.
Proof.
  induction 1 as [|a b l l' Hab _ IH]; intros Hin; [contradiction|].
  destruct Hin as [<-|Hin].
  - exists b. split; [left; reflexivity|exact Hab].
  - destruct (IH Hin) as (y & Hy & Hxy). exists y. split; [right|]; assumption.
Qed.

(** ** [get_cell] and [tabulate] *)

Lemma assoc_none_getattr (r : Ls.resource) (field : string) (e : Ls.exn) :
  Ls.getattr r field = inl e ->
  Ls.assoc field r = None /\ e = Ls.AttributeError field.
Proof.
  unfold Ls.getattr. destruct (Ls.assoc field r); [discriminate|].
  intros Heq. injection Heq as <-. split; reflexivity.
Qed.

Lemma get_cell_raises (r : Ls.resource) (field : string) (e : Ls.exn) :
  Ls.get_cell r field = inl e ->
  Ls.assoc field r = None /\ e = Ls.AttributeError field.
Proof.
  unfold Ls.get_cell, Ls.bind.
  destruct (Ls.getattr r field) as [e'|cell] eqn:Hg.
  - intros Heq. injection Heq as <-. exact (assoc_none_getattr r field e' Hg).
  - destruct cell; discriminate.
Qed.

Lemma get_cell_returns (r : Ls.resource) (field : string) (v : Ls.value) :
  Ls.assoc field r = Some v ->
  Ls.get_cell r field
  = inr (match v with
         | Ls.VCollection names => Ls.VStr (Py.join ", " names)
         | _ => v
         end).
Proof.
  intros Hv. unfold Ls.get_cell, Ls.bind, Ls.getattr. rewrite Hv.
  destruct v; reflexivity.
Qed.

(** What [tabulate] returns, cell by cell. *)
Lemma tabulate_returns (collection : list Ls.resource)
    (columns : list string) (width : nat) (t : Ls.Table) :
  Ls.tabulate collection columns width = inr t ->
  Ls.column_names t = columns /\ Ls.max_col_width t = width /\
  length (Ls.rows t) = length collection /\
  Forall2
    (fun r row =>
       length row = length columns /\
       Forall2 (fun field cell =>
                  exists v, Ls.assoc field r = Some v /\
                    cell = match v with
                           | Ls.VCollection names =>
                               Ls.VStr (Py.join ", " names)
                           | _ => v
                           end)
               columns row)
    collection (Ls.rows t).
Proof.
  unfold Ls.tabulate, Ls.bind.
  destruct (Ls.mapM _ collection) as [e|table] eqn:Htable; [discriminate|].
  intros Heq. injection Heq as <-. cbn.
  split; [reflexivity|]. split; [reflexivity|].
  split; [exact (mapM_length _ _ _ Htable)|].
  apply mapM_returns in Htable.
  induction Htable as [|r row rs rows Hrow _ IH]; constructor; [|exact IH].
  split; [exact (mapM_length _ _ _ Hrow)|].
  apply mapM_returns in Hrow. clear -Hrow.
  induction Hrow as [|field cell fs cells Hcell _ IH]; constructor;
    [|exact IH].
  destruct (Ls.assoc field r) as [v|] eqn:Hv.
  - exists v. split; [reflexivity|].
    rewrite (get_cell_returns r field v Hv) in Hcell.
    injection Hcell as <-. reflexivity.
  - unfold Ls.get_cell, Ls.bind, Ls.getattr in Hcell. rewrite Hv in Hcell.
    discriminate.
Qed.

(** X15: the table [tabulate] hands to [format_table] has one row for each
    resource of the collection, in order, and in each row one cell for
    each column, in order: the attribute of that name as it is, or, when
    the attribute is a collection, the names of its items joined by a
    comma and a space.  Column names and width are passed on. *)
Theorem tabulate_table (collection : list Ls.resource)
    (columns : list string) (width : nat) (t : Ls.Table) :
  Ls.tabulate collection columns width = inr t ->
  Ls.column_names t = columns /\ Ls.max_col_width t = width /\
  length (Ls.rows t) = length collection /\
  Forall2
    (fun r row =>
       length row = length columns /\
       Forall2 (fun field cell =>
                  exists v, Ls.assoc field r = Some v /\
                    cell = match v with
                           | Ls.VCollection names =>
                               Ls.VStr (Py.join ", " names)
                           | _ => v
                           end)
               columns row)
    collection (Ls.rows t).
Proof.
  exact (tabulate_returns collection columns width t).
Qed.

Lemma tabulate_table_witness :
  Ls.tabulate [LsCases.alice; LsCases.bob] ["name"; "groups"] 64
  = inr {| Ls.rows := [[Ls.VStr "alice"; Ls.VStr "admins, devs"];
                       [Ls.VStr "bob"; Ls.VStr ""]];
           Ls.column_names := ["name"; "groups"];
           Ls.max_col_width := 64 |} /\
  length (Ls.rows {| Ls.rows := [[Ls.VStr "alice"; Ls.VStr "admins, devs"];
                                 [Ls.VStr "bob"; Ls.VStr ""]];
                     Ls.column_names := ["name"; "groups"];
                     Ls.max_col_width := 64 |}) = 2.
Proof.
  split; [reflexivity|].
  exact (proj1 (proj2 (proj2
           (tabulate_table [LsCases.alice; LsCases.bob] ["name"; "groups"] 64
              _ eq_refl)))).
Defined.



(** ** Rows and columns *)

Lemma index_of_returns (x : string) (l : list string) (i : nat) :
  Ls.index_of x l = inr i -> nth_error l i = Some x.
Proof.
  revert i. induction l as [|y ys IH]; intros i; [discriminate|].
  cbn [Ls.index_of]. destruct (String.eqb_spec y x) as [->|Hne].
  - intros Heq. injection Heq as <-. reflexivity.
  - unfold Ls.bind. destruct (Ls.index_of x ys) as [e|n]; [discriminate|].
    intros Heq. injection Heq as <-. exact (IH n eq_refl).
Qed.

Lemma index_of_contains (x : string) (l : list string) :
  Ls.contains x l = true -> exists i, Ls.index_of x l = inr i.
Proof.
  unfold Ls.contains. induction l as [|y ys IH]; [discriminate|].
  cbn [existsb Ls.index_of]. rewrite (String.eqb_sym x y).
  destruct (String.eqb y x); [intros _; exists 0; reflexivity|].
  cbn [orb]. intros Hin. destruct (IH Hin) as [i Hi].
  exists (S i). unfold Ls.bind. rewrite Hi. reflexivity.
Qed.

Lemma index_of_missing (x : string) (l : list string) :
  Ls.contains x l = false -> Ls.index_of x l = inl (Ls.ValueError x).
Proof.
  unfold Ls.contains. induction l as [|y ys IH]; [reflexivity|].
  cbn [existsb Ls.index_of]. rewrite (String.eqb_sym x y).
  destruct (String.eqb y x); [discriminate|].
  cbn [orb]. intros Hin. unfold Ls.bind. rewrite (IH Hin). reflexivity.
Qed.

Lemma contains_with_column (name : string) (columns : list string) :
  Ls.contains name (Ls.with_column name columns) = true.
Proof.
  unfold Ls.with_column.
  destruct (Ls.contains name columns) eqn:Hc; cbn [negb]; [exact Hc|].
  unfold Ls.contains. rewrite existsb_app. cbn.
  rewrite String.eqb_refl. apply orb_true_r.
Qed.

Lemma contains_with_other (name other : string) (columns : list string) :
  other <> name ->
  Ls.contains other (Ls.with_column name columns) = Ls.contains other columns.
Proof.
  intros Hne. unfold Ls.with_column.
  destruct (Ls.contains name columns); cbn [negb]; [reflexivity|].
  unfold Ls.contains. rewrite existsb_app. cbn.
  destruct (String.eqb_spec other name); [contradiction|].
  rewrite !orb_false_r. reflexivity.
Qed.

Lemma setitem_returns (row row' : list Ls.value) (i : nat) (v : Ls.value) :
  Ls.setitem row i v = inr row' ->
  row' = <[i := v]> row /\ i < length row /\ length row' = length row.
Proof.
  unfold Ls.setitem. destruct (Nat.ltb_spec i (length row)); [|discriminate].
  intros Heq. injection Heq as <-.
  rewrite length_insert. repeat split. assumption.
Qed.

Lemma nth_error_insert_eq (row : list Ls.value) (i : nat) (v : Ls.value) :
  i < length row -> nth_error (<[i := v]> row) i = Some v.
Proof.
  revert i. induction row as [|x row IH]; intros i Hi; [simpl in Hi; lia|].
  destruct i as [|i]; [reflexivity|]. simpl. apply IH. simpl in Hi. lia.
Qed.

Lemma nth_error_insert_ne (row : list Ls.value) (i j : nat) (v : Ls.value) :
  i <> j -> nth_error (<[i := v]> row) j = nth_error row j.
Proof.
  revert i j. induction row as [|x row IH]; intros i j Hne.
  - destruct i; reflexivity.
  - destruct i as [|i], j as [|j]; try reflexivity; [lia|].
    simpl. apply IH. lia.
Qed.

Lemma item_returns (row : list Ls.value) (i : nat) (v : Ls.value) :
  Ls.item row i = inr v <-> nth_error row i = Some v.
Proof.
  unfold Ls.item. destruct (nth_error row i); split; intros Heq;
    try discriminate; injection Heq as <-; reflexivity.
Qed.

(** The row of attributes of an instance, read at the index of a column,
    is the attribute of that name. *)
Lemma attribute_row (inst : Ls.resource) (columns : list string)
    (row : list Ls.value) (field : string) (i : nat) :
  Ls.mapM (fun f => Ls.getattr inst f) columns = inr row ->
  Ls.index_of field columns = inr i ->
  exists v, nth_error row i = Some v /\ Ls.getattr inst field = inr v.
Proof.
  intros Hrow Hi. apply mapM_returns in Hrow. apply index_of_returns in Hi.
  revert i Hi. induction Hrow as [|f v fs vs Hv _ IH]; intros i Hi.
  - destruct i; discriminate.
  - destruct i as [|i].
    + injection Hi as ->. exists v. split; [reflexivity|exact Hv].
    + exact (IH i Hi).
Qed.

Lemma index_of_differ (a b : string) (l : list string) (i j : nat) :
  Ls.index_of a l = inr i -> Ls.index_of b l = inr j -> a <> b -> i <> j.
Proof.
  intros Ha Hb Hne ->. apply index_of_returns in Ha, Hb. congruence.
Qed.

(** ** The tags of a row *)

Lemma tags_fold (kvs : list (string * string)) (acc : list (string * string)) :
  Ls.foldM Ls.add_tag acc (map (fun kv => LsCases.tag (fst kv) (snd kv)) kvs)
  = inr (fold_left (fun d kv => Ls.dict_set d (fst kv) (snd kv)) kvs acc).
Proof.
  revert acc. induction kvs as [|[k v] kvs IH]; intros acc; [reflexivity|].
  cbn [map Ls.foldM fold_left]. unfold Ls.bind at 1. cbn.
  exact (IH (Ls.dict_set acc k v)).
Qed.

Lemma assoc_dict_set (d : list (string * string)) (k v key : string) :
  Ls.assoc key (Ls.dict_set d k v)
  = if String.eqb k key then Some v else Ls.assoc key d.
Proof.
  induction d as [|[k' v'] d IH]; cbn [Ls.dict_set Ls.assoc].
  - reflexivity.
  - destruct (String.eqb_spec k' k) as [->|Hne]; cbn [Ls.assoc].
    + destruct (String.eqb k key); reflexivity.
    + rewrite IH. destruct (String.eqb_spec k' key) as [->|Hne'];
        [|reflexivity].
      destruct (String.eqb_spec k key) as [->|_]; [contradiction|reflexivity].
Qed.

Lemma dict_set_fresh (d : list (string * string)) (k v : string) :
  Ls.assoc k d = None -> Ls.dict_set d k v = d ++ [(k, v)].
Proof.
  induction d as [|[k' v'] d IH]; cbn [Ls.dict_set Ls.assoc app];
    [reflexivity|].
  destruct (String.eqb k' k); [discriminate|].
  intros Hd. rewrite (IH Hd). reflexivity.
Qed.

Lemma assoc_app_none (d d' : list (string * string)) (k : string) :
  Ls.assoc k d = None -> Ls.assoc k (d ++ d') = Ls.assoc k d'.
Proof.
  induction d as [|[k' v'] d IH]; cbn [Ls.assoc app]; [reflexivity|].
  destruct (String.eqb k' k); [discriminate|exact IH].
Qed.

Lemma assoc_not_in (d : list (string * string)) (k : string) :
  ~ In k (map fst d) -> Ls.assoc k d = None.
Proof.
  induction d as [|[k' v'] d IH]; cbn [Ls.assoc map fst]; [reflexivity|].
  intros Hin. destruct (String.eqb_spec k' k) as [->|_].
  - contradiction Hin. left. reflexivity.
  - apply IH. intros Hd. apply Hin. right. exact Hd.
Qed.

Lemma fold_set_distinct (kvs acc : list (string * string)) :
  List.NoDup (map fst kvs) ->
  (forall k, In k (map fst kvs) -> Ls.assoc k acc = None) ->
  fold_left (fun d kv => Ls.dict_set d (fst kv) (snd kv)) kvs acc = acc ++ kvs.
Proof.
  revert acc. induction kvs as [|[k v] kvs IH]; intros acc Hnd Hacc.
  - rewrite app_nil_r. reflexivity.
  - cbn [fold_left fst snd].
    rewrite dict_set_fresh by (apply Hacc; left; reflexivity).
    inversion Hnd as [|k' ks Hk Hnd']; subst.
    rewrite IH; [rewrite <- app_assoc; reflexivity|exact Hnd'|].
    intros k0 Hk0. rewrite assoc_app_none by (apply Hacc; right; exact Hk0).
    cbn [Ls.assoc]. destruct (String.eqb_spec k k0) as [->|_];
      [contradiction|reflexivity].
Qed.

Lemma fold_set_lookup (kvs acc : list (string * string)) (key : string) :
  Ls.assoc key (fold_left (fun d kv => Ls.dict_set d (fst kv) (snd kv)) kvs acc)
  = match Ls.assoc key (rev kvs) with
    | Some v => Some v
    | None => Ls.assoc key acc
    end.
Proof.
  revert acc. induction kvs as [|[k v] kvs IH]; intros acc; [reflexivity|].
  cbn [fold_left rev]. rewrite IH. cbn [fst snd].
  rewrite assoc_dict_set.
  destruct (Ls.assoc key (rev kvs)) as [v'|] eqn:Hrev.
  - assert (Happ : forall d', Ls.assoc key (rev kvs ++ d') = Some v').
    { intros d'. revert Hrev. generalize (rev kvs).
      induction l as [|[k1 v1] l IHl]; cbn [Ls.assoc app]; [discriminate|].
      destruct (String.eqb k1 key); [tauto|exact IHl]. }
    rewrite Happ. reflexivity.
  - rewrite (assoc_app_none _ _ _ Hrev). cbn [Ls.assoc].
    destruct (String.eqb k key); reflexivity.
Qed.

(** X17: the tags of an instance as line 27 gathers them.  From a list of
    tags with distinct keys the dict holds the tags as they come; in any
    case a key is looked up to the value of the last tag that has it. *)
Theorem tags_of_tag_list (kvs : list (string * string)) :
  exists d,
    Ls.tags_of (Ls.VList (map (fun kv => LsCases.tag (fst kv) (snd kv)) kvs))
    = inr d /\
    (forall key, Ls.assoc key d = Ls.assoc key (rev kvs)) /\
    (List.NoDup (map fst kvs) -> d = kvs).
Proof.
  exists (fold_left (fun d kv => Ls.dict_set d (fst kv) (snd kv)) kvs []). split; [|split].
  - unfold Ls.tags_of. destruct kvs as [|kv kvs]; [reflexivity|].
    cbn [Ls.truthy map nonempty Ls.iter]. unfold Ls.bind at 1.
    exact (tags_fold (kv :: kvs) []).
  - intros key. rewrite fold_set_lookup.
    destruct (Ls.assoc key (rev kvs)); reflexivity.
  - intros Hnd. rewrite fold_set_distinct; [reflexivity|exact Hnd|].
    intros k _. reflexivity.
Qed.

Lemma tags_of_tag_list_witness :
  Ls.tags_of (Ls.VList [LsCases.tag "Name" "web"; LsCases.tag "env" "prod"])
  = inr [("Name", "web"); ("env", "prod")].
Proof.
  destruct (tags_of_tag_list [("Name", "web"); ("env", "prod")])
    as (d & Hd & _ & Hsame).
  rewrite (Hsame ltac:(repeat constructor; simpl; intuition discriminate))
    in Hd.
  exact Hd.
Defined.

(** ** The instance listing *)

(** What one turn of the loop of [ls] does to a row. *)
Lemma ls_row_returns (columns : list string) (row out : list Ls.value) :
  Ls.ls_row columns row = inr out ->
  exists row1 i cell tags j default,
    (if Ls.contains "state" columns then
       exists k state name,
         Ls.index_of "state" columns = inr k /\
         nth_error row k = Some state /\
         Ls.subscript state "Name" = inr name /\
         k < length row /\ row1 = <[k := name]> row
     else row1 = row) /\
    Ls.index_of "tags" columns = inr i /\
    nth_error row1 i = Some cell /\
    Ls.tags_of cell = inr tags /\
    Ls.index_of "id" columns = inr j /\
    nth_error row1 j = Some default /\
    out = match Ls.assoc "Name" tags with
          | Some v => Ls.VStr v
          | None => default
          end
          :: <[i := Ls.VStr (Py.join ", " (map Ls.format_tag tags))]> row1.
Proof.
  unfold Ls.ls_row. unfold Ls.bind at 1.
  match goal with
  | |- context [match ?m with inl _ => _ | inr _ => _ end = _] =>
      destruct m as [e|row1] eqn:Hstate
  end; [discriminate|].
  unfold Ls.bind at 1.
  destruct (Ls.index_of "tags" columns) as [e|i] eqn:Hi; [discriminate|].
  unfold Ls.bind at 1.
  destruct (Ls.item row1 i) as [e|cell] eqn:Hcell; [discriminate|].
  unfold Ls.bind at 1.
  destruct (Ls.tags_of cell) as [e|tags] eqn:Htags; [discriminate|].
  unfold Ls.bind at 1.
  destruct (Ls.index_of "id" columns) as [e|j] eqn:Hj; [discriminate|].
  unfold Ls.bind at 1.
  destruct (Ls.item row1 j) as [e|default] eqn:Hdef; [discriminate|].
  unfold Ls.bind at 1.
  destruct (Ls.setitem row1 i _) as [e|row2] eqn:Hset; [discriminate|].
  intros Heq. injection Heq as <-.
  destruct (setitem_returns _ _ _ _ Hset) as (-> & _ & _).
  exists row1, i, cell, tags, j, default.
  split;
    [|split; [reflexivity|]; split; [apply item_returns; exact Hcell|];
      split; [exact Htags|]; split; [reflexivity|];
      split; [apply item_returns; exact Hdef|reflexivity]].
  destruct (Ls.contains "state" columns).
  - unfold Ls.bind in Hstate.
    destruct (Ls.index_of "state" columns) as [e|k]; [discriminate|].
    destruct (Ls.item row k) as [e|state] eqn:Hk; [discriminate|].
    destruct (Ls.subscript state "Name") as [e|name] eqn:Hname;
      [discriminate|].
    destruct (setitem_returns _ _ _ _ Hstate) as (-> & Hlt & _).
    exists k, state, name.
    split; [reflexivity|]. split; [apply item_returns; exact Hk|].
    split; [exact Hname|]. split; [exact Hlt|reflexivity].
  - injection Hstate as <-. reflexivity.
Qed.

(** X18: the table of the instance listing, when it returns.  Its columns
    are "name" and then the columns asked for, with "tags" added at the
    end when it was not among them.  There is one row for each instance,
    in order, with one cell for each column: first the value of the tag
    "Name" of the instance, or its [id] when it has no such tag; under
    "tags", the tags as [key=value] joined by a comma and a space; under
    "state", when that column is asked for, the ["Name"] of the state. *)
Theorem ls_table (args_columns : list string) (instances : list Ls.resource)
    (t : Ls.Table) :
  Ls.ls args_columns instances = inr t ->
  Ls.column_names t = "name" :: Ls.with_column "tags" args_columns /\
  Ls.max_col_width t = 64 /\
  Forall2
    (fun inst row =>
       length row = length (Ls.column_names t) /\
       exists cell tags id i,
         Ls.getattr inst "tags" = inr cell /\
         Ls.tags_of cell = inr tags /\
         Ls.getattr inst "id" = inr id /\
         nth_error row 0
         = Some (match Ls.assoc "Name" tags with
                 | Some v => Ls.VStr v
                 | None => id
                 end) /\
         Ls.index_of "tags" (Ls.with_column "tags" args_columns) = inr i /\
         nth_error row (S i)
         = Some (Ls.VStr (Py.join ", " (map Ls.format_tag tags))) /\
         (Ls.contains "state" args_columns = true ->
          exists k state name,
            Ls.index_of "state" (Ls.with_column "tags" args_columns) = inr k /\
            Ls.getattr inst "state" = inr state /\
            Ls.subscript state "Name" = inr name /\
            nth_error row (S k) = Some name))
    instances (Ls.rows t).
Proof.
  unfold Ls.ls. set (columns := Ls.with_column "tags" args_columns).
  unfold Ls.bind at 1.
  destruct (Ls.mapM _ instances) as [e|table] eqn:Htable; [discriminate|].
  unfold Ls.bind at 1.
  destruct (Ls.mapM (Ls.ls_row columns) table) as [e|rows] eqn:Hrows;
    [discriminate|].
  intros Heq. injection Heq as <-. cbn [Ls.column_names Ls.max_col_width Ls.rows].
  split; [reflexivity|]. split; [reflexivity|].
  apply mapM_returns in Htable. apply mapM_returns in Hrows.
  revert rows Hrows.
  induction Htable as [|inst row0 insts rows0 Hrow0 _ IH]; intros rows Hrows.
  - inversion Hrows; subst. constructor.
  - inversion Hrows as [|? out ? outs Hout Houts]; subst.
    constructor; [|exact (IH outs Houts)].
    destruct (ls_row_returns columns row0 out Hout)
      as (row1 & i & cell & tags & j & default & Hstate & Hi & Hcell & Htags
          & Hj & Hdef & ->).
    assert (Hlen0 : length row0 = length columns)
      by exact (mapM_length _ _ _ Hrow0).
    assert (Hst : Ls.contains "state" columns
                  = Ls.contains "state" args_columns)
      by (apply contains_with_other; discriminate).
    assert (Hlen1 : length row1 = length row0).
    { destruct (Ls.contains "state" columns).
      - destruct Hstate as (k & state & name & _ & _ & _ & _ & ->).
        apply length_insert.
      - subst row1. reflexivity. }
    assert (Hkeep : forall f n, f <> "state" ->
              Ls.index_of f columns = inr n ->
              nth_error row1 n = nth_error row0 n).
    { intros f n Hf Hn. destruct (Ls.contains "state" columns).
      - destruct Hstate as (k & state & name & Hk & _ & _ & _ & ->).
        apply nth_error_insert_ne.
        exact (index_of_differ "state" f columns k n Hk Hn
                 (fun H => Hf (eq_sym H))).
      - subst row1. reflexivity. }
    split.
    { cbn [length]. rewrite length_insert, Hlen1, Hlen0. reflexivity. }
    destruct (attribute_row inst columns row0 "tags" i Hrow0 Hi)
      as (cell' & Hcell' & Hgtags).
    destruct (attribute_row inst columns row0 "id" j Hrow0 Hj)
      as (id' & Hid' & Hgid).
    rewrite (Hkeep "tags" i ltac:(discriminate) Hi) in Hcell.
    rewrite (Hkeep "id" j ltac:(discriminate) Hj) in Hdef.
    assert (cell' = cell) by congruence. assert (id' = default) by congruence.
    subst cell' id'.
    exists cell, tags, default, i.
    split; [exact Hgtags|]. split; [exact Htags|]. split; [exact Hgid|].
    split; [reflexivity|]. split; [exact Hi|].
    assert (Hilt : i < length row1).
    { rewrite Hlen1. apply nth_error_Some. rewrite Hcell'. discriminate. }
    split; [cbn [nth_error]; apply nth_error_insert_eq; exact Hilt|].
    intros Hasked. rewrite <- Hst in Hasked. rewrite Hasked in Hstate.
    destruct Hstate as (k & state & name & Hk & Hstate & Hname & Hklt & ->).
    destruct (attribute_row inst columns row0 "state" k Hrow0 Hk)
      as (state' & Hstate' & Hgstate).
    assert (state' = state) by congruence. subst state'.
    exists k, state, name.
    split; [exact Hk|]. split; [exact Hgstate|]. split; [exact Hname|].
    cbn [nth_error].
    rewrite nth_error_insert_ne
      by exact (index_of_differ "tags" "state" columns i k Hi Hk
                  ltac:(discriminate)).
    apply nth_error_insert_eq. exact Hklt.
Qed.

Lemma ls_table_witness :
  Ls.ls ["id"; "state"] [LsCases.web; LsCases.anonymous]
  = inr {| Ls.rows :=
             [[Ls.VStr "web"; Ls.VStr "i-1"; Ls.VStr "running";
               Ls.VStr "Name=web, env=prod"];
              [Ls.VStr "i-2"; Ls.VStr "i-2"; Ls.VStr "stopped"; Ls.VStr ""]];
           Ls.column_names := ["name"; "id"; "state"; "tags"];
           Ls.max_col_width := 64 |} /\
  Ls.column_names
    {| Ls.rows :=
         [[Ls.VStr "web"; Ls.VStr "i-1"; Ls.VStr "running";
           Ls.VStr "Name=web, env=prod"];
          [Ls.VStr "i-2"; Ls.VStr "i-2"; Ls.VStr "stopped"; Ls.VStr ""]];
       Ls.column_names := ["name"; "id"; "state"; "tags"];
       Ls.max_col_width := 64 |}
  = "name" :: Ls.with_column "tags" ["id"; "state"].
Proof.
  split; [reflexivity|].
  exact (proj1 (ls_table ["id"; "state"] [LsCases.web; LsCases.anonymous]
                  _ eq_refl)).
Defined.

(** Without a column "id" no row gets through the loop. *)
Lemma ls_row_needs_id (columns : list string) (row : list Ls.value) :
  Ls.contains "id" columns = false ->
  exists e, Ls.ls_row columns row = inl e.
Proof.
  intros Hid. destruct (Ls.ls_row columns row) as [e|out] eqn:Hrow;
    [exists e; reflexivity|].
  destruct (ls_row_returns columns row out Hrow)
    as (_ & _ & _ & _ & j & _ & _ & _ & _ & _ & Hj & _).
  rewrite (index_of_missing "id" columns Hid) in Hj. discriminate.
Qed.

(** X19: without "id" among the columns, the instance listing returns
    only when there is no instance to list: with any instance at all it
    raises, whether or not the instance has a tag "Name" - the default of
    the name, the cell under "id", is looked up in any case.  With every
    attribute in place, what it raises is the [ValueError] of
    [columns.index("id")]. *)
Theorem ls_needs_the_id_column (args_columns : list string)
    (instances : list Ls.resource) :
  Ls.contains "id" args_columns = false ->
  ((exists t, Ls.ls args_columns instances = inr t) <-> instances = []) /\
  (instances <> [] ->
   Ls.contains "state" args_columns = false ->
   (forall inst, In inst instances ->
      (forall f, In f (Ls.with_column "tags" args_columns) ->
         Ls.assoc f inst <> None) /\
      Ls.getattr inst "tags" = inr Ls.VNone) ->
   Ls.ls args_columns instances = inl (Ls.ValueError "id")).
Proof.
  intros Hid.
  assert (Hid' : Ls.contains "id" (Ls.with_column "tags" args_columns) = false)
    by (rewrite contains_with_other by discriminate; exact Hid).
  split; [split|].
  - intros [t Ht]. destruct instances as [|inst insts]; [reflexivity|].
    exfalso. unfold Ls.ls, Ls.bind in Ht.
    destruct (Ls.mapM _ (inst :: insts)) as [e|table] eqn:Htable;
      [discriminate|].
    destruct (mapM_cons _ _ _ _ Htable) as (row & rows & -> & _ & _).
    destruct (Ls.mapM _ (row :: rows)) as [e|out] eqn:Hrows; [discriminate|].
    destruct (mapM_cons _ _ _ _ Hrows) as (o1 & o2 & _ & Hrow & _).
    destruct (ls_row_needs_id _ row Hid') as [e He]. congruence.
  - intros ->. eexists. reflexivity.
  - intros Hsome Hstate Hattrs.
    assert (Hstate' : Ls.contains "state" (Ls.with_column "tags" args_columns)
                      = false)
      by (rewrite contains_with_other by discriminate; exact Hstate).
    unfold Ls.ls. unfold Ls.bind at 1.
    destruct (Ls.mapM _ instances) as [e|table] eqn:Htable.
    { exfalso. destruct (mapM_raises _ _ _ Htable) as (inst & Hin & Hrow).
      destruct (mapM_raises _ _ _ Hrow) as (f & Hf & Hget).
      destruct (assoc_none_getattr inst f e Hget) as [Hnone _].
      exact (proj1 (Hattrs inst Hin) f Hf Hnone). }
    destruct instances as [|inst insts]; [contradiction|].
    destruct (mapM_cons _ _ _ _ Htable) as (row & rows & -> & Hrow & _).
    cbn [Ls.mapM]. unfold Ls.bind at 1. unfold Ls.bind at 1.
    assert (Hfirst : Ls.ls_row (Ls.with_column "tags" args_columns) row
                     = inl (Ls.ValueError "id")).
    { unfold Ls.ls_row. rewrite Hstate'. unfold Ls.bind at 1.
      destruct (index_of_contains "tags" _
                  (contains_with_column "tags" args_columns)) as [i Hi].
      rewrite Hi. unfold Ls.bind at 1.
      destruct (attribute_row inst _ row "tags" i Hrow Hi)
        as (cell & Hcell & Hg).
      rewrite (proj2 (Hattrs inst (or_introl eq_refl))) in Hg.
      injection Hg as <-.
      rewrite (proj2 (item_returns row i Ls.VNone) Hcell).
      unfold Ls.bind at 1. cbn [Ls.tags_of Ls.truthy].
      unfold Ls.bind at 1.
      rewrite (index_of_missing "id" _ Hid'). reflexivity. }
    rewrite Hfirst. reflexivity.
Qed.

Lemma ls_needs_the_id_column_witness :
  Ls.ls ["state"] [LsCases.web] = inl (Ls.ValueError "id") /\
  (exists t, Ls.ls ["state"] [] = inr t).
Proof.
  split; [reflexivity|].
  exact (proj2 (proj1 (ls_needs_the_id_column ["state"] [] eq_refl)) eq_refl).
Defined.

(** ** The user listing *)

(** X20: the table of the user listing, when it returns: its columns are
    "cur" and then the columns asked for, with "user_id" added at the end
    when it was not among them; there is one row for each user, in order,
    with one cell for each column, and the first cell is ">>>" for the
    users whose [user_id] is that of the current user and empty for all
    others. *)
Theorem users_marks_the_current_user (args_columns : list string)
    (current_user_id : string) (all_users : list Ls.resource) (t : Ls.Table) :
  Ls.users args_columns current_user_id all_users = inr t ->
  Ls.column_names t = "cur" :: Ls.with_column "user_id" args_columns /\
  Forall2
    (fun user row =>
       length row = length (Ls.column_names t) /\
       exists user_id,
         Ls.getattr user "user_id" = inr user_id /\
         (user_id = Ls.VStr current_user_id ->
          nth_error row 0 = Some (Ls.VStr ">>>")) /\
         (user_id <> Ls.VStr current_user_id ->
          nth_error row 0 = Some (Ls.VStr "")))
    all_users (Ls.rows t).
Proof.
  unfold Ls.users. set (columns := Ls.with_column "user_id" args_columns).
  unfold Ls.bind at 1.
  destruct (Ls.mapM _ all_users) as [e|table] eqn:Htable; [discriminate|].
  intros Heq. injection Heq as <-. cbn [Ls.column_names Ls.rows].
  split; [reflexivity|].
  apply mapM_returns in Htable.
  induction Htable as [|user row users rows Hrow _ IH]; constructor;
    [|exact IH].
  unfold Ls.bind in Hrow.
  destruct (Ls.getattr user "user_id") as [e|user_id]; [discriminate|].
  destruct (Ls.mapM _ columns) as [e|cells] eqn:Hcells; [discriminate|].
  injection Hrow as <-.
  split; [cbn [length]; rewrite (mapM_length _ _ _ Hcells); reflexivity|].
  exists user_id. split; [reflexivity|]. split.
  - intros ->. cbn [nth_error]. rewrite String.eqb_refl. reflexivity.
  - intros Hne. cbn [nth_error]. destruct user_id; try reflexivity.
    destruct (String.eqb_spec s current_user_id) as [->|_];
      [contradiction Hne|]; reflexivity.
Qed.

Lemma users_marks_the_current_user_witness :
  Ls.users ["name"; "groups"] "AIDA2" [LsCases.alice; LsCases.bob]
  = inr {| Ls.rows :=
             [[Ls.VStr ""; Ls.VStr "alice"; Ls.VStr "admins, devs";
               Ls.VStr "AIDA1"];
              [Ls.VStr ">>>"; Ls.VStr "bob"; Ls.VStr ""; Ls.VStr "AIDA2"]];
           Ls.column_names := ["cur"; "name"; "groups"; "user_id"];
           Ls.max_col_width := 64 |} /\
  Ls.column_names
    {| Ls.rows :=
         [[Ls.VStr ""; Ls.VStr "alice"; Ls.VStr "admins, devs";
           Ls.VStr "AIDA1"];
          [Ls.VStr ">>>"; Ls.VStr "bob"; Ls.VStr ""; Ls.VStr "AIDA2"]];
       Ls.column_names := ["cur"; "name"; "groups"; "user_id"];
       Ls.max_col_width := 64 |}
  = "cur" :: Ls.with_column "user_id" ["name"; "groups"].
Proof.
  split; [reflexivity|].
  exact (proj1 (users_marks_the_current_user ["name"; "groups"] "AIDA2"
                  [LsCases.alice; LsCases.bob] _ eq_refl)).
Defined.

(** ** The volume listing *)

Lemma volumes_row_returns (columns : list string) (row out : list Ls.value) :
  Ls.volumes_row columns row = inr out ->
  exists i cell attachments ids,
    Ls.index_of "attachments" columns = inr i /\
    nth_error row i = Some cell /\
    Ls.iter cell = inr attachments /\
    Forall2 (fun a id => Ls.subscript a "InstanceId" = inr (Ls.VStr id))
            attachments ids /\
    out = <[i := Ls.VStr (Py.join ", " ids)]> row.
Proof.
  unfold Ls.volumes_row. unfold Ls.bind at 1.
  destruct (Ls.index_of "attachments" columns) as [e|i]; [discriminate|].
  unfold Ls.bind at 1.
  destruct (Ls.item row i) as [e|cell] eqn:Hcell; [discriminate|].
  unfold Ls.bind at 1.
  destruct (Ls.iter cell) as [e|attachments] eqn:Hiter; [discriminate|].
  unfold Ls.bind at 1.
  destruct (Ls.mapM _ attachments) as [e|values] eqn:Hvalues; [discriminate|].
  unfold Ls.bind at 1.
  destruct (Ls.mapM Ls.as_str values) as [e|ids] eqn:Hids; [discriminate|].
  intros Hset. destruct (setitem_returns _ _ _ _ Hset) as (-> & _ & _).
  exists i, cell, attachments, ids.
  split; [reflexivity|]. split; [apply item_returns; exact Hcell|].
  split; [exact Hiter|]. split; [|reflexivity].
  apply mapM_returns in Hvalues. apply mapM_returns in Hids.
  clear -Hvalues Hids. revert ids Hids.
  induction Hvalues as [|a v attachments values Hv _ IH]; intros ids Hids.
  - inversion Hids; subst. constructor.
  - inversion Hids as [|? id ? ids' Hid Hids']; subst.
    constructor; [|exact (IH ids' Hids')].
    unfold Ls.bind in Hv.
    destruct (Ls.subscript a "InstanceId") as [e|v']; [discriminate|].
    injection Hv as ->. destruct v; try discriminate.
    injection Hid as ->. reflexivity.
Qed.

(** X21: the table of the volume listing, when it returns.  Without a
    column "attachments" it is the table of [tabulate].  With that column,
    the cell under it reads the [InstanceId] of each attachment of the
    volume, in order, joined by a comma and a space - the empty string for
    a volume attached to nothing - and every row has one cell for each
    column. *)
Theorem volumes_table (args_columns : list string)
    (all_volumes : list Ls.resource) (t : Ls.Table) :
  Ls.volumes args_columns all_volumes = inr t ->
  (Ls.contains "attachments" args_columns = false ->
   Ls.tabulate all_volumes args_columns 64 = inr t) /\
  (Ls.contains "attachments" args_columns = true ->
   Ls.column_names t = args_columns /\
   Forall2
     (fun volume row =>
        length row = length args_columns /\
        exists i cell attachments ids,
          Ls.index_of "attachments" args_columns = inr i /\
          Ls.get_cell volume "attachments" = inr cell /\
          Ls.iter cell = inr attachments /\
          Forall2 (fun a id => Ls.subscript a "InstanceId" = inr (Ls.VStr id))
                  attachments ids /\
          nth_error row i = Some (Ls.VStr (Py.join ", " ids)))
     all_volumes (Ls.rows t)).
Proof.
  intros Hv. unfold Ls.volumes in Hv. unfold Ls.bind at 1 in Hv.
  destruct (Ls.mapM _ all_volumes) as [e|table] eqn:Htable; [discriminate|].
  destruct (Ls.contains "attachments" args_columns).
  - unfold Ls.bind in Hv.
    destruct (Ls.mapM (Ls.volumes_row args_columns) table) as [e|rows]
      eqn:Hrows; [discriminate|].
    injection Hv as <-. split; [discriminate|]. intros _.
    cbn [Ls.column_names Ls.rows]. split; [reflexivity|].
    apply mapM_returns in Htable. apply mapM_returns in Hrows.
    revert rows Hrows.
    induction Htable as [|volume row0 volumes rows0 Hrow0 _ IH];
      intros rows Hrows.
    + inversion Hrows; subst. constructor.
    + inversion Hrows as [|? out ? outs Hout Houts]; subst.
      constructor; [|exact (IH outs Houts)].
      destruct (volumes_row_returns args_columns row0 out Hout)
        as (i & cell & attachments & ids & Hi & Hcell & Hiter & Hids & ->).
      split; [rewrite length_insert; exact (mapM_length _ _ _ Hrow0)|].
      exists i, cell, attachments, ids.
      split; [exact Hi|]. split.
      { apply mapM_returns in Hrow0. apply index_of_returns in Hi.
        clear -Hrow0 Hi Hcell. revert i Hi Hcell.
        induction Hrow0 as [|f v fs vs Hv _ IH]; intros i Hi Hcell.
        - destruct i; discriminate.
        - destruct i as [|i].
          + injection Hi as ->. injection Hcell as ->. exact Hv.
          + exact (IH i Hi Hcell). }
      split; [exact Hiter|]. split; [exact Hids|].
      apply nth_error_insert_eq. apply nth_error_Some. rewrite Hcell.
      discriminate.
  - cbn [Ls.bind] in Hv. injection Hv as <-.
    split; [|discriminate]. intros _.
    unfold Ls.tabulate, Ls.bind. rewrite Htable. reflexivity.
Qed.

Lemma volumes_table_witness :
  Ls.volumes ["id"; "attachments"] [LsCases.disk; LsCases.spare]
  = inr {| Ls.rows := [[Ls.VStr "vol-1"; Ls.VStr "i-1, i-2"];
                       [Ls.VStr "vol-2"; Ls.VStr ""]];
           Ls.column_names := ["id"; "attachments"];
           Ls.max_col_width := 64 |} /\
  Ls.column_names
    {| Ls.rows := [[Ls.VStr "vol-1"; Ls.VStr "i-1, i-2"];
                   [Ls.VStr "vol-2"; Ls.VStr ""]];
       Ls.column_names := ["id"; "attachments"];
       Ls.max_col_width := 64 |} = ["id"; "attachments"].
Proof.
  split; [reflexivity|].
  exact (proj1 (proj2 (volumes_table ["id"; "attachments"]
                         [LsCases.disk; LsCases.spare] _ eq_refl) eq_refl)).
Defined.

(** ** The zone listing *)

Lemma contains_in (x : string) (l : list string) :
  Ls.contains x l = true <-> In x l.
Proof.
  unfold Ls.contains. rewrite existsb_exists. split.
  - intros (y & Hy & Heq). apply String.eqb_eq in Heq. subst. exact Hy.
  - intros Hin. exists x. split; [exact Hin|apply String.eqb_refl].
Qed.

(** X22: which zones the zone listing takes.  With no zone named on the
    command line every zone is taken; otherwise a zone is taken exactly
    when its name is one of the names given, or one of them followed by a
    dot. *)
Theorem zone_selected_by_name (args_zones : list string) (zone : Ls.resource)
    (name : string) :
  Ls.assoc "Name" zone = Some (Ls.VStr name) ->
  exists selected,
    Ls.zone_selected args_zones zone = inr selected /\
    (selected = true <->
     args_zones = [] \/ In name args_zones \/
     exists z, In z args_zones /\ name = z +:+ ".").
Proof.
  intros Hname. unfold Ls.zone_selected.
  destruct (nonempty args_zones) eqn:Hany.
  - cbn [Ls.subscript Ls.bind]. rewrite Hname.
    eexists. split; [reflexivity|].
    rewrite contains_in, in_app_iff, in_map_iff. split.
    + intros [Hin|(z & Hz & Hin)]; [right; left; exact Hin|].
      right. right. exists z. split; [exact Hin|symmetry; exact Hz].
    + intros [Hnil|[Hin|(z & Hin & ->)]];
        [subst; discriminate Hany|left; exact Hin|].
      right. exists z. split; [reflexivity|exact Hin].
  - exists true. split; [reflexivity|]. split; [|reflexivity].
    intros _. left. destruct args_zones; [reflexivity|discriminate Hany].
Qed.

Lemma zone_selected_by_name_witness :
  Ls.zone_selected ["example.com"] LsCases.zone_a = inr true /\
  Ls.zone_selected ["example.com"] LsCases.zone_b = inr false.
Proof.
  destruct (zone_selected_by_name ["example.com"] LsCases.zone_a
              "example.com." eq_refl) as (sa & Ha & Hsa).
  destruct (zone_selected_by_name ["example.com"] LsCases.zone_b
              "internal." eq_refl) as (sb & Hb & Hsb).
  split.
  - rewrite Ha. f_equal. apply Hsa. right. right.
    exists "example.com". split; [left|]; reflexivity.
  - rewrite Hb. f_equal. destruct sb; [|reflexivity].
    exfalso. destruct (proj1 Hsb eq_refl) as [H|[H|(z & H & Hz)]].
    + discriminate H.
    + destruct H as [H|[]]. discriminate H.
    + destruct H as [<-|[]]. discriminate Hz.
Defined.

Lemma record_rows_returns (zone rrs : Ls.resource)
    (rows : list (list Ls.value)) :
  Ls.record_rows zone rrs = inr rows ->
  exists records,
    Ls.iter (match Ls.assoc "ResourceRecords" rrs with
             | Some v => v
             | None => Ls.VList []
             end) = inr records /\
    length rows = length records /\
    Forall (fun row => length row = 5) rows.
Proof.
  unfold Ls.record_rows. unfold Ls.bind at 1.
  destruct (Ls.iter _) as [e|records]; [discriminate|].
  intros Hrows. exists records. split; [reflexivity|].
  split; [exact (mapM_length _ _ _ Hrows)|].
  apply mapM_returns in Hrows.
  induction Hrows as [|record row records rows Hrow _ IH]; constructor;
    [|exact IH].
  unfold Ls.bind in Hrow.
  destruct (Ls.as_dict record) as [e|d]; [discriminate|].
  destruct (Ls.subscript (Ls.VDict zone) "Config") as [e|config];
    [discriminate|].
  destruct (Ls.subscript config "PrivateZone") as [e|private];
    [discriminate|].
  injection Hrow as <-. reflexivity.
Qed.

Lemma Forall_concat {A : Type} (P : A -> Prop) (ls : list (list A)) :
  Forall (Forall P) ls -> Forall P (concat ls).
Proof.
  induction 1 as [|l ls Hl _ IH]; cbn [concat]; [constructor|].
  apply Forall_app. split; assumption.
Qed.

Lemma zone_rows_returns (args_zones : list string)
    (record_sets : Ls.value -> list (list Ls.resource)) (zone : Ls.resource)
    (rows : list (list Ls.value)) :
  Ls.zone_rows args_zones record_sets zone = inr rows ->
  Forall (fun row => length row = 5) rows /\
  (Ls.zone_selected args_zones zone = inr false -> rows = []).
Proof.
  unfold Ls.zone_rows. unfold Ls.bind at 1.
  destruct (Ls.zone_selected args_zones zone) as [e|[|]]; [discriminate| |].
  - unfold Ls.bind.
    destruct (Ls.subscript (Ls.VDict zone) "Id") as [e|id]; [discriminate|].
    destruct (Ls.mapM _ _) as [e|per_set] eqn:Hsets; [discriminate|].
    intros Heq. injection Heq as <-. split; [|discriminate].
    apply Forall_concat. apply mapM_returns in Hsets.
    induction Hsets as [|rrs rows rsets per_set Hrows _ IH]; constructor;
      [|exact IH].
    destruct (record_rows_returns zone rrs rows Hrows) as (_ & _ & _ & Hall).
    exact Hall.
  - intros Heq. injection Heq as <-. split; [constructor|reflexivity].
Qed.

(** X23: the table of the zone listing, when it returns, has the five
    columns Name, Type, TTL, Value and Private, and five cells in every
    row; and the record sets of zones that are not taken are never looked
    at: two services that agree on the record sets of the zones taken give
    the same listing. *)
Theorem zones_table (args_zones : list string)
    (zone_pages : list (list Ls.resource))
    (record_sets record_sets' : Ls.value -> list (list Ls.resource)) :
  (forall t, Ls.zones args_zones zone_pages record_sets = inr t ->
     Ls.column_names t = ["Name"; "Type"; "TTL"; "Value"; "Private"] /\
     Forall (fun row => length row = length (Ls.column_names t)) (Ls.rows t))
  /\
  ((forall zone id,
      In zone (concat zone_pages) ->
      Ls.zone_selected args_zones zone = inr true ->
      Ls.subscript (Ls.VDict zone) "Id" = inr id ->
      record_sets id = record_sets' id) ->
   Ls.zones args_zones zone_pages record_sets
   = Ls.zones args_zones zone_pages record_sets').
Proof.
  split.
  - intros t. unfold Ls.zones, Ls.bind.
    destruct (Ls.mapM _ _) as [e|per_zone] eqn:Hzones; [discriminate|].
    intros Heq. injection Heq as <-. cbn [Ls.column_names Ls.rows].
    split; [reflexivity|].
    apply Forall_concat. apply mapM_returns in Hzones.
    induction Hzones as [|zone rows zs per_zone Hrows _ IH]; constructor;
      [|exact IH].
    exact (proj1 (zone_rows_returns _ _ _ _ Hrows)).
  - intros Hagree. unfold Ls.zones. f_equal.
    induction (concat zone_pages) as [|zone zs IH]; [reflexivity|].
    cbn [Ls.mapM].
    assert (Hzone : Ls.zone_rows args_zones record_sets zone
                    = Ls.zone_rows args_zones record_sets' zone).
    { unfold Ls.zone_rows.
      destruct (Ls.zone_selected args_zones zone) as [e|[|]] eqn:Hsel;
        cbn [Ls.bind]; try reflexivity.
      destruct (Ls.subscript (Ls.VDict zone) "Id") as [e|id] eqn:Hid;
        cbn [Ls.bind]; [reflexivity|].
      rewrite (Hagree zone id (or_introl eq_refl) Hsel Hid). reflexivity. }
    rewrite Hzone, IH; [reflexivity|].
    intros z id Hin. apply Hagree. right. exact Hin.
Qed.

Lemma zones_table_witness :
  Ls.zones ["example.com"] [[LsCases.zone_a]; [LsCases.zone_b]]
    LsCases.record_sets
  = inr {| Ls.rows :=
             [[Ls.VStr "www.example.com."; Ls.VStr "A"; Ls.VInt 300;
               Ls.VStr "192.0.2.1"; Ls.VBool false];
              [Ls.VStr "www.example.com."; Ls.VStr "A"; Ls.VInt 300;
               Ls.VStr "192.0.2.2"; Ls.VBool false]];
           Ls.column_names := ["Name"; "Type"; "TTL"; "Value"; "Private"];
           Ls.max_col_width := 64 |} /\
  Ls.zones ["example.com"] [[LsCases.zone_a]; [LsCases.zone_b]]
    LsCases.record_sets
  = Ls.zones ["example.com"] [[LsCases.zone_a]; [LsCases.zone_b]]
      (fun id => match id with
                 | Ls.VStr "/hostedzone/Z1" => LsCases.record_sets id
                 | _ => []
                 end).
Proof.
  split; [reflexivity|].
  apply (proj2 (zones_table ["example.com"]
                  [[LsCases.zone_a]; [LsCases.zone_b]] LsCases.record_sets
                  (fun id => match id with
                             | Ls.VStr "/hostedzone/Z1" =>
                                 LsCases.record_sets id
                             | _ => []
                             end))).
  intros zone id [<-|[<-|[]]] Hsel Hid.
  - injection Hid as <-. reflexivity.
  - discriminate Hsel.
Defined.
